(** * JETSCAPE-analysis: observables, hole subtraction and plotting utilities

    A shallow embedding of

    - [jetscape_analysis/analysis/analyze_events_STAT.py]
      (class [AnalyzeJetscapeEvents_STAT]),
    - [jetscape_analysis/analysis/analyze_events_TG3.py]
      (class [AnalyzeJetscapeEvents_TG3]),
    - [plot/plot_results_STAT_utils.py] (class [PlotUtils]),

    and the properties proved about them.

    Python floats are IEEE binary64 numbers: they are modelled by Rocq's
    primitive [float].  Python exceptions and [sys.exit] are modelled by
    the [result] type; code that fills [observable_dict_event] threads the
    dictionary explicitly. *)

From Stdlib Require Import ZArith List Floats String Ascii Bool Lia.
From stdpp Require Import gmap strings pretty.

Set Warnings "-inexact-float,-register-all".
Open Scope float_scope.

(** ** Python exceptions *)

(** The argument of [sys.exit]: an integer status, or a message (which
    Python prints to stderr, the status then being 1). *)
Inductive exit_arg :=
| ExitCode (status : Z)
| ExitMsg (msg : string).

Definition exit_status (a : exit_arg) : Z :=
  match a with
  | ExitCode status => status
  | ExitMsg _ => 1%Z
  end.

Inductive exn :=
| KeyError (key : string)
| IndexError
| TypeError
| AttributeError
| ValueError
| NameError
| ZeroDivisionError
| OverflowError
| SystemExit (arg : exit_arg).

Inductive result (A : Type) :=
| Ok (a : A)
| Raise (e : exn).
Arguments Ok {A} a.
Arguments Raise {A} e.

Definition rbind {A B} (r : result A) (k : A → result B) : result B :=
  match r with
  | Ok a => k a
  | Raise e => Raise e
  end.

Declare Scope py_scope.
Delimit Scope py_scope with py.
Open Scope py_scope.

Notation "'let?' x ':=' r 'in' k" := (rbind r (fun x => k))
  (at level 10, x pattern, r at level 100, k at level 200) : py_scope.

(** A [for] loop whose body may raise and which carries an accumulator. *)
Fixpoint rfold {A B} (body : B → A → result B) (l : list A) (acc : B) : result B :=
  match l with
  | [] => Ok acc
  | x :: l' => let? acc' := body acc x in rfold body l' acc'
  end.

(** ** Python and numpy arithmetic on floats *)

(** [x / y] on two Python floats. *)
Definition py_div (x y : float) : result float :=
  if y =? 0 then Raise ZeroDivisionError else Ok (x / y).

(** [pid in [...]] on integers, [x in [...]] on floats. *)
Definition in_Z (x : Z) (l : list Z) : bool := existsb (Z.eqb x) l.
Definition in_float (x : float) (l : list float) : bool := existsb (PrimFloat.eqb x) l.

(** [a < x < b] *)
Definition between (a x b : float) : bool := (a <? x) && (x <? b).

(** [np.pi] *)
Definition np_pi : float := 0x1.921fb54442d18p+1.

(** The charged species (e-, mu-, pi+, K+, p+, Sigma+, Sigma-, Xi-, Omega-),
    the list every [abs(pid) in [...]] test of the analysis uses. *)
Definition charged_pids : list Z :=
  [11; 13; 211; 321; 2212; 3222; 3112; 3312; 3334]%Z.

(** ** The external libraries *)

(** A Lund declustering, as [GroomerShop.soft_drop] returns it:
    [Delta()], [z()] and [pair().m()]. *)
Record LundDeclustering := {
  Delta : float;
  z : float;
  pair_m : float;
}.

(** fastjet and fjcontrib as the analysis uses them. *)
Class FastJet := {
  PseudoJet : Type;
  pt : PseudoJet → float;
  eta : PseudoJet → float;
  rap : PseudoJet → float;
  m : PseudoJet → float;
  user_index : PseudoJet → Z;
  delta_R : PseudoJet → PseudoJet → float;
  delta_phi_to : PseudoJet → PseudoJet → float;
  constituents : PseudoJet → list PseudoJet;
  (** [fj.PseudoJet()] and [+=] *)
  PseudoJet0 : PseudoJet;
  pj_add : PseudoJet → PseudoJet → PseudoJet;
  (** [jet_selector(fj.sorted_by_pt(cs.inclusive_jets()))] for
      [cs = fj.ClusterSequence(particles, fj.JetDefinition(fj.antikt_algorithm, jetR))]
      and [jet_selector = fj.SelectorPtMin(min_jet_pt) & fj.SelectorAbsRapMax(max_jet_y)]:
      the arguments are [particles], [jetR], [min_jet_pt], [max_jet_y]. *)
  jets_selected_of : list PseudoJet → float → float → float → list PseudoJet;
  (** [fjcontrib.GroomerShop(jet, jetR, fj.cambridge_algorithm).soft_drop(beta, zcut, jetR)]:
      the arguments are [jet], [jetR], [beta], [zcut]; [None] is an object
      that is false. *)
  soft_drop : PseudoJet → float → float → float → option LundDeclustering;
  (** [fjcontrib.Nsubjettiness(N, KT_Axes(), UnnormalizedMeasure(1)).result(jet)] *)
  nsubjettiness : nat → PseudoJet → float;
}.

(** numpy's [cos] and [power]. *)
Class NumPy := {
  np_cos : float → float;
  np_power : float → float → float;
}.

Section HoleSubtraction.
Context {FJ : FastJet}.

(** *** Corrected jet pt

    [analyze_events_STAT.py], [analyze_inclusive_jet], and
    [analyze_events_TG3.py], [fill_jet_histograms]: the loop

    [[
      negative_pt = 0.
      for hadron in fj_hadrons_negative:
          if jet.delta_R(hadron) < jetR:
              negative_pt += hadron.pt()
              holes_in_jet.append(hadron)
    ]]
    returning [(negative_pt, holes_in_jet)]. *)
Definition sum_negative_recoils (jet : PseudoJet)
    (fj_hadrons_negative : list PseudoJet) (jetR : float)
    : float * list PseudoJet :=
  fold_left
    (fun '(negative_pt, holes_in_jet) hadron =>
       if delta_R jet hadron <? jetR
       then (negative_pt + pt hadron, holes_in_jet ++ [hadron])
       else (negative_pt, holes_in_jet))
    fj_hadrons_negative (0, []).

(** What the correction is to be: the holes within [jetR] of the jet
    axis, and the sum of the pt of a list of particles (added in the
    order of the list, from 0). *)
Definition holes_within (jet : PseudoJet) (holes : list PseudoJet) (jetR : float)
    : list PseudoJet :=
  List.filter (fun hadron => delta_R jet hadron <? jetR) holes.

Definition pt_sum (particles : list PseudoJet) : float :=
  fold_left PrimFloat.add (map pt particles) 0.

(** [analyze_inclusive_jet] (STAT), the head of the function: the triple
    [(jet_pt, jet_pt_uncorrected, holes_in_jet)]. *)
Definition corrected_jet_pt_STAT (is_AA : bool) (jet : PseudoJet)
    (fj_hadrons_negative : list PseudoJet) (jetR : float)
    : float * float * list PseudoJet :=
  if is_AA then
    let '(negative_pt, holes_in_jet) :=
      sum_negative_recoils jet fj_hadrons_negative jetR in
    let jet_pt_uncorrected := pt jet in
    let jet_pt := jet_pt_uncorrected - negative_pt in
    (jet_pt, jet_pt_uncorrected, holes_in_jet)
  else
    (pt jet, pt jet, []).

(** [fill_jet_histograms] (TG3), the head of the loop body. *)
Definition corrected_jet_pt_TG3 (jet : PseudoJet)
    (fj_hadrons_negative : list PseudoJet) (jetR : float)
    : float * float * list PseudoJet :=
  let jet_pt_uncorrected := pt jet in
  let '(negative_pt, holes_in_jet) :=
    sum_negative_recoils jet fj_hadrons_negative jetR in
  let jet_pt := jet_pt_uncorrected - negative_pt in
  (jet_pt, jet_pt_uncorrected, holes_in_jet).

(** [fill_semi_inclusive_chjet_observables] (STAT), the recoil-jet loop:
    the pair [(jet_pt, jet_pt_unsubtracted)]. *)
Definition corrected_jet_pt_semi_inclusive (is_AA : bool) (jet : PseudoJet)
    (fj_hadrons_negative_charged : list PseudoJet) (jetR : float)
    : float * float :=
  if is_AA then
    let jet_pt_unsubtracted := pt jet in
    let jet_pt_holes :=
      fold_left
        (fun jet_pt_holes temp_hadron =>
           if delta_R jet temp_hadron <? jetR
           then jet_pt_holes + pt temp_hadron
           else jet_pt_holes)
        fj_hadrons_negative_charged 0 in
    (jet_pt_unsubtracted - jet_pt_holes, jet_pt_unsubtracted)
  else
    (pt jet, pt jet).

(** The loop of [leading_jet] and of [fill_dijet_observables] (STAT):
    [[
      jet_pt = jet.pt()
      for temp_hadron in fj_hadrons_negative:
          if jet.delta_R(temp_hadron) < jetR:
              jet_pt -= temp_hadron.pt()
    ]] *)
Definition subtract_negative_recoils (jet : PseudoJet)
    (fj_hadrons_negative : list PseudoJet) (jetR : float) : float :=
  fold_left
    (fun jet_pt temp_hadron =>
       if delta_R jet temp_hadron <? jetR
       then jet_pt - pt temp_hadron
       else jet_pt)
    fj_hadrons_negative (pt jet).

(** [fill_dijet_observables] (STAT): the corrected pt of a candidate. *)
Definition corrected_jet_pt_dijet (is_AA : bool) (jet : PseudoJet)
    (fj_hadrons_negative : list PseudoJet) (jetR : float) : float :=
  if is_AA then
    match fj_hadrons_negative with
    | [] => pt jet
    | _ => subtract_negative_recoils jet fj_hadrons_negative jetR
    end
  else pt jet.

(** *** [leading_jet] (STAT)

    [[
      leading_jet = None
      leading_jet_pt = 0.
      i = 0
      for i,jet in enumerate(jets):
          jet_pt = ... (corrected)
          if not leading_jet:
              leading_jet = jet
              leading_jet_pt = jet_pt
          if jet_pt > leading_jet_pt:
              leading_jet = jet
              leading_jet_pt = jet_pt
      return leading_jet, leading_jet_pt, i
    ]]
    The loop state is [(leading_jet, leading_jet_pt, i)]; a [PseudoJet]
    object is true, [None] is false. *)
Definition leading_jet_step (fj_hadrons_negative : list PseudoJet) (jetR : float)
    (st : option PseudoJet * float * nat) (ijet : nat * PseudoJet)
    : option PseudoJet * float * nat :=
  let '(leading_jet, leading_jet_pt, _) := st in
  let '(i, jet) := ijet in
  let jet_pt := subtract_negative_recoils jet fj_hadrons_negative jetR in
  let '(leading_jet, leading_jet_pt) :=
    match leading_jet with
    | None => (Some jet, jet_pt)
    | Some _ => (leading_jet, leading_jet_pt)
    end in
  let '(leading_jet, leading_jet_pt) :=
    if leading_jet_pt <? jet_pt
    then (Some jet, jet_pt)
    else (leading_jet, leading_jet_pt) in
  (leading_jet, leading_jet_pt, i).

(** [enumerate(jets)] *)
Definition enumerate {A} (l : list A) : list (nat * A) :=
  combine (seq 0 (length l)) l.

Definition leading_jet (jets fj_hadrons_negative : list PseudoJet) (jetR : float)
    : option PseudoJet * float * nat :=
  fold_left (leading_jet_step fj_hadrons_negative jetR)
            (enumerate jets) (None, 0, 0%nat).

(** [leading_jet] (TG3): no hole subtraction, no index. *)
Definition leading_jet_TG3 (jets : list PseudoJet) : option PseudoJet :=
  fold_left
    (fun leading_jet jet =>
       let leading_jet :=
         match leading_jet with None => Some jet | Some _ => leading_jet end in
       match leading_jet with
       | Some l => if pt l <? pt jet then Some jet else leading_jet
       | None => leading_jet
       end)
    jets None.

End HoleSubtraction.

(** ** [charge] (STAT): electric charge from pid *)

Definition charge (pid : Z) : result float :=
  if in_Z pid [11; 13; -211; -321; -2212; -3222; 3112; 3312; 3334]%Z then
    Ok (-1)
  else if in_Z pid [-11; -13; 211; 321; 2212; 3222; -3112; -3312; -3334]%Z then
    Ok 1
  else if in_Z pid [22; 111; 2112]%Z then
    Ok 0
  else
    Raise (SystemExit (ExitMsg ("failed to compute charge of pid " +:+ pretty pid))).

(** The species the function documents, by charge. *)
Definition negative_species : list Z :=
  [11; 13; -211; -321; -2212; -3222; 3112; 3312; 3334]%Z.
Definition positive_species : list Z :=
  [-11; -13; 211; 321; 2212; 3222; -3112; -3312; -3334]%Z.
Definition neutral_species : list Z := [22; 111; 2112]%Z.

(** ** The YAML configuration

    [yaml.safe_load] returns nested dictionaries and lists.  Numbers are
    held as floats (an integer of the file is the float of the same
    value); a dictionary is the list of its items, in file order. *)
Inductive yaml :=
| YNone
| YNum (x : float)
| YStr (s : string)
| YList (l : list yaml)
| YDict (items : list (string * yaml)).

Fixpoint assoc {A} (k : string) (items : list (string * A)) : option A :=
  match items with
  | [] => None
  | (k', v) :: items' => if String.eqb k k' then Some v else assoc k items'
  end.

(** [v[k]] on a dictionary *)
Definition getitem (v : yaml) (k : string) : result yaml :=
  match v with
  | YDict items =>
      match assoc k items with
      | Some x => Ok x
      | None => Raise (KeyError k)
      end
  | _ => Raise TypeError
  end.

(** [l[i]] on a Python list, a negative index counting from the end *)
Definition py_nth {A} (l : list A) (i : Z) : result A :=
  let n := Z.of_nat (length l) in
  let j := if (i <? 0)%Z then (n + i)%Z else i in
  if ((j <? 0) || (n <=? j))%Z then Raise IndexError
  else match nth_error l (Z.to_nat j) with
       | Some x => Ok x
       | None => Raise IndexError
       end.

Definition as_num (v : yaml) : result float :=
  match v with YNum x => Ok x | _ => Raise TypeError end.

Definition as_list (v : yaml) : result (list yaml) :=
  match v with YList l => Ok l | _ => Raise TypeError end.

Definition as_nums (v : yaml) : result (list float) :=
  let? l := as_list v in
  rfold (fun acc x => let? n := as_num x in Ok (acc ++ [n])) l [].

(** [v[k1][k2]...] *)
Definition getpath (v : yaml) (path : list string) : result yaml :=
  rfold getitem path v.

(** [v[k1]...[kn]] read as a number, [v[k1]...[kn][i]] read as a number,
    and [v[k1]...[kn]] read as a list of numbers *)
Definition num_at (v : yaml) (path : list string) : result float :=
  let? x := getpath v path in as_num x.
Definition num_at_index (v : yaml) (path : list string) (i : Z) : result float :=
  let? x := getpath v path in
  let? l := as_list x in
  let? y := py_nth l i in
  as_num y.
Definition nums_at (v : yaml) (path : list string) : result (list float) :=
  let? x := getpath v path in as_nums x.

(** [k in v] for a dictionary [v] *)
Definition has_key (k : string) (v : yaml) : result bool :=
  match v with
  | YDict items => Ok (bool_decide (is_Some (assoc k items)))
  | _ => Raise TypeError
  end.

(** [for observable in v] on a dictionary: its keys; [v.items()] *)
Definition keys (v : yaml) : result (list string) :=
  match v with
  | YDict items => Ok (map fst items)
  | _ => Raise TypeError
  end.
Definition items (v : yaml) : result (list (string * yaml)) :=
  match v with
  | YDict items => Ok items
  | _ => Raise AttributeError
  end.

(** [if v:] *)
Definition truthy (v : yaml) : bool :=
  match v with
  | YNone => false
  | YNum x => negb (x =? 0)
  | YStr s => negb (String.eqb s "")
  | YList l => negb (bool_decide (l = []))
  | YDict items => negb (bool_decide (items = []))
  end.

(** [v1 == v2]: numbers by value, lists pointwise, dictionaries key by
    key whatever the order of their items. *)
Fixpoint py_eq (v1 v2 : yaml) {struct v1} : bool :=
  match v1, v2 with
  | YNone, YNone => true
  | YNum x, YNum y => x =? y
  | YStr s, YStr t => String.eqb s t
  | YList l1, YList l2 =>
      (fix go (l1 l2 : list yaml) : bool :=
         match l1, l2 with
         | [], [] => true
         | x :: l1', y :: l2' => py_eq x y && go l1' l2'
         | _, _ => false
         end) l1 l2
  | YDict i1, YDict i2 =>
      (length i1 =? length i2)%nat &&
      (fix go (i1 : list (string * yaml)) : bool :=
         match i1 with
         | [] => true
         | (k, x) :: i1' =>
             match assoc k i2 with
             | Some y => py_eq x y && go i1'
             | None => false
             end
         end) i1
  | _, _ => false
  end.

(** [v in l] on a list of configuration values *)
Definition in_yaml (v : yaml) (l : list yaml) : bool := existsb (py_eq v) l.

(** [sub in s] on strings *)
Definition contains (sub s : string) : bool :=
  match String.index 0 sub s with Some _ => true | None => false end.

(** [range[0] < x < range[1]] for a configured [range]: Python reads
    [range[1]] only when the first comparison holds. *)
Definition in_range (range : yaml) (x : float) : result bool :=
  let? lo := num_at_index range [] 0 in
  if lo <? x then
    let? hi := num_at_index range [] 1 in Ok (x <? hi)
  else Ok false.

(** [del l[i]] *)
Definition py_del {A} (l : list A) (i : nat) : result (list A) :=
  if (i <? length l)%nat then Ok (firstn i l ++ skipn (S i) l)
  else Raise IndexError.

(** [min(l)] *)
Definition py_min (l : list float) : result float :=
  match l with
  | [] => Raise ValueError
  | x :: l' => Ok (fold_left (fun acc y => if y <? acc then y else acc) l' x)
  end.

(** Python's [str] of a number, as f-strings format [jetR], [zcut],
    [beta] and [kappa]. *)
Class PyFormat := { py_str : float → string }.

(** ** [observable_dict_event]

    A dictionary from the observable's name to the list of the values
    appended during the event; a value is a number or a pair
    [[jet_pt, x]]. *)
Inductive entry :=
| Scalar (x : float)
| Pair (x y : float).

Abbreviation dict := (gmap string (list entry)).

(** Code that may raise and that updates a state: the dictionary, for
    the analysis ([M]). *)
Definition St (S A : Type) : Type := S → result (A * S).
Abbreviation M := (St dict).

Definition ret {S A} (a : A) : St S A := fun s => Ok (a, s).

Definition bind {S A B} (c : St S A) (k : A → St S B) : St S B := fun s =>
  match c s with
  | Ok (a, s') => k a s'
  | Raise e => Raise e
  end.

Notation "'let*' x ':=' c 'in' k" := (bind c (fun x => k))
  (at level 10, x pattern, c at level 100, k at level 200) : py_scope.
Notation "c ;; k" := (bind c (fun _ => k))
  (at level 100, k at level 200, right associativity) : py_scope.

Definition lift {S A} (r : result A) : St S A := fun s =>
  match r with
  | Ok a => Ok (a, s)
  | Raise e => Raise e
  end.

(** [self.observable_dict_event[key] = []] *)
Definition set_empty (key : string) : M unit := fun d =>
  Ok (tt, <[key := []]> d).

(** [self.observable_dict_event[key].append(x)] *)
Definition append (key : string) (x : entry) : M unit := fun d =>
  match d !! key with
  | Some l => Ok (tt, <[key := l ++ [x]]> d)
  | None => Raise (KeyError key)
  end.

(** [for x in l: body], the body updating a local variable *)
Fixpoint fold_each {S A B} (l : list A) (acc : B) (body : B → A → St S B)
    : St S B :=
  match l with
  | [] => ret acc
  | x :: l' => let* acc' := body acc x in fold_each l' acc' body
  end.

(** [if b: body] *)
Definition when {S} (b : bool) (body : St S unit) : St S unit :=
  if b then body else ret tt.

(** [for x in l: body] *)
Fixpoint for_each {S A} (l : list A) (body : A → St S unit) : St S unit :=
  match l with
  | [] => ret tt
  | x :: l' => body x;; for_each l' body
  end.

(** ** [AnalyzeJetscapeEvents_STAT] *)

(** The attributes [initialize_user_config] sets from the configuration,
    and [is_AA], which the base class sets.  An observable block that the
    configuration does not have is [YNone]. *)
Record STAT := {
  sqrts : float;
  is_AA : bool;
  hadron_observables : yaml;
  hadron_correlation_observables : yaml;
  inclusive_chjet_observables : yaml;
  inclusive_jet_observables : yaml;
  semi_inclusive_chjet_observables : yaml;
  dijet_observables : yaml;
  jet_R : list float;
  min_jet_pt : float;
  max_jet_y : float;
  grooming_settings : yaml;
}.

(** What [analyze_events_base_STAT.AnalyzeJetscapeEvents_BaseSTAT] gives
    the class: the event type, [centrality_accepted] and
    [fill_fastjet_constituents(event, select_status, select_charged)]
    ([select_status='+'] is [true]). *)
Class BaseSTAT {FJ : FastJet} := {
  Event : Type;
  centrality_accepted : STAT → yaml → bool;
  fill_fastjet_constituents : Event → bool → bool → list PseudoJet;
}.

Section AnalyzeJetscapeEvents_STAT.
Context {FJ : FastJet} {Base : BaseSTAT} {NP : NumPy} {Fmt : PyFormat}.
Variable self : STAT.

(** *** [initialize_output_lists] *)

(** The body of [for grooming_setting in dict['SoftDrop']], for the
    prefix [inclusive_jet] or [inclusive_chjet]; [skip] is the
    [continue] of the charged-jet loop. *)
Definition initialize_groomed (prefix key : string) (jetR : float) (skip : float → bool)
    (grooming_setting : yaml) : M unit :=
  let* zcut := lift (num_at grooming_setting ["zcut"]) in
  let* beta := lift (num_at grooming_setting ["beta"]) in
  if skip zcut then ret tt else
  let name := prefix +:+ "_" +:+ key +:+ "_R" +:+ py_str jetR
                +:+ "_zcut" +:+ py_str zcut +:+ "_beta" +:+ py_str beta in
  set_empty name;;
  when (is_AA self) (set_empty (name +:+ "_unsubtracted")).

Definition initialize_hadron : M unit :=
  let* observables := lift (keys (hadron_observables self)) in
  for_each observables (fun observable =>
    set_empty ("hadron_" +:+ observable);;
    when (is_AA self) (set_empty ("hadron_" +:+ observable +:+ "_holes"))).

Definition initialize_hadron_correlations : M unit :=
  let* observables := lift (keys (hadron_correlation_observables self)) in
  for_each observables (fun observable =>
    set_empty ("hadron_correlations_" +:+ observable)).

Definition initialize_inclusive_jet : M unit :=
  when (truthy (inclusive_jet_observables self)) (
    let* blocks := lift (items (inclusive_jet_observables self)) in
    for_each blocks (fun '(key, dict) =>
      let* jet_R := lift (nums_at dict ["jet_R"]) in
      for_each jet_R (fun jetR =>
        let* has_SoftDrop := lift (has_key "SoftDrop" dict) in
        if has_SoftDrop then
          let* settings := lift (let? x := getitem dict "SoftDrop" in as_list x) in
          for_each settings
            (initialize_groomed "inclusive_jet" key jetR (fun _ => false))
        else if contains "charge_cms" key then
          let* kappas := lift (nums_at dict ["kappa"]) in
          for_each kappas (fun kappa =>
            let name := "inclusive_jet_" +:+ key +:+ "_R" +:+ py_str jetR
                          +:+ "_k" +:+ py_str kappa in
            set_empty name;;
            when (is_AA self) (set_empty (name +:+ "_unsubtracted")))
        else
          let name := "inclusive_jet_" +:+ key +:+ "_R" +:+ py_str jetR in
          set_empty name;;
          if contains "Dz" key || contains "Dpt" key then
            when (is_AA self) (set_empty (name +:+ "_holes"));;
            when (contains "Dz" key) (set_empty (name +:+ "_Njets"))
          else
            when (is_AA self) (set_empty (name +:+ "_unsubtracted"))))).

Definition initialize_inclusive_chjet : M unit :=
  let* blocks := lift (items (inclusive_chjet_observables self)) in
  for_each blocks (fun '(key, dict) =>
    let* jet_R := lift (nums_at dict ["jet_R"]) in
    for_each jet_R (fun jetR =>
      let* has_SoftDrop := lift (has_key "SoftDrop" dict) in
      if has_SoftDrop then
        let* settings := lift (let? x := getitem dict "SoftDrop" in as_list x) in
        for_each settings
          (initialize_groomed "inclusive_chjet" key jetR
             (fun zcut => String.eqb key "tg_alice" && (jetR =? 0.2) && (zcut =? 0.4)))
      else
        let name := "inclusive_chjet_" +:+ key +:+ "_R" +:+ py_str jetR in
        set_empty name;;
        when (is_AA self) (set_empty (name +:+ "_unsubtracted")))).

Definition initialize_semi_inclusive_chjet : M unit :=
  when (truthy (semi_inclusive_chjet_observables self)) (
    let* blocks := lift (items (semi_inclusive_chjet_observables self)) in
    for_each blocks (fun '(key, dict) =>
      let* jet_R := lift (nums_at dict ["jet_R"]) in
      for_each jet_R (fun jetR =>
        let name := "semi_inclusive_chjet_" +:+ key +:+ "_R" +:+ py_str jetR in
        if sqrts self =? 2760 then
          set_empty (name +:+ "_lowTrigger");;
          set_empty (name +:+ "_highTrigger");;
          set_empty "semi_inclusive_chjet_alice_trigger_pt";;
          when (is_AA self) (
            set_empty (name +:+ "_lowTrigger_unsubtracted");;
            set_empty (name +:+ "_highTrigger_unsubtracted");;
            set_empty "semi_inclusive_chjet_alice_trigger_pt_unsubtracted")
        else if sqrts self =? 200 then
          set_empty name;;
          set_empty "semi_inclusive_chjet_star_trigger_pt";;
          when (is_AA self) (
            set_empty (name +:+ "_unsubtracted");;
            set_empty "semi_inclusive_chjet_star_trigger_pt_unsubtracted")
        else ret tt))).

Definition initialize_dijet : M unit :=
  when (truthy (dijet_observables self)) (
    let* blocks := lift (items (dijet_observables self)) in
    for_each blocks (fun '(key, dict) =>
      let* jet_R := lift (nums_at dict ["jet_R"]) in
      for_each jet_R (fun jetR =>
        let name := "dijet_" +:+ key +:+ "_R" +:+ py_str jetR in
        set_empty name;;
        when (is_AA self) (set_empty (name +:+ "_unsubtracted"))))).

Definition initialize_output_lists : M unit :=
  initialize_hadron;;
  initialize_hadron_correlations;;
  initialize_inclusive_jet;;
  initialize_inclusive_chjet;;
  initialize_semi_inclusive_chjet;;
  initialize_dijet.

(** *** [fill_hadron_observables] *)

(** One block of the loop body.  The seven blocks of the function are
    this code, for the observable [name] and its list of species; the
    ALICE, ATLAS and CMS blocks read [pt_max] from the configuration, the
    PHENIX and STAR blocks set [pt_max = 100.] (the open upper bound).
    [[
      if self.centrality_accepted(self.hadron_observables[name]['centrality']):
          pt_min = self.hadron_observables[name]['pt'][0]
          pt_max = self.hadron_observables[name]['pt'][1]
          if pt > pt_min and pt < pt_max:
              if abs(eta) < self.hadron_observables[name]['eta_cut']:
                  if abs(pid) in pids:
                      self.observable_dict_event[f'hadron_{name}{suffix}'].append(pt)
    ]] *)
Definition fill_hadron_block (name : string) (open_upper_bound : bool)
    (pids : list Z) (suffix : string) (particle : PseudoJet) : M unit :=
  let pid := user_index particle in
  let pt := pt particle in
  let eta := eta particle in
  let* centrality := lift (getpath (hadron_observables self) [name; "centrality"]) in
  when (centrality_accepted self centrality) (
    let* pt_min := lift (num_at_index (hadron_observables self) [name; "pt"] 0) in
    let* pt_max :=
      if open_upper_bound then ret 100
      else lift (num_at_index (hadron_observables self) [name; "pt"] 1) in
    when ((pt_min <? pt) && (pt <? pt_max)) (
      let* eta_cut := lift (num_at (hadron_observables self) [name; "eta_cut"]) in
      when (abs eta <? eta_cut) (
        when (in_Z (Z.abs pid) pids) (
          append ("hadron_" +:+ name +:+ suffix) (Scalar pt))))).

(** The body of [for i,particle in enumerate(fj_particles)]. *)
Definition fill_hadron (suffix : string) (particle : PseudoJet) : M unit :=
  if in_float (sqrts self) [2760; 5020] then
    (* ALICE: charged hadrons, charged pions *)
    fill_hadron_block "pt_ch_alice" false charged_pids suffix particle;;
    fill_hadron_block "pt_pi_alice" false [211%Z] suffix particle;;
    (* neutral pions *)
    when (in_float (sqrts self) [2760])
      (fill_hadron_block "pt_pi0_alice" false [111%Z] suffix particle);;
    (* ATLAS *)
    when (in_float (sqrts self) [2760])
      (fill_hadron_block "pt_ch_atlas" false charged_pids suffix particle);;
    (* CMS *)
    fill_hadron_block "pt_ch_cms" false charged_pids suffix particle
  else if in_float (sqrts self) [200] then
    (* PHENIX: neutral pions; STAR: charged hadrons (pi+, K+, p+) *)
    fill_hadron_block "pt_pi0_phenix" true [111%Z] suffix particle;;
    fill_hadron_block "pt_ch_star" true [211; 321; 2212]%Z suffix particle
  else ret tt.

(** [status] is [true] for ['+'] and [false] for ['-']. *)
Definition fill_hadron_observables (fj_particles : list PseudoJet) (status : bool)
    : M unit :=
  let suffix := if status then "" else "_holes" in
  for_each fj_particles (fill_hadron suffix).

(** *** [fill_hadron_correlation_observables] *)
Definition fill_hadron_correlation_observables (fj_particles : list PseudoJet)
    : M unit :=
  ret tt.

(** *** [fill_full_jet_ungroomed_observables] *)

(** The leading-track requirement:
    [[
      accept_jet = False
      for constituent in jet.constituents():
          if constituent.pt() > min_leading_track_pt:
              if abs(constituent.user_index()) in [11, 13, ...]:
                  accept_jet = True
    ]] *)
Definition accept_jet (jet : PseudoJet) (min_leading_track_pt : float) : bool :=
  fold_left
    (fun accept_jet constituent =>
       if (min_leading_track_pt <? pt constituent)
          && in_Z (Z.abs (user_index constituent)) charged_pids
       then true else accept_jet)
    (constituents jet) false.

(** ALICE RAA *)
Definition inclusive_jet_pt_alice (jet : PseudoJet)
    (jet_pt jet_pt_uncorrected jetR : float) : M unit :=
  let obs := inclusive_jet_observables self in
  let* centrality := lift (getpath obs ["pt_alice"; "centrality"]) in
  when (centrality_accepted self centrality) (
    let* pt_min := lift (num_at_index obs ["pt_alice"; "pt"] 0) in
    let* pt_max := lift (num_at_index obs ["pt_alice"; "pt"] 1) in
    let* jet_R := lift (nums_at obs ["pt_alice"; "jet_R"]) in
    when (in_float jetR jet_R) (
      let* eta_cut_R := lift (num_at obs ["pt_alice"; "eta_cut_R"]) in
      when (abs (eta jet) <? eta_cut_R - jetR) (
        when ((pt_min <? jet_pt) && (jet_pt <? pt_max)) (
          let min_leading_track_pt := if jetR =? 0.2 then 5 else 7 in
          when (accept_jet jet min_leading_track_pt) (
            append ("inclusive_jet_pt_alice_R" +:+ py_str jetR) (Scalar jet_pt);;
            when (is_AA self) (
              append ("inclusive_jet_pt_alice_R" +:+ py_str jetR +:+ "_unsubtracted")
                     (Scalar jet_pt_uncorrected))))))).

(** ATLAS RAA *)
Definition inclusive_jet_pt_atlas (jet : PseudoJet)
    (jet_pt jet_pt_uncorrected jetR : float) : M unit :=
  let obs := inclusive_jet_observables self in
  let* centrality := lift (getpath obs ["pt_atlas"; "centrality"]) in
  when (centrality_accepted self centrality) (
    let* pt_min := lift (num_at_index obs ["pt_atlas"; "pt"] 0) in
    let* pt_max := lift (num_at_index obs ["pt_atlas"; "pt"] 1) in
    let* jet_R := lift (nums_at obs ["pt_atlas"; "jet_R"]) in
    when (in_float jetR jet_R) (
      let* y_cut := lift (num_at obs ["pt_atlas"; "y_cut"]) in
      when (abs (rap jet) <? y_cut) (
        when ((pt_min <? jet_pt) && (jet_pt <? pt_max)) (
          append ("inclusive_jet_pt_atlas_R" +:+ py_str jetR) (Scalar jet_pt);;
          when (is_AA self) (
            append ("inclusive_jet_pt_atlas_R" +:+ py_str jetR +:+ "_unsubtracted")
                   (Scalar jet_pt_uncorrected)))))).

(** CMS RAA *)
Definition inclusive_jet_pt_cms (jet : PseudoJet)
    (jet_pt jet_pt_uncorrected jetR : float) : M unit :=
  let obs := inclusive_jet_observables self in
  let* centrality := lift (getpath obs ["pt_cms"; "centrality"]) in
  when (centrality_accepted self centrality) (
    let* pt_min := lift (num_at_index obs ["pt_cms"; "pt"] 0) in
    let* pt_max := lift (num_at_index obs ["pt_cms"; "pt"] 1) in
    let* jet_R := lift (nums_at obs ["pt_cms"; "jet_R"]) in
    when (in_float jetR jet_R) (
      let* eta_cut := lift (num_at obs ["pt_cms"; "eta_cut"]) in
      when (abs (eta jet) <? eta_cut) (
        when ((pt_min <? jet_pt) && (jet_pt <? pt_max)) (
          append ("inclusive_jet_pt_cms_R" +:+ py_str jetR) (Scalar jet_pt);;
          when (is_AA self) (
            append ("inclusive_jet_pt_cms_R" +:+ py_str jetR +:+ "_unsubtracted")
                   (Scalar jet_pt_uncorrected)))))).

(** The hadron loops of the D(z) blocks, for the experiment [exp]
    ([atlas] or [cms]) and the key suffix [holes] ([""] for
    [fj_hadrons_positive], ["_holes"] for [holes_in_jet]):
    [[
      for hadron in hadrons:
          pid = hadron.user_index()
          if abs(pid) in [11, 13, ...]:
              if jet.delta_R(hadron) < jetR:
                  z = hadron.pt() * np.cos(jet.delta_R(hadron)) / jet_pt
                  self.observable_dict_event[f'inclusive_jet_Dz_{exp}_R{jetR}{holes}'].append([jet_pt, z])
                  self.observable_dict_event[f'inclusive_jet_Dpt_{exp}_R{jetR}{holes}'].append([jet_pt, hadron.pt()])
    ]] *)
Definition fill_Dz_hadrons (exp holes : string) (jet : PseudoJet)
    (hadrons : list PseudoJet) (jet_pt jetR : float) : M unit :=
  for_each hadrons (fun hadron =>
    let pid := user_index hadron in
    when (in_Z (Z.abs pid) charged_pids) (
      when (delta_R jet hadron <? jetR) (
        let z := pt hadron * np_cos (delta_R jet hadron) / jet_pt in
        append ("inclusive_jet_Dz_" +:+ exp +:+ "_R" +:+ py_str jetR +:+ holes)
               (Pair jet_pt z);;
        append ("inclusive_jet_Dpt_" +:+ exp +:+ "_R" +:+ py_str jetR +:+ holes)
               (Pair jet_pt (pt hadron))))).

(** ATLAS D(z) *)
Definition inclusive_jet_Dz_atlas (jet : PseudoJet)
    (fj_hadrons_positive holes_in_jet : list PseudoJet)
    (jet_pt jetR : float) : M unit :=
  let obs := inclusive_jet_observables self in
  let* centrality := lift (getpath obs ["Dz_atlas"; "centrality"]) in
  when (centrality_accepted self centrality) (
    let* pt_min := lift (num_at_index obs ["Dz_atlas"; "pt"] 0) in
    let* pt_max := lift (num_at_index obs ["Dz_atlas"; "pt"] (-1)) in
    let* jet_R := lift (nums_at obs ["Dz_atlas"; "jet_R"]) in
    when (in_float jetR jet_R) (
      let* y_cut := lift (num_at obs ["Dz_atlas"; "y_cut"]) in
      when (abs (rap jet) <? y_cut) (
        when (between pt_min jet_pt pt_max) (
          append ("inclusive_jet_Dz_atlas_R" +:+ py_str jetR +:+ "_Njets")
                 (Scalar jet_pt);;
          fill_Dz_hadrons "atlas" "" jet fj_hadrons_positive jet_pt jetR;;
          when (is_AA self)
            (fill_Dz_hadrons "atlas" "_holes" jet holes_in_jet jet_pt jetR))))).

(** CMS D(z) *)
Definition inclusive_jet_Dz_cms (jet : PseudoJet)
    (fj_hadrons_positive holes_in_jet : list PseudoJet)
    (jet_pt jetR : float) : M unit :=
  let obs := inclusive_jet_observables self in
  when (sqrts self =? 2760) (
    let* centrality := lift (getpath obs ["Dz_cms"; "centrality"]) in
    when (centrality_accepted self centrality) (
      let* pt_min := lift (num_at_index obs ["Dz_cms"; "pt"] 0) in
      let* pt_max := lift (num_at_index obs ["Dz_cms"; "pt"] (-1)) in
      let* eta_range := lift (getpath obs ["Dz_cms"; "eta_cut"]) in
      let* jet_R := lift (nums_at obs ["Dz_cms"; "jet_R"]) in
      when (in_float jetR jet_R) (
        let* eta_ok := lift (in_range eta_range (abs (eta jet))) in
        when eta_ok (
          when (between pt_min jet_pt pt_max) (
            append ("inclusive_jet_Dz_cms_R" +:+ py_str jetR +:+ "_Njets")
                   (Scalar jet_pt);;
            fill_Dz_hadrons "cms" "" jet fj_hadrons_positive jet_pt jetR;;
            when (is_AA self)
              (fill_Dz_hadrons "cms" "_holes" jet holes_in_jet jet_pt jetR)))))).

(** The sums of the jet charge:
    [[
      for hadron in hadrons:
          if hadron.pt() > self.inclusive_jet_observables['charge_cms']['track_pt_min']:
              pid = hadron.user_index()
              if abs(pid) in [11, 13, ...]:
                  if jet.delta_R(hadron) < jetR:
                      sum += self.charge(pid) * np.power(hadron.pt(), kappa)
    ]] *)
Definition charge_sum (jet : PseudoJet) (hadrons : list PseudoJet)
    (jetR kappa : float) : result float :=
  rfold
    (fun sum hadron =>
       let? track_pt_min :=
         num_at (inclusive_jet_observables self) ["charge_cms"; "track_pt_min"] in
       if track_pt_min <? pt hadron then
         let pid := user_index hadron in
         if in_Z (Z.abs pid) charged_pids then
           if delta_R jet hadron <? jetR then
             let? q := charge pid in
             Ok (sum + q * np_power (pt hadron) kappa)
           else Ok sum
         else Ok sum
       else Ok sum)
    hadrons 0.

(** The body of [for kappa in self.inclusive_jet_observables['charge_cms']['kappa']]. *)
Definition jet_charge_cms_kappa (jet : PseudoJet)
    (fj_hadrons_positive holes_in_jet : list PseudoJet)
    (jet_pt jetR kappa : float) : M unit :=
  let name := "inclusive_jet_charge_cms_R" +:+ py_str jetR
                +:+ "_k" +:+ py_str kappa in
  let* sum := lift (charge_sum jet fj_hadrons_positive jetR kappa) in
  let* charge :=
    if is_AA self then
      let* sum_holes := lift (charge_sum jet holes_in_jet jetR kappa) in
      let charge_unsubtracted := sum / np_power jet_pt kappa in
      append (name +:+ "_unsubtracted") (Scalar charge_unsubtracted);;
      ret ((sum - sum_holes) / np_power jet_pt kappa)
    else
      ret (sum / np_power jet_pt kappa) in
  append name (Scalar charge).

(** CMS jet charge *)
Definition inclusive_jet_charge_cms (jet : PseudoJet)
    (fj_hadrons_positive holes_in_jet : list PseudoJet)
    (jet_pt jetR : float) : M unit :=
  let obs := inclusive_jet_observables self in
  when (sqrts self =? 5020) (
    let* centrality := lift (getpath obs ["charge_cms"; "centrality"]) in
    when (centrality_accepted self centrality) (
      let* pt_min := lift (num_at obs ["charge_cms"; "pt_min"]) in
      let* jet_R := lift (nums_at obs ["charge_cms"; "jet_R"]) in
      when (in_float jetR jet_R) (
        let* eta_cut := lift (num_at obs ["charge_cms"; "eta_cut"]) in
        when (abs (eta jet) <? eta_cut) (
          when (pt_min <? jet_pt) (
            let* kappas := lift (nums_at obs ["charge_cms"; "kappa"]) in
            for_each kappas
              (jet_charge_cms_kappa jet fj_hadrons_positive holes_in_jet
                 jet_pt jetR)))))).

Definition fill_full_jet_ungroomed_observables (jet : PseudoJet)
    (fj_hadrons_positive holes_in_jet : list PseudoJet)
    (jet_pt jet_pt_uncorrected jetR : float) : M unit :=
  when (in_float (sqrts self) [2760; 5020]) (
    inclusive_jet_pt_alice jet jet_pt jet_pt_uncorrected jetR;;
    inclusive_jet_pt_atlas jet jet_pt jet_pt_uncorrected jetR;;
    inclusive_jet_pt_cms jet jet_pt jet_pt_uncorrected jetR;;
    inclusive_jet_Dz_atlas jet fj_hadrons_positive holes_in_jet jet_pt jetR;;
    inclusive_jet_Dz_cms jet fj_hadrons_positive holes_in_jet jet_pt jetR;;
    inclusive_jet_charge_cms jet fj_hadrons_positive holes_in_jet jet_pt jetR).

(** *** [fill_full_jet_groomed_observables] *)

(** CMS m_g ([obs = "mg_cms"], the value [pair().m() / jet_pt]) and CMS
    z_g ([obs = "zg_cms"], the value [z()]) are the same code but for the
    value appended. *)
Definition inclusive_jet_groomed_cms (name : string) (value : result float)
    (grooming_setting : yaml) (jet : PseudoJet) (jet_groomed_lund : LundDeclustering)
    (jet_pt jetR zcut beta : float) : M unit :=
  let obs := inclusive_jet_observables self in
  let* centrality := lift (getpath obs [name; "centrality"]) in
  when (centrality_accepted self centrality) (
    let* SoftDrop := lift (let? x := getpath obs [name; "SoftDrop"] in as_list x) in
    when (in_yaml grooming_setting SoftDrop) (
      let* pt_min := lift (num_at_index obs [name; "pt"] 0) in
      let* pt_max := lift (num_at_index obs [name; "pt"] (-1)) in
      let* jet_R := lift (nums_at obs [name; "jet_R"]) in
      when (in_float jetR jet_R) (
        let* eta_cut := lift (num_at obs [name; "eta_cut"]) in
        when (abs (eta jet) <? eta_cut) (
          when ((pt_min <? jet_pt) && (jet_pt <? pt_max)) (
            let* dR := lift (num_at obs [name; "dR"]) in
            when (dR <? Delta jet_groomed_lund) (
              let* x := lift value in
              append ("inclusive_jet_" +:+ name +:+ "_R" +:+ py_str jetR
                        +:+ "_zcut" +:+ py_str zcut +:+ "_beta" +:+ py_str beta)
                     (Pair jet_pt x))))))).

Definition fill_full_jet_groomed_observables (grooming_setting : yaml)
    (jet : PseudoJet) (jet_pt jetR : float) : M unit :=
  let* zcut := lift (num_at grooming_setting ["zcut"]) in
  let* beta := lift (num_at grooming_setting ["beta"]) in
  match soft_drop jet jetR beta zcut with
  | None => ret tt
  | Some jet_groomed_lund =>
      when (sqrts self =? 5020) (
        inclusive_jet_groomed_cms "mg_cms" (py_div (pair_m jet_groomed_lund) jet_pt)
          grooming_setting jet jet_groomed_lund jet_pt jetR zcut beta;;
        inclusive_jet_groomed_cms "zg_cms" (Ok (z jet_groomed_lund))
          grooming_setting jet jet_groomed_lund jet_pt jetR zcut beta)
  end.

(** *** [fill_charged_jet_ungroomed_observables] *)

(** The leading-track requirement of the ALICE charged-jet RAA, which
    reads its threshold from the configuration for every constituent. *)
Definition accept_chjet (jet : PseudoJet) : result bool :=
  rfold
    (fun accept_jet constituent =>
       let? leading_track_min_pt :=
         num_at (inclusive_chjet_observables self) ["pt_alice"; "leading_track_min_pt"] in
       Ok (if (leading_track_min_pt <? pt constituent)
              && in_Z (Z.abs (user_index constituent)) charged_pids
           then true else accept_jet))
    (constituents jet) false.

(** ALICE charged jet RAA *)
Definition inclusive_chjet_pt_alice (jet : PseudoJet)
    (jet_pt jet_pt_uncorrected jetR : float) : M unit :=
  let obs := inclusive_chjet_observables self in
  let* centrality := lift (getpath obs ["pt_alice"; "centrality"]) in
  when (centrality_accepted self centrality) (
    let* pt_min := lift (num_at_index obs ["pt_alice"; "pt"] 0) in
    let* pt_max := lift (num_at_index obs ["pt_alice"; "pt"] 1) in
    let* jet_R := lift (nums_at obs ["pt_alice"; "jet_R"]) in
    when (in_float jetR jet_R) (
      let* eta_cut := lift (num_at obs ["pt_alice"; "eta_cut"]) in
      when (abs (eta jet) <? eta_cut) (
        when ((pt_min <? jet_pt) && (jet_pt <? pt_max)) (
          let* accept_jet := lift (accept_chjet jet) in
          when accept_jet (
            append ("inclusive_chjet_pt_alice_R" +:+ py_str jetR) (Scalar jet_pt);;
            when (is_AA self) (
              append ("inclusive_chjet_pt_alice_R" +:+ py_str jetR +:+ "_unsubtracted")
                     (Scalar jet_pt_uncorrected))))))).

(** The sums of the angularity:
    [[
      for constituent in particles:
          g += constituent.pt() / jet_pt * constituent.delta_R(jet)
    ]] *)
Definition angularity_sum (particles : list PseudoJet) (jet : PseudoJet)
    (jet_pt : float) : result float :=
  rfold
    (fun g constituent =>
       let? r := py_div (pt constituent) jet_pt in
       Ok (g + r * delta_R constituent jet))
    particles 0.

(** g *)
Definition inclusive_chjet_g_alice (jet : PseudoJet) (holes_in_jet : list PseudoJet)
    (jet_pt jetR : float) : M unit :=
  let obs := inclusive_chjet_observables self in
  let* centrality := lift (getpath obs ["g_alice"; "centrality"]) in
  when (centrality_accepted self centrality) (
    let* pt_min := lift (num_at_index obs ["g_alice"; "pt"] 0) in
    let* pt_max := lift (num_at_index obs ["g_alice"; "pt"] 1) in
    let* eta_cut_R := lift (num_at obs ["g_alice"; "eta_cut_R"]) in
    when (abs (eta jet) <? eta_cut_R - jetR) (
      let* jet_R := lift (nums_at obs ["g_alice"; "jet_R"]) in
      when (in_float jetR jet_R) (
        when ((pt_min <? jet_pt) && (jet_pt <? pt_max)) (
          let* g := lift (angularity_sum (constituents jet) jet jet_pt) in
          let* g :=
            if is_AA self then
              let* g_holes := lift (angularity_sum holes_in_jet jet jet_pt) in
              append ("inclusive_chjet_g_alice_R" +:+ py_str jetR +:+ ")unsubtracted")
                     (Scalar g);;
              ret (g - g_holes)
            else ret g in
          append ("inclusive_chjet_g_alice_R" +:+ py_str jetR) (Scalar g))))).

(** pTD *)
Definition inclusive_chjet_ptd_alice (jet : PseudoJet) (holes_in_jet : list PseudoJet)
    (jet_pt jetR : float) : M unit :=
  let obs := inclusive_chjet_observables self in
  let* centrality := lift (getpath obs ["ptd_alice"; "centrality"]) in
  when (centrality_accepted self centrality) (
    let* pt_min := lift (num_at_index obs ["ptd_alice"; "pt"] 0) in
    let* pt_max := lift (num_at_index obs ["ptd_alice"; "pt"] 1) in
    let* eta_cut_R := lift (num_at obs ["ptd_alice"; "eta_cut_R"]) in
    when (abs (eta jet) <? eta_cut_R - jetR) (
      let* jet_R := lift (nums_at obs ["ptd_alice"; "jet_R"]) in
      when (in_float jetR jet_R) (
        when ((pt_min <? jet_pt) && (jet_pt <? pt_max)) (
          let sum :=
            fold_left (fun sum constituent => sum + np_power (pt constituent) 2)
                      (constituents jet) 0 in
          let* sum :=
            if is_AA self then
              let* sum_holes :=
                fold_each holes_in_jet 0 (fun sum_holes hadron =>
                  let sum_holes := sum_holes + np_power (pt hadron) 2 in
                  append ("inclusive_chjet_ptd_alice_R" +:+ py_str jetR +:+ "_unsubtracted")
                         (Scalar (sqrt sum / jet_pt));;
                  ret sum_holes) in
              ret (sum - sum_holes)
            else ret sum in
          append ("inclusive_chjet_ptd_alice_R" +:+ py_str jetR)
                 (Scalar (sqrt sum / jet_pt)))))).

(** Jet mass *)
Definition inclusive_chjet_mass_alice (jet : PseudoJet) (holes_in_jet : list PseudoJet)
    (jet_pt jetR : float) : M unit :=
  let obs := inclusive_chjet_observables self in
  let* centrality := lift (getpath obs ["mass_alice"; "centrality"]) in
  when (centrality_accepted self centrality) (
    let* pt_min := lift (num_at_index obs ["mass_alice"; "pt"] 0) in
    let* pt_max := lift (num_at_index obs ["mass_alice"; "pt"] (-1)) in
    let* eta_cut_R := lift (num_at obs ["mass_alice"; "eta_cut_R"]) in
    when (abs (eta jet) <? eta_cut_R - jetR) (
      let* jet_R := lift (nums_at obs ["mass_alice"; "jet_R"]) in
      when (in_float jetR jet_R) (
        when ((pt_min <? jet_pt) && (jet_pt <? pt_max)) (
          let jet_mass := m jet in
          let* jet_mass :=
            if is_AA self then
              let hole_four_vector := fold_left pj_add holes_in_jet PseudoJet0 in
              let jet_mass_holes := m hole_four_vector in
              append ("inclusive_chjet_mass_alice_R" +:+ py_str jetR +:+ "_unsubtracted")
                     (Pair jet_pt jet_mass);;
              ret (jet_mass - jet_mass_holes)
            else ret jet_mass in
          append ("inclusive_chjet_mass_alice_R" +:+ py_str jetR)
                 (Pair jet_pt jet_mass))))).

(** STAR RAA *)
Definition inclusive_chjet_pt_star (jet : PseudoJet)
    (jet_pt jet_pt_uncorrected jetR : float) : M unit :=
  let obs := inclusive_chjet_observables self in
  let* centrality := lift (getpath obs ["pt_star"; "centrality"]) in
  when (centrality_accepted self centrality) (
    let* pt_min := lift (num_at_index obs ["pt_star"; "pt"] 0) in
    let pt_max := 100 in
    let* jet_R := lift (nums_at obs ["pt_star"; "jet_R"]) in
    when (in_float jetR jet_R) (
      let* eta_cut_R := lift (num_at obs ["pt_star"; "eta_cut_R"]) in
      when (abs (eta jet) <? eta_cut_R - jetR) (
        when ((pt_min <? jet_pt) && (jet_pt <? pt_max)) (
          let min_leading_track_pt := 5 in
          when (accept_jet jet min_leading_track_pt) (
            append ("inclusive_chjet_pt_star_R" +:+ py_str jetR) (Scalar jet_pt);;
            when (is_AA self) (
              append ("inclusive_chjet_pt_star_R" +:+ py_str jetR +:+ "_unsubtracted")
                     (Scalar jet_pt_uncorrected))))))).

Definition fill_charged_jet_ungroomed_observables (jet : PseudoJet)
    (holes_in_jet : list PseudoJet) (jet_pt jet_pt_uncorrected jetR : float)
    : M unit :=
  if sqrts self =? 2760 then
    inclusive_chjet_pt_alice jet jet_pt jet_pt_uncorrected jetR;;
    inclusive_chjet_g_alice jet holes_in_jet jet_pt jetR;;
    inclusive_chjet_ptd_alice jet holes_in_jet jet_pt jetR;;
    inclusive_chjet_mass_alice jet holes_in_jet jet_pt jetR
  else if sqrts self =? 200 then
    inclusive_chjet_pt_star jet jet_pt jet_pt_uncorrected jetR
  else ret tt.

(** *** [fill_charged_jet_groomed_observables] *)
Definition fill_charged_jet_groomed_observables (grooming_setting : yaml)
    (jet : PseudoJet) (jet_pt jetR : float) : M unit :=
  let* zcut := lift (num_at grooming_setting ["zcut"]) in
  let* beta := lift (num_at grooming_setting ["beta"]) in
  match soft_drop jet jetR beta zcut with
  | None => ret tt
  | Some jet_groomed_lund =>
      when (sqrts self =? 5020) (
        let obs := inclusive_chjet_observables self in
        let* centrality := lift (getpath obs ["zg_alice"; "centrality"]) in
        when (centrality_accepted self centrality) (
          let* SoftDrop :=
            lift (let? x := getpath obs ["zg_alice"; "SoftDrop"] in as_list x) in
          when (in_yaml grooming_setting SoftDrop) (
            let* pt_min := lift (num_at_index obs ["zg_alice"; "pt"] 0) in
            let* pt_max := lift (num_at_index obs ["zg_alice"; "pt"] 1) in
            let* eta_cut_R := lift (num_at obs ["zg_alice"; "eta_cut_R"]) in
            when (abs (eta jet) <? eta_cut_R - jetR) (
              let* jet_R := lift (nums_at obs ["zg_alice"; "jet_R"]) in
              when (in_float jetR jet_R) (
                when ((pt_min <? jet_pt) && (jet_pt <? pt_max)) (
                  let* theta_g := lift (py_div (Delta jet_groomed_lund) jetR) in
                  let zg := z jet_groomed_lund in
                  let suffix := "_R" +:+ py_str jetR +:+ "_zcut" +:+ py_str zcut
                                  +:+ "_beta" +:+ py_str beta in
                  append ("inclusive_chjet_zg_alice" +:+ suffix) (Scalar zg);;
                  append ("inclusive_chjet_tg_alice" +:+ suffix) (Scalar theta_g)))))))
  end.

(** *** [analyze_inclusive_jet] *)
Definition analyze_inclusive_jet (jet : PseudoJet)
    (fj_hadrons_positive fj_hadrons_negative : list PseudoJet)
    (jetR : float) (full_jet : bool) : M unit :=
  let '(jet_pt, jet_pt_uncorrected, holes_in_jet) :=
    corrected_jet_pt_STAT (is_AA self) jet fj_hadrons_negative jetR in
  if full_jet then
    fill_full_jet_ungroomed_observables jet fj_hadrons_positive holes_in_jet
      jet_pt jet_pt_uncorrected jetR;;
    when (truthy (grooming_settings self)) (
      let* settings := lift (as_list (grooming_settings self)) in
      for_each settings (fun grooming_setting =>
        fill_full_jet_groomed_observables grooming_setting jet jet_pt jetR))
  else
    fill_charged_jet_ungroomed_observables jet holes_in_jet
      jet_pt jet_pt_uncorrected jetR;;
    when (truthy (grooming_settings self)) (
      let* settings := lift (as_list (grooming_settings self)) in
      for_each settings (fun grooming_setting =>
        fill_charged_jet_groomed_observables grooming_setting jet jet_pt jetR)).

(** *** [fill_semi_inclusive_chjet_observables] *)

(** The jet yield and Delta phi of one trigger class ([label] is
    [lowTrigger] or [highTrigger]) of the ALICE h-jet analysis:
    [[
      if jetR in S['IAA_alice']['jet_R']:
          if np.abs(jet.delta_phi_to(hadron)) > (np.pi - 0.6):
              if pt_IAA[0] < jet_pt < pt_IAA[1]:
                  self.observable_dict_event[f'semi_inclusive_chjet_IAA_alice_R{jetR}_{label}'].append(jet_pt)
                  if self.is_AA:
                      self.observable_dict_event[f'semi_inclusive_chjet_IAA_alice_R{jetR}_{label}_unsubtracted'].append(jet_pt_unsubtracted)
      if jetR in S['dphi_alice']['jet_R']:
          if pt_dphi[0] < jet_pt < pt_dphi[1]:
              self.observable_dict_event[f'semi_inclusive_chjet_dphi_alice_R{jetR}_{label}'].append(np.abs(hadron.delta_phi_to(jet)))
    ]] *)
Definition hjet_alice_trigger (label : string) (pt_IAA pt_dphi : yaml)
    (hadron jet : PseudoJet) (jet_pt jet_pt_unsubtracted jetR : float) : M unit :=
  let S := semi_inclusive_chjet_observables self in
  let* jet_R := lift (nums_at S ["IAA_alice"; "jet_R"]) in
  when (in_float jetR jet_R) (
    when (np_pi - 0.6 <? abs (delta_phi_to jet hadron)) (
      let* in_pt := lift (in_range pt_IAA jet_pt) in
      when in_pt (
        append ("semi_inclusive_chjet_IAA_alice_R" +:+ py_str jetR +:+ "_" +:+ label)
               (Scalar jet_pt);;
        when (is_AA self) (
          append ("semi_inclusive_chjet_IAA_alice_R" +:+ py_str jetR +:+ "_" +:+ label
                    +:+ "_unsubtracted")
                 (Scalar jet_pt_unsubtracted)))));;
  let* jet_R := lift (nums_at S ["dphi_alice"; "jet_R"]) in
  when (in_float jetR jet_R) (
    let* in_pt := lift (in_range pt_dphi jet_pt) in
    when in_pt (
      append ("semi_inclusive_chjet_dphi_alice_R" +:+ py_str jetR +:+ "_" +:+ label)
             (Scalar (abs (delta_phi_to hadron jet))))).

(** The N-subjettiness ratio of one trigger class:
    [[
      if np.abs(jet.delta_phi_to(hadron)) > (np.pi - 0.6):
          if pt_nsubjettiness[0] < jet_pt < pt_nsubjettiness[1]:
              tau1 = n_subjettiness_calculator1.result(jet)/jet_pt_unsubtracted
              tau2 = n_subjettiness_calculator2.result(jet)/jet_pt_unsubtracted
              if tau1 > 1e-3:
                  self.observable_dict_event[f'semi_inclusive_chjet_nsubjettiness_alice_R{jetR}_{label}'].append(tau2/tau1)
    ]] *)
Definition nsubjettiness_alice_trigger (label : string) (pt_nsubjettiness : yaml)
    (hadron jet : PseudoJet) (jet_pt jet_pt_unsubtracted jetR : float) : M unit :=
  when (np_pi - 0.6 <? abs (delta_phi_to jet hadron)) (
    let* in_pt := lift (in_range pt_nsubjettiness jet_pt) in
    when in_pt (
      let* tau1 := lift (py_div (nsubjettiness 1 jet) jet_pt_unsubtracted) in
      let* tau2 := lift (py_div (nsubjettiness 2 jet) jet_pt_unsubtracted) in
      when (0.001 <? tau1) (
        let* ratio := lift (py_div tau2 tau1) in
        append ("semi_inclusive_chjet_nsubjettiness_alice_R" +:+ py_str jetR
                  +:+ "_" +:+ label)
               (Scalar ratio)))).

(** [if self.sqrts == 2760:] *)
Definition fill_semi_inclusive_chjet_alice (jets_selected : list PseudoJet)
    (fj_hadrons_positive_charged fj_hadrons_negative_charged : list PseudoJet)
    (jetR : float) : M unit :=
  let S := semi_inclusive_chjet_observables self in
  let* hjet_low_trigger_range := lift (getpath S ["IAA_alice"; "low_trigger_range"]) in
  let* hjet_high_trigger_range := lift (getpath S ["IAA_alice"; "high_trigger_range"]) in
  let* nsubjettiness_low_trigger_range :=
    lift (getpath S ["nsubjettiness_alice"; "low_trigger_range"]) in
  let* nsubjettiness_high_trigger_range :=
    lift (getpath S ["nsubjettiness_alice"; "high_trigger_range"]) in
  let* pt_IAA := lift (getpath S ["IAA_alice"; "pt"]) in
  let* pt_dphi := lift (getpath S ["dphi_alice"; "pt"]) in
  let* pt_nsubjettiness := lift (getpath S ["nsubjettiness_alice"; "pt"]) in
  for_each fj_hadrons_positive_charged (fun hadron =>
    let* hadron_eta_cut := lift (num_at S ["IAA_alice"; "hadron_eta_cut"]) in
    when (abs (eta hadron) <? hadron_eta_cut) (
      let* hjet_found_low := lift (in_range hjet_low_trigger_range (pt hadron)) in
      let* hjet_found_high := lift (in_range hjet_high_trigger_range (pt hadron)) in
      let* nsubjettiness_found_low :=
        lift (in_range nsubjettiness_low_trigger_range (pt hadron)) in
      let* nsubjettiness_found_high :=
        lift (in_range nsubjettiness_high_trigger_range (pt hadron)) in
      let found_trigger :=
        hjet_found_low || hjet_found_high
        || nsubjettiness_found_low || nsubjettiness_found_high in
      when found_trigger (
        (* Record hadron pt for trigger normalization *)
        let* jet_R := lift (nums_at S ["IAA_alice"; "jet_R"]) in
        let* min_R := lift (py_min jet_R) in
        when (jetR =? min_R)
          (append "semi_inclusive_chjet_alice_trigger_pt" (Scalar (pt hadron)));;
        (* Search for recoil jets *)
        for_each jets_selected (fun jet =>
          let* eta_cut_R := lift (num_at S ["IAA_alice"; "eta_cut_R"]) in
          when (abs (eta jet) <? eta_cut_R - jetR) (
            let '(jet_pt, jet_pt_unsubtracted) :=
              corrected_jet_pt_semi_inclusive (is_AA self) jet
                fj_hadrons_negative_charged jetR in
            (* Jet yield and Delta phi *)
            let* centrality := lift (getpath S ["IAA_alice"; "centrality"]) in
            when (centrality_accepted self centrality) (
              when hjet_found_low
                (hjet_alice_trigger "lowTrigger" pt_IAA pt_dphi hadron jet
                   jet_pt jet_pt_unsubtracted jetR);;
              when hjet_found_high
                (hjet_alice_trigger "highTrigger" pt_IAA pt_dphi hadron jet
                   jet_pt jet_pt_unsubtracted jetR));;
            (* Nsubjettiness *)
            let* centrality := lift (getpath S ["nsubjettiness_alice"; "centrality"]) in
            when (centrality_accepted self centrality) (
              let* jet_R := lift (nums_at S ["nsubjettiness_alice"; "jet_R"]) in
              when (in_float jetR jet_R) (
                when nsubjettiness_found_low
                  (nsubjettiness_alice_trigger "lowTrigger" pt_nsubjettiness hadron jet
                     jet_pt jet_pt_unsubtracted jetR);;
                when nsubjettiness_found_high
                  (nsubjettiness_alice_trigger "highTrigger" pt_nsubjettiness hadron jet
                     jet_pt jet_pt_unsubtracted jetR)))))))).

(** [if self.sqrts == 200:] *)
Definition fill_semi_inclusive_chjet_star (jets_selected : list PseudoJet)
    (fj_hadrons_positive_charged fj_hadrons_negative_charged : list PseudoJet)
    (jetR : float) : M unit :=
  let S := semi_inclusive_chjet_observables self in
  let* hjet_trigger_range := lift (getpath S ["IAA_star"; "trigger_range"]) in
  let* pt_IAA := lift (getpath S ["IAA_star"; "pt"]) in
  let* pt_dphi := lift (getpath S ["dphi_star"; "pt"]) in
  for_each fj_hadrons_positive_charged (fun hadron =>
    let* hadron_eta_cut := lift (num_at S ["IAA_star"; "hadron_eta_cut"]) in
    when (abs (eta hadron) <? hadron_eta_cut) (
      let* found_trigger := lift (in_range hjet_trigger_range (pt hadron)) in
      when found_trigger (
        let* jet_R := lift (nums_at S ["IAA_star"; "jet_R"]) in
        let* min_R := lift (py_min jet_R) in
        when (jetR =? min_R)
          (append "semi_inclusive_chjet_star_trigger_pt" (Scalar (pt hadron)));;
        for_each jets_selected (fun jet =>
          let* eta_cut_R := lift (num_at S ["IAA_star"; "eta_cut_R"]) in
          when (abs (eta jet) <? eta_cut_R - jetR) (
            let '(jet_pt, jet_pt_unsubtracted) :=
              corrected_jet_pt_semi_inclusive (is_AA self) jet
                fj_hadrons_negative_charged jetR in
            let* centrality := lift (getpath S ["IAA_star"; "centrality"]) in
            when (centrality_accepted self centrality) (
              let* jet_R := lift (nums_at S ["IAA_star"; "jet_R"]) in
              when (in_float jetR jet_R) (
                when (np_pi - 0.6 <? abs (delta_phi_to jet hadron)) (
                  let* in_pt := lift (in_range pt_IAA jet_pt) in
                  when in_pt (
                    append ("semi_inclusive_chjet_IAA_star_R" +:+ py_str jetR)
                           (Scalar jet_pt);;
                    when (is_AA self) (
                      append ("semi_inclusive_chjet_IAA_star_R" +:+ py_str jetR
                                +:+ "_unsubtracted")
                             (Scalar jet_pt_unsubtracted)))));;
              let* jet_R := lift (nums_at S ["dphi_star"; "jet_R"]) in
              when (in_float jetR jet_R) (
                let* in_pt := lift (in_range pt_dphi jet_pt) in
                when in_pt (
                  append ("semi_inclusive_chjet_dphi_star_R" +:+ py_str jetR)
                         (Scalar (abs (delta_phi_to hadron jet))))))))))).

Definition fill_semi_inclusive_chjet_observables (jets_selected : list PseudoJet)
    (fj_hadrons_positive_charged fj_hadrons_negative_charged : list PseudoJet)
    (jetR : float) : M unit :=
  when (sqrts self =? 2760)
    (fill_semi_inclusive_chjet_alice jets_selected fj_hadrons_positive_charged
       fj_hadrons_negative_charged jetR);;
  when (sqrts self =? 200)
    (fill_semi_inclusive_chjet_star jets_selected fj_hadrons_positive_charged
       fj_hadrons_negative_charged jetR).

(** *** [fill_dijet_observables] *)

(** First, find jets passing kinematic cuts. *)
Definition dijet_candidates (jets_selected fj_hadrons_negative : list PseudoJet)
    (jetR : float) : result (list PseudoJet) :=
  rfold
    (fun jet_candidates jet =>
       let jet_pt := corrected_jet_pt_dijet (is_AA self) jet fj_hadrons_negative jetR in
       let? pt_subleading_min :=
         num_at (dijet_observables self) ["xj_atlas"; "pt_subleading_min"] in
       if pt_subleading_min <? jet_pt then
         let? eta_cut := num_at (dijet_observables self) ["xj_atlas"; "eta_cut"] in
         if abs (eta jet) <? eta_cut
         then Ok (jet_candidates ++ [jet])
         else Ok jet_candidates
       else Ok jet_candidates)
    jets_selected [].

Definition fill_dijet_observables (jets_selected fj_hadrons_negative : list PseudoJet)
    (jetR : float) : M unit :=
  let D := dijet_observables self in
  when (sqrts self =? 2760) (
    (* ATLAS xj *)
    let* centrality := lift (getpath D ["xj_atlas"; "centrality"]) in
    when (centrality_accepted self centrality) (
      let* jet_R := lift (nums_at D ["xj_atlas"; "jet_R"]) in
      when (in_float jetR jet_R) (
        let* jet_candidates :=
          lift (dijet_candidates jets_selected fj_hadrons_negative jetR) in
        (* Find the leading two jets *)
        match leading_jet jet_candidates fj_hadrons_negative jetR with
        | (None, _, _) => ret tt
        | (Some leading_jet_, leading_jet_pt, i_leading_jet) =>
            let* jet_candidates := lift (py_del jet_candidates i_leading_jet) in
            match leading_jet jet_candidates fj_hadrons_negative jetR with
            | (None, _, _) => ret tt
            | (Some subleading_jet, subleading_jet_pt, _) =>
                when (7 * np_pi / 8 <? abs (delta_phi_to leading_jet_ subleading_jet)) (
                  let* pt_min := lift (num_at D ["xj_atlas"; "pt_leading_min"]) in
                  when (pt_min <? leading_jet_pt) (
                    let* xj := lift (py_div subleading_jet_pt leading_jet_pt) in
                    append ("dijet_xj_atlas_R" +:+ py_str jetR) (Scalar xj)))
            end
        end))).

(** *** [analyze_event] *)

(** The list [jetR_list] of the semi-inclusive jet correlations, unbound
    when [sqrts] is neither 2760 nor 200. *)
Definition semi_inclusive_jetR_list : result (list float) :=
  let S := semi_inclusive_chjet_observables self in
  if sqrts self =? 2760 then
    let? l1 := nums_at S ["IAA_alice"; "jet_R"] in
    let? l2 := nums_at S ["nsubjettiness_alice"; "jet_R"] in
    Ok (l1 ++ l2)
  else if sqrts self =? 200 then
    nums_at S ["IAA_star"; "jet_R"]
  else Raise NameError.

(** The body of [for jetR in self.jet_R]. *)
Definition analyze_event_jetR
    (fj_hadrons_positive fj_hadrons_negative : list PseudoJet)
    (fj_hadrons_positive_charged fj_hadrons_negative_charged : list PseudoJet)
    (jetR : float) : M unit :=
  (* Full jets *)
  let jets_selected :=
    jets_selected_of fj_hadrons_positive jetR (min_jet_pt self) (max_jet_y self) in
  for_each jets_selected (fun jet =>
    analyze_inclusive_jet jet fj_hadrons_positive fj_hadrons_negative jetR true);;
  (* Charged jets *)
  let jets_selected_charged :=
    jets_selected_of fj_hadrons_positive_charged jetR (min_jet_pt self) (max_jet_y self) in
  for_each jets_selected_charged (fun jet =>
    analyze_inclusive_jet jet fj_hadrons_positive_charged fj_hadrons_negative_charged
      jetR false);;
  (* Semi-inclusive jet correlations *)
  when (truthy (semi_inclusive_chjet_observables self)) (
    let* jetR_list := lift semi_inclusive_jetR_list in
    when (in_float jetR jetR_list)
      (fill_semi_inclusive_chjet_observables jets_selected_charged
         fj_hadrons_positive_charged fj_hadrons_negative_charged jetR));;
  (* Dijet observables *)
  when (truthy (dijet_observables self))
    (fill_dijet_observables jets_selected fj_hadrons_negative jetR).

(** *** The keys the configuration declares

    An observable block [dict] of the category [obs] under the name [key],
    with the radius [jetR] in its list [jet_R]; a grooming setting of
    such a block, with its [zcut] and [beta]. *)
Definition declares (obs : yaml) (key : string) (dict : yaml) (jetR : float) : Prop :=
  ∃ blocks jet_R,
    items obs = Ok blocks ∧ In (key, dict) blocks
    ∧ nums_at dict ["jet_R"] = Ok jet_R ∧ In jetR jet_R.

Definition grooms (dict : yaml) (zcut beta : float) : Prop :=
  ∃ settings grooming_setting,
    has_key "SoftDrop" dict = Ok true
    ∧ (let? x := getitem dict "SoftDrop" in as_list x) = Ok settings
    ∧ In grooming_setting settings
    ∧ num_at grooming_setting ["zcut"] = Ok zcut
    ∧ num_at grooming_setting ["beta"] = Ok beta.

(** The suffix of the second list of an observable, kept in runs with
    [is_AA] set only. *)
Definition AA_suffix (suffix s : string) : Prop :=
  s = "" ∨ (is_AA self = true ∧ s = suffix).

(** The observable keys that the blocks of the configuration give: for
    every hadron observable, every hadron correlation, and every radius
    (and grooming setting, or kappa) of every jet observable; the keys of
    the semi-inclusive observables are named after the collision energy,
    2760 or 200 GeV.  [skipped key jetR zcut] tells the grooming settings
    of the charged-jet observables that are left out. *)
Inductive derived (skipped : string → float → float → bool) : string → Prop :=
| declared_hadron observables observable s :
    keys (hadron_observables self) = Ok observables → In observable observables →
    AA_suffix "_holes" s →
    derived skipped (("hadron_" +:+ observable) +:+ s)
| declared_hadron_correlations observables observable :
    keys (hadron_correlation_observables self) = Ok observables →
    In observable observables →
    derived skipped ("hadron_correlations_" +:+ observable)
| declared_inclusive_jet_groomed key dict jetR zcut beta s :
    truthy (inclusive_jet_observables self) = true →
    declares (inclusive_jet_observables self) key dict jetR →
    grooms dict zcut beta →
    AA_suffix "_unsubtracted" s →
    derived skipped (("inclusive_jet_" +:+ key +:+ "_R" +:+ py_str jetR
                 +:+ "_zcut" +:+ py_str zcut +:+ "_beta" +:+ py_str beta) +:+ s)
| declared_inclusive_jet_charge key dict jetR kappas kappa s :
    truthy (inclusive_jet_observables self) = true →
    declares (inclusive_jet_observables self) key dict jetR →
    has_key "SoftDrop" dict = Ok false → contains "charge_cms" key = true →
    nums_at dict ["kappa"] = Ok kappas → In kappa kappas →
    AA_suffix "_unsubtracted" s →
    derived skipped (("inclusive_jet_" +:+ key +:+ "_R" +:+ py_str jetR
                 +:+ "_k" +:+ py_str kappa) +:+ s)
| declared_inclusive_jet key dict jetR :
    truthy (inclusive_jet_observables self) = true →
    declares (inclusive_jet_observables self) key dict jetR →
    has_key "SoftDrop" dict = Ok false → contains "charge_cms" key = false →
    derived skipped ("inclusive_jet_" +:+ key +:+ "_R" +:+ py_str jetR)
| declared_inclusive_jet_holes key dict jetR :
    truthy (inclusive_jet_observables self) = true →
    declares (inclusive_jet_observables self) key dict jetR →
    has_key "SoftDrop" dict = Ok false → contains "charge_cms" key = false →
    contains "Dz" key || contains "Dpt" key = true → is_AA self = true →
    derived skipped (("inclusive_jet_" +:+ key +:+ "_R" +:+ py_str jetR) +:+ "_holes")
| declared_inclusive_jet_Njets key dict jetR :
    truthy (inclusive_jet_observables self) = true →
    declares (inclusive_jet_observables self) key dict jetR →
    has_key "SoftDrop" dict = Ok false → contains "charge_cms" key = false →
    contains "Dz" key = true →
    derived skipped (("inclusive_jet_" +:+ key +:+ "_R" +:+ py_str jetR) +:+ "_Njets")
| declared_inclusive_jet_unsubtracted key dict jetR :
    truthy (inclusive_jet_observables self) = true →
    declares (inclusive_jet_observables self) key dict jetR →
    has_key "SoftDrop" dict = Ok false → contains "charge_cms" key = false →
    contains "Dz" key || contains "Dpt" key = false → is_AA self = true →
    derived skipped (("inclusive_jet_" +:+ key +:+ "_R" +:+ py_str jetR) +:+ "_unsubtracted")
| declared_inclusive_chjet_groomed key dict jetR zcut beta s :
    declares (inclusive_chjet_observables self) key dict jetR →
    grooms dict zcut beta →
    skipped key jetR zcut = false →
    AA_suffix "_unsubtracted" s →
    derived skipped (("inclusive_chjet_" +:+ key +:+ "_R" +:+ py_str jetR
                 +:+ "_zcut" +:+ py_str zcut +:+ "_beta" +:+ py_str beta) +:+ s)
| declared_inclusive_chjet key dict jetR s :
    declares (inclusive_chjet_observables self) key dict jetR →
    has_key "SoftDrop" dict = Ok false →
    AA_suffix "_unsubtracted" s →
    derived skipped (("inclusive_chjet_" +:+ key +:+ "_R" +:+ py_str jetR) +:+ s)
| declared_semi_inclusive_alice key dict jetR trigger s :
    truthy (semi_inclusive_chjet_observables self) = true →
    declares (semi_inclusive_chjet_observables self) key dict jetR →
    (sqrts self =? 2760) = true →
    trigger = "_lowTrigger" ∨ trigger = "_highTrigger" →
    AA_suffix "_unsubtracted" s →
    derived skipped ((("semi_inclusive_chjet_" +:+ key +:+ "_R" +:+ py_str jetR)
                 +:+ trigger) +:+ s)
| declared_semi_inclusive_alice_trigger_pt key dict jetR s :
    truthy (semi_inclusive_chjet_observables self) = true →
    declares (semi_inclusive_chjet_observables self) key dict jetR →
    (sqrts self =? 2760) = true →
    AA_suffix "_unsubtracted" s →
    derived skipped ("semi_inclusive_chjet_alice_trigger_pt" +:+ s)
| declared_semi_inclusive_star key dict jetR s :
    truthy (semi_inclusive_chjet_observables self) = true →
    declares (semi_inclusive_chjet_observables self) key dict jetR →
    (sqrts self =? 2760) = false → (sqrts self =? 200) = true →
    AA_suffix "_unsubtracted" s →
    derived skipped (("semi_inclusive_chjet_" +:+ key +:+ "_R" +:+ py_str jetR) +:+ s)
| declared_semi_inclusive_star_trigger_pt key dict jetR s :
    truthy (semi_inclusive_chjet_observables self) = true →
    declares (semi_inclusive_chjet_observables self) key dict jetR →
    (sqrts self =? 2760) = false → (sqrts self =? 200) = true →
    AA_suffix "_unsubtracted" s →
    derived skipped ("semi_inclusive_chjet_star_trigger_pt" +:+ s)
| declared_dijet key dict jetR s :
    truthy (dijet_observables self) = true →
    declares (dijet_observables self) key dict jetR →
    AA_suffix "_unsubtracted" s →
    derived skipped (("dijet_" +:+ key +:+ "_R" +:+ py_str jetR) +:+ s).

(** Every key that the declared blocks give, none left out. *)
Definition declared : string → Prop := derived (fun _ _ _ => false).

(** The theta_g of ALICE at R = 0.2 and zcut = 0.4, the grooming setting
    at which [initialize_output_lists] continues with the next one; and
    the keys that the declared blocks give apart from it. *)
Definition tg_alice_R02_zcut04 (key : string) (jetR zcut : float) : bool :=
  String.eqb key "tg_alice" && (jetR =? 0.2) && (zcut =? 0.4).

Definition declared_except_tg_alice : string → Prop := derived tg_alice_R02_zcut04.

(** *** The selections, as the cuts of an observable state them

    A hadron passes the selection of a hadron observable, and a jet that
    of the inclusive jet pt observables, when the centrality is accepted
    and every kinematic cut holds. *)
Definition hadron_passes (centrality : yaml) (pt_min pt_max eta_cut : float)
    (pids : list Z) (particle : PseudoJet) : bool :=
  centrality_accepted self centrality
  && (pt_min <? pt particle) && (pt particle <? pt_max)
  && (abs (eta particle) <? eta_cut)
  && in_Z (Z.abs (user_index particle)) pids.



Definition analyze_event (event : Event) : M unit :=
  (* Initialize empty list for each output observable *)
  initialize_output_lists;;
  let fj_hadrons_positive := fill_fastjet_constituents event true false in
  let fj_hadrons_negative := fill_fastjet_constituents event false false in
  let fj_hadrons_positive_charged := fill_fastjet_constituents event true true in
  let fj_hadrons_negative_charged := fill_fastjet_constituents event false true in
  fill_hadron_observables fj_hadrons_positive true;;
  when (is_AA self) (fill_hadron_observables fj_hadrons_negative false);;
  fill_hadron_correlation_observables fj_hadrons_positive;;
  for_each (jet_R self)
    (analyze_event_jetR fj_hadrons_positive fj_hadrons_negative
       fj_hadrons_positive_charged fj_hadrons_negative_charged).

End AnalyzeJetscapeEvents_STAT.

(** ** The command-line entry point

    The [__main__] block of [analyze_events_STAT.py] and of
    [analyze_events_TG3.py] (the two are the same but for the class they
    instantiate). *)

Definition default_configFile : string :=
  "/home/jetscape-user/JETSCAPE-analysis/config/jetscapeAnalysisConfig.yaml".
Definition default_inputFile : string :=
  "/home/jetscape-user/JETSCAPE-analysis/test.out".
Definition default_outputDir : string :=
  "/home/jetscape-user/JETSCAPE-analysis/TestOutput".

(** The double quote character. *)
Definition dquote : string := String (ascii_of_nat 34) EmptyString.

(** ['File "{0}" does not exist! Exiting!'.format(path)] *)
Definition does_not_exist (path : string) : string :=
  "File " +:+ dquote +:+ path +:+ dquote +:+ " does not exist! Exiting!".

(** What a run of the script leaves: the lines it printed and how it
    ended, [Ok a] when the analysis ran to its end with the result [a]. *)
Record run (A : Type) := {
  printed : list string;
  ended : result A;
}.
Arguments printed {A} r.
Arguments ended {A} r.

(** The exit status of the process. *)
Definition status_of {A} (r : result A) : Z :=
  match r with
  | Ok _ => 0%Z
  | Raise (SystemExit arg) => exit_status arg
  | Raise _ => 1%Z
  end.

Section Main.
(** [os.path.exists] *)
Variable path_exists : string → bool.
(** [analysis = Analyze...(config_file, input_file, output_dir)] followed
    by [analysis.analyze_jetscape_events()] *)
Context {A : Type}.
Variable analyze_jetscape_events : string → string → string → result A.

(** The arguments [-c], [-i] and [-o], [None] when not given. *)
Definition main (c i o : option string) : run A :=
  let configFile := default default_configFile c in
  let inputFile := default default_inputFile i in
  let outputDir := default default_outputDir o in
  (* If invalid configFile is given, exit *)
  if negb (path_exists configFile) then
    {| printed := [does_not_exist configFile];
       ended := Raise (SystemExit (ExitCode 0)) |}
  (* If invalid inputDir is given, exit *)
  else if negb (path_exists inputFile) then
    {| printed := [does_not_exist inputFile];
       ended := Raise (SystemExit (ExitCode 0)) |}
  else
    {| printed := [];
       ended := analyze_jetscape_events configFile inputFile outputDir |}.

End Main.

(** ** [PlotUtils.divide_tgraph] *)

(** ROOT's [TH1]: the bins 1 to [GetNbinsX()], each with its center, its
    content and its error. *)
Record Bin := {
  bin_center : float;
  bin_content : float;
  bin_error : float;
}.
Record TH1 := { bins : list Bin }.

Definition GetNbinsX (h : TH1) : nat := length (bins h).
Definition bin_of (h : TH1) (bin : nat) : Bin :=
  nth (bin - 1) (bins h) {| bin_center := 0; bin_content := 0; bin_error := 0 |}.
Definition GetBinCenter (h : TH1) (bin : nat) : float := bin_center (bin_of h bin).
Definition GetBinContent (h : TH1) (bin : nat) : float := bin_content (bin_of h bin).
Definition GetBinError (h : TH1) (bin : nat) : float := bin_error (bin_of h bin).

(** ROOT's [TGraphAsymmErrors]: a name and the points. *)
Record Point := {
  point_x : float;
  point_y : float;
  exl : float;
  exh : float;
  eyl : float;
  eyh : float;
}.
Record TGraph := {
  GetName : string;
  points : list Point;
}.

Definition Point0 : Point :=
  {| point_x := 0; point_y := 0; exl := 0; exh := 0; eyl := 0; eyh := 0 |}.

(** [g.Clone(name)] makes a new object with the points of [g]. *)
Definition Clone (g : TGraph) (name : string) : TGraph :=
  {| GetName := name; points := points g |}.

(** [g.GetPoint(i, x, y)] leaves [x] and [y] (here 0) when there is no
    point [i]. *)
Definition GetPoint (g : TGraph) (i : nat) : float * float :=
  match points g !! i with
  | Some p => (point_x p, point_y p)
  | None => (0, 0)
  end.
Definition GetErrorYlow (g : TGraph) (i : nat) : float :=
  match points g !! i with Some p => eyl p | None => -1 end.
Definition GetErrorYhigh (g : TGraph) (i : nat) : float :=
  match points g !! i with Some p => eyh p | None => -1 end.

(** [SetPoint] and [SetPointError] extend the graph to [i + 1] points
    when it has fewer. *)
Definition extend (l : list Point) (i : nat) : list Point :=
  l ++ replicate (S i - length l) Point0.
Definition SetPoint (g : TGraph) (i : nat) (x y : float) : TGraph :=
  {| GetName := GetName g;
     points := alter (fun p => {| point_x := x; point_y := y; exl := exl p;
                                  exh := exh p; eyl := eyl p; eyh := eyh p |})
                     i (extend (points g) i) |}.
Definition SetPointError (g : TGraph) (i : nat) (xl xh yl yh : float) : TGraph :=
  {| GetName := GetName g;
     points := alter (fun p => {| point_x := point_x p; point_y := point_y p;
                                  exl := xl; exh := xh; eyl := yl; eyh := yh |})
                     i (extend (points g) i) |}.

(** The graph [G_new] after the bin [i + 1] has been divided: the point
    [i] carries the bin center and the quotient. *)
Definition divided_point (G_new : TGraph) (i : nat) (x y : float)
    (errors : float * float) : TGraph :=
  SetPointError (SetPoint G_new i x y) i 0 0 errors.1 errors.2.

(** The ROOT objects of the process: histograms and graphs are held by
    reference, [divide_tgraph] is given two references and returns one. *)
Record heap := {
  hists : gmap nat TH1;
  graphs : gmap nat TGraph;
}.

(** Reading the histogram or the graph behind a reference. *)
Definition hist (h : nat) : St heap TH1 := fun σ =>
  match hists σ !! h with
  | Some x => Ok (x, σ)
  | None => Raise NameError
  end.
Definition graph (g : nat) : St heap TGraph := fun σ =>
  match graphs σ !! g with
  | Some x => Ok (x, σ)
  | None => Raise NameError
  end.

(** Updating the graph behind a reference in place. *)
Definition update_graph (g : nat) (f : TGraph → TGraph) : St heap unit := fun σ =>
  match graphs σ !! g with
  | Some x => Ok (tt, {| hists := hists σ; graphs := <[g := f x]> (graphs σ) |})
  | None => Raise NameError
  end.

(** A new graph object. *)
Definition new_graph (x : TGraph) : St heap nat := fun σ =>
  let r := fresh (dom (graphs σ)) in
  Ok (r, {| hists := hists σ; graphs := <[r := x]> (graphs σ) |}).

(** [np.isclose(a, b)] on two numbers, with numpy's [rtol=1e-05],
    [atol=1e-08] and [equal_nan=False]. *)
Definition is_finite (x : float) : bool :=
  negb (is_nan x) && negb (is_infinity x).
Definition isclose (a b : float) : bool :=
  if is_finite a && is_finite b
  then abs (a - b) <=? 1e-08 + 1e-05 * abs b
  else a =? b.

Section DivideTGraph.
Context {Fmt : PyFormat}.
(** The builtin [pow], on floats: the power, or the [OverflowError] that
    Python raises when the power of a finite number is out of range. *)
Variable pow : float → float → result float.

(** The two new errors: the relative uncertainties of the graph and of
    the histogram combined in quadrature when both values are positive,
    the relative uncertainty of the graph otherwise. *)
Definition new_errors (h_y h_error gy yErrLow yErrUp new_content : float)
    : result (float * float) :=
  if (0 <? gy) && (0 <? h_y) then
    let? rl := py_div yErrLow gy in
    let? rl2 := pow rl 2 in
    let? rh := py_div h_error h_y in
    let? rh2 := pow rh 2 in
    let new_error_low := sqrt (rl2 + rh2) * new_content in
    let? ru := py_div yErrUp gy in
    let? ru2 := pow ru 2 in
    let? rh := py_div h_error h_y in
    let? rh2 := pow rh 2 in
    let new_error_up := sqrt (ru2 + rh2) * new_content in
    Ok (new_error_low, new_error_up)
  else
    let? rl := py_div yErrLow gy in
    let new_error_low := rl * new_content in
    let? ru := py_div yErrUp gy in
    let new_error_up := ru * new_content in
    Ok (new_error_low, new_error_up).

(** The body of [for bin in range(1, nBins+1)]. *)
Definition divide_bin (h g g_new : nat) (bin : nat) : St heap unit :=
  (* Get histogram (x,y) *)
  let* H := hist h in
  let h_x := GetBinCenter H bin in
  let h_y := GetBinContent H bin in
  let h_error := GetBinError H bin in
  (* Get TGraph (x,y) and errors *)
  let* G := graph g in
  let '(gx, gy) := GetPoint G (bin - 1) in
  let yErrLow := GetErrorYlow G (bin - 1) in
  let yErrUp := GetErrorYhigh G (bin - 1) in
  if negb (isclose h_x gx) then
    lift (Raise (SystemExit (ExitMsg
      ("ERROR: hist x: " +:+ py_str h_x +:+ ", graph x: " +:+ py_str gx))))
  else
    let* new_content := lift (py_div h_y gy) in
    let* errors := lift (new_errors h_y h_error gy yErrLow yErrUp new_content) in
    let '(new_error_low, new_error_up) := errors in
    update_graph g_new (fun G_new => SetPoint G_new (bin - 1) h_x new_content);;
    update_graph g_new (fun G_new =>
      SetPointError G_new (bin - 1) 0 0 new_error_low new_error_up).

Definition divide_tgraph (h g : nat) : St heap nat :=
  (* Clone tgraph, in order to return a new one *)
  let* G := graph g in
  let* g_new := new_graph (Clone G (GetName G +:+ "_divided")) in
  let* H := hist h in
  let nBins := GetNbinsX H in
  for_each (seq 1 nBins) (divide_bin h g g_new);;
  ret g_new.

End DivideTGraph.

(** ** The writes of a computation

    The analysis reads the configuration and the event, never the
    dictionary: all it does to [observable_dict_event] is to bind a key to
    the empty list and to append to the list of a key. *)
Inductive write :=
| SetEmpty (key : string)
| Append (key : string) (x : entry).

Definition do_write (d : dict) (w : write) : result dict :=
  match w with
  | SetEmpty key => Ok (<[key := []]> d)
  | Append key x =>
      match d !! key with
      | Some l => Ok (<[key := l ++ [x]]> d)
      | None => Raise (KeyError key)
      end
  end.

Definition do_writes (ws : list write) (d : dict) : result dict :=
  rfold do_write ws d.

(** A computation seen from outside: the writes it makes, in order, and
    the value it returns or the exception it raises after them. *)
Definition run_trace {A} (t : list write * result A) (d : dict) : result (A * dict) :=
  let? d' := do_writes t.1 d in
  let? a := t.2 in
  Ok (a, d').

(** [c] makes the same writes on every dictionary, all of them in [P]. *)
Definition Traceable (P : write → Prop) {A} (c : M A) : Prop :=
  ∃ t, Forall P t.1 ∧ ∀ d, c d = run_trace t d.

Definition is_set (w : write) : Prop :=
  match w with SetEmpty _ => True | Append _ _ => False end.
Definition is_append (w : write) : Prop :=
  match w with SetEmpty _ => False | Append _ _ => True end.
Definition any_write (w : write) : Prop := True.

(** ** Looking at a run

    Whether a run returned, and the dictionary it left ([d] when it
    raised). *)
Definition returns {S A} (r : result (A * S)) : bool :=
  match r with Ok _ => true | Raise _ => false end.

Definition output {S A} (r : result (A * S)) (s : S) : S :=
  match r with Ok (_, s') => s' | Raise _ => s end.

(** ** [AnalyzeJetscapeEvents_STAT.initialize_user_config] *)

(** [s.replace(old, new)] for an [old] that is not empty: the
    occurrences of [old] are replaced from the left, and do not
    overlap.  [skip] is the number of characters of an occurrence still
    to be passed. *)
Fixpoint replace_from (old new : string) (skip : nat) (s : string) : string :=
  match s with
  | EmptyString => EmptyString
  | String c s' =>
      match skip with
      | S skip' => replace_from old new skip' s'
      | O =>
          if String.prefix old s
          then new +:+ replace_from old new (String.length old - 1) s'
          else String c (replace_from old new 0 s')
      end
  end.
Definition str_replace (s old new : string) : string := replace_from old new 0 s.

(** [pathlib.Path(path).name] *)
Class PathLib := { Path_name : string → string }.

(** The attributes that [initialize_user_config] sets, as the
    configuration file gives them. *)
Record user_config := {
  config_sqrts : yaml;
  config_output_file : string;
  config_hadron_observables : yaml;
  config_hadron_correlation_observables : yaml;
  config_inclusive_chjet_observables : yaml;
  config_inclusive_jet_observables : yaml;
  config_semi_inclusive_chjet_observables : yaml;
  config_dijet_observables : yaml;
  config_jet_R : yaml;
  config_min_jet_pt : yaml;
  config_max_jet_y : yaml;
  config_grooming_settings : yaml;
}.

(** [config[key] if key in config else None] *)
Definition optional (config : yaml) (key : string) : result yaml :=
  let? present := has_key key config in
  if present then getitem config key else Ok YNone.

(** [config] is what [yaml.safe_load] has read from [self.config_file];
    [input_file_hadrons] is the attribute of the base class. *)
Definition initialize_user_config {P : PathLib} (input_file_hadrons : string)
    (config : yaml) : result user_config :=
  let? sqrts := getitem config "sqrt_s" in
  let output_file := "observables" in
  let output_file :=
    if contains "final_state_hadrons" input_file_hadrons then
      let _input_filename := Path_name input_file_hadrons in
      str_replace _input_filename "final_state_hadrons" output_file
    else output_file in
  (* Load observable blocks *)
  let? hadron_observables := getitem config "hadron" in
  let? hadron_correlation_observables := getitem config "hadron_correlations" in
  let? inclusive_chjet_observables := getitem config "inclusive_chjet" in
  let? inclusive_jet_observables := optional config "inclusive_jet" in
  let? semi_inclusive_chjet_observables := optional config "semi_inclusive_chjet" in
  let? dijet_observables := optional config "dijet" in
  (* General jet finding parameters *)
  let? jet_R := getitem config "jet_R" in
  let? min_jet_pt := getitem config "min_jet_pt" in
  let? max_jet_y := getitem config "max_jet_y" in
  (* General grooming parameters *)
  let? grooming_settings := optional config "SoftDrop" in
  Ok {| config_sqrts := sqrts;
        config_output_file := output_file;
        config_hadron_observables := hadron_observables;
        config_hadron_correlation_observables := hadron_correlation_observables;
        config_inclusive_chjet_observables := inclusive_chjet_observables;
        config_inclusive_jet_observables := inclusive_jet_observables;
        config_semi_inclusive_chjet_observables := semi_inclusive_chjet_observables;
        config_dijet_observables := dijet_observables;
        config_jet_R := jet_R;
        config_min_jet_pt := min_jet_pt;
        config_max_jet_y := max_jet_y;
        config_grooming_settings := grooming_settings |}.

(** The keys that the configuration has to have. *)
Definition required_keys : list string :=
  ["sqrt_s"; "hadron"; "hadron_correlations"; "inclusive_chjet";
   "jet_R"; "min_jet_pt"; "max_jet_y"].

(** ** [AnalyzeJetscapeEvents_TG3] *)

(** What the TG3 analysis uses of fastjet besides: the energy and the
    longitudinal momentum of a [PseudoJet], and the jets of a cluster
    sequence with no selector. *)
Class FastJetTG3 {FJ : FastJet} := {
  E : PseudoJet → float;
  pz : PseudoJet → float;
  (** [fj.sorted_by_pt(fj.ClusterSequence(particles,
      fj.JetDefinition(fj.antikt_algorithm, R)).inclusive_jets())] *)
  inclusive_jets_of : list PseudoJet → float → list PseudoJet;
}.

(** [x ** 2] on a Python float.  Python raises an [OverflowError] when
    the square is out of range. *)
Class PyFloat := { py_square : float → result float }.

(** ROOT's histograms, as the analysis makes and fills them: the axes
    (variable bins from an array of edges, or [n] bins from [lo] to
    [hi]), the titles of the axes, whether [Sumw2] was called, and the
    values given to [Fill], in order. *)
Inductive axis :=
| Edges (nbins : Z) (edges : list float)
| Uniform (nbins : Z) (lo hi : float).

Record histogram := {
  h_name : string;
  h_title : string;
  h_axes : list axis;
  h_axis_titles : list string;
  h_sumw2 : bool;
  h_fills : list entry;
}.

(** [ROOT.TH1F(name, title, len(bins)-1, bins)],
    [ROOT.TH1F(name, title, n, lo, hi)] and
    [ROOT.TH2F(name, title, nx, xlo, xhi, ny, ylo, yhi)] *)
Definition TH1F_bins (hname : string) (bins : list float) : histogram :=
  {| h_name := hname; h_title := hname;
     h_axes := [Edges (Z.of_nat (length bins) - 1) bins];
     h_axis_titles := []; h_sumw2 := false; h_fills := [] |}.
Definition TH1F (hname : string) (n : Z) (lo hi : float) : histogram :=
  {| h_name := hname; h_title := hname; h_axes := [Uniform n lo hi];
     h_axis_titles := []; h_sumw2 := false; h_fills := [] |}.
Definition TH2F (hname : string) (nx : Z) (xlo xhi : float)
    (ny : Z) (ylo yhi : float) : histogram :=
  {| h_name := hname; h_title := hname;
     h_axes := [Uniform nx xlo xhi; Uniform ny ylo yhi];
     h_axis_titles := []; h_sumw2 := false; h_fills := [] |}.

Definition SetTitles (h : histogram) (titles : list string) : histogram :=
  {| h_name := h_name h; h_title := h_title h; h_axes := h_axes h;
     h_axis_titles := titles; h_sumw2 := h_sumw2 h; h_fills := h_fills h |}.
Definition Sumw2 (h : histogram) : histogram :=
  {| h_name := h_name h; h_title := h_title h; h_axes := h_axes h;
     h_axis_titles := h_axis_titles h; h_sumw2 := true; h_fills := h_fills h |}.
Definition Filled (h : histogram) (x : entry) : histogram :=
  {| h_name := h_name h; h_title := h_title h; h_axes := h_axes h;
     h_axis_titles := h_axis_titles h; h_sumw2 := h_sumw2 h;
     h_fills := h_fills h ++ [x] |}.

(** The histograms that are attributes of the analysis object, by
    attribute name. *)
Abbreviation histograms := (gmap string histogram).
Abbreviation HistM := (St histograms).

(** [setattr(self, hname, h)] *)
Definition setattr (hname : string) (h : histogram) : HistM unit := fun σ =>
  Ok (tt, <[hname := h]> σ).

(** [getattr(self, hname)] *)
Definition getattr (hname : string) : HistM histogram := fun σ =>
  match σ !! hname with
  | Some h => Ok (h, σ)
  | None => Raise AttributeError
  end.

(** [getattr(self, hname).Fill(x)] and [getattr(self, hname).Fill(x, y)]
    (the entry is [Scalar x] or [Pair x y]) *)
Definition Fill (hname : string) (x : entry) : HistM unit := fun σ =>
  match σ !! hname with
  | Some h => Ok (tt, <[hname := Filled h x]> σ)
  | None => Raise AttributeError
  end.

(** The attributes [initialize_user_config] sets and the analysis
    reads. *)
Record TG3 := {
  charged_particle_eta_cut : yaml;
  bins_CMS_hadron : list float;
  bins_ATLAS_hadron : list float;
  bins_ALICE_hadron : list float;
  min_track_pt : yaml;
  jetR_list : list float;
  min_jet_pt_TG3 : float;
  jet_eta_cut_04 : yaml;
  jet_eta_cut_02 : yaml;
  bins_CMS_jet : list float;
  bins_ATLAS_jet_0_10 : list float;
  bins_ATLAS_jet_30_40 : list float;
  bins_ATLAS_jet_40_50 : list float;
  bins_ALICE_jet : list float;
  bins_ALICE_g_R02 : list float;
  bins_ALICE_m_R04 : list float;
  soft_drop_zcut : float;
  soft_drop_beta : float;
  bins_ALICE_soft_drop_zg_0_10_R02 : list float;
  bins_ALICE_soft_drop_theta_g_0_10_R02 : list float;
  hjet_low_trigger_range : yaml;
  hjet_high_trigger_range : yaml;
  bins_ALICE_hjet_IAA_R04 : list float;
  bins_ALICE_hjet_delta_phi_R04 : list float;
}.

Section AnalyzeJetscapeEvents_TG3.
Context {FJ : FastJet} {FJ3 : FastJetTG3} {PyF : PyFloat} {Fmt : PyFormat}.
Variable self : TG3.

(** *** [initialize_user_output_objects] *)

(** [h = ROOT.TH1F(...); h.Sumw2(); setattr(self, hname, h)] *)
Definition book (h : histogram) : HistM unit := setattr (h_name h) (Sumw2 h).

Definition initialize_user_output_objects : HistM unit :=
  (* Hadron histograms *)
  book (TH1F_bins "hChargedPt_CMS" (bins_CMS_hadron self));;
  book (TH1F_bins "hChargedPt_ATLAS" (bins_ATLAS_hadron self));;
  book (TH1F_bins "hChargedPt_ALICE" (bins_ALICE_hadron self));;
  book (TH1F "hChargedPt_Recoils" 3000 0 300);;
  (* Jet histograms *)
  for_each (jetR_list self) (fun jetR =>
    let R := py_str jetR in
    book (TH1F_bins ("hJetPt_CMS_R" +:+ R) (bins_CMS_jet self));;
    book (TH1F_bins ("hJetPt_ALICE_R" +:+ R) (bins_ALICE_jet self));;
    book (TH1F_bins ("hJetPt_ALICE_no_ptlead_cut_R" +:+ R) (bins_ALICE_jet self));;
    (* Angularity *)
    book (TH1F_bins ("hAngularity_R" +:+ R) (bins_ALICE_g_R02 self));;
    (* Jet mass *)
    book (TH1F_bins ("hJetMass_R" +:+ R) (bins_ALICE_m_R04 self));;
    (* Substructure *)
    book (TH1F_bins ("hSoftDrop_zg_R" +:+ R) (bins_ALICE_soft_drop_zg_0_10_R02 self));;
    book (TH1F_bins ("hSoftDrop_theta_g_R" +:+ R)
            (bins_ALICE_soft_drop_theta_g_0_10_R02 self));;
    (* h-jet *)
    for_each ["low"; "high"] (fun hist_label =>
      book (TH1F_bins ("hRecoilJetYield_" +:+ hist_label +:+ "Trigger_R" +:+ R)
              (bins_ALICE_hjet_IAA_R04 self));;
      book (TH1F_bins ("hRecoilJetDeltaPhi_" +:+ hist_label +:+ "Trigger_R" +:+ R)
              (bins_ALICE_hjet_delta_phi_R04 self)));;
    (* Leading subjets *)
    when (jetR =? 0.2)
      (book (TH1F ("hLeadingSubjet_R" +:+ R +:+ "_r" +:+ py_str 0.1) 100 0 1));;
    when (jetR =? 0.4)
      (book (TH1F ("hLeadingSubjet_R" +:+ R +:+ "_r" +:+ py_str 0.2) 100 0 1));;
    setattr ("hJetPt_recoils_R" +:+ R)
      (Sumw2 (SetTitles (TH2F ("hJetPt_recoils_R" +:+ R) 100 0 1000 300 0 300)
                ["jet pt"; "recoil pt"])));;
  book (TH1F_bins ("hJetPt_ATLAS_binning0_R" +:+ py_str 0.4) (bins_ATLAS_jet_0_10 self));;
  book (TH1F_bins ("hJetPt_ATLAS_binning1_R" +:+ py_str 0.4) (bins_ATLAS_jet_30_40 self));;
  book (TH1F_bins ("hJetPt_ATLAS_binning2_R" +:+ py_str 0.4) (bins_ATLAS_jet_40_50 self)).

(** *** [fill_hadron_histograms]

    [status] is [true] for ['+'] and [false] for ['-']. *)
Definition fill_hadron_histograms (fj_particles : list PseudoJet) (status : bool)
    : HistM unit :=
  for_each fj_particles (fun particle =>
    let pid := user_index particle in
    let pt := pt particle in
    let eta := eta particle in
    (* Skip negative recoils (holes) *)
    if negb status then Fill "hChargedPt_Recoils" (Scalar pt)
    else
      (* CMS *)
      let* cut := lift (num_at_index (charged_particle_eta_cut self) [] 0) in
      when (abs eta <? cut)
        (when (in_Z (Z.abs pid) charged_pids) (Fill "hChargedPt_CMS" (Scalar pt)));;
      (* ATLAS: exclude e+, mu+ (11, 13) *)
      let* cut := lift (num_at_index (charged_particle_eta_cut self) [] 1) in
      when (abs eta <? cut)
        (when (in_Z (Z.abs pid) [211; 321; 2212; 3222; 3112; 3312; 3334]%Z)
           (Fill "hChargedPt_ATLAS" (Scalar pt)));;
      (* ALICE *)
      let* cut := lift (num_at_index (charged_particle_eta_cut self) [] 2) in
      when (abs eta <? cut)
        (when (in_Z (Z.abs pid) charged_pids) (Fill "hChargedPt_ALICE" (Scalar pt)))).

(** *** [fill_jet_histograms] *)

(** [np.sqrt(j.E() ** 2 - j.pt() ** 2 - j.pz() ** 2)] *)
Definition four_vector_mass (j : PseudoJet) : result float :=
  let? E2 := py_square (E j) in
  let? pt2 := py_square (pt j) in
  let? pz2 := py_square (pz j) in
  Ok (sqrt (E2 - pt2 - pz2)).

(** The angularity: the constituents are added, the holes in the jet
    subtracted, each weighted by its pt over the uncorrected jet pt. *)
Definition angularity_TG3 (jet : PseudoJet) (holes_in_jet : list PseudoJet)
    : result float :=
  let? value :=
    rfold (fun value constituent =>
             let? r := py_div (pt constituent) (pt jet) in
             Ok (value + r * delta_R constituent jet))
          (constituents jet) 0 in
  rfold (fun value hadron =>
           let? r := py_div (pt hadron) (pt jet) in
           Ok (value - r * delta_R hadron jet))
        holes_in_jet value.

(** The jet mass, with the mass of the sum of the holes in the jet
    removed. *)
Definition jet_mass_TG3 (jet : PseudoJet) (holes_in_jet : list PseudoJet)
    : result float :=
  let? jet_mass := four_vector_mass jet in
  match holes_in_jet with
  | [] => Ok jet_mass
  | hole :: holes =>
      let hole_four_vector := fold_left pj_add holes hole in
      let? hole_mass := four_vector_mass hole_four_vector in
      Ok (jet_mass - hole_mass)
  end.

(** The body of [for hadron in itertools.chain(fj_hadrons_positive,
    fj_hadrons_negative)]. *)
Definition hjet_TG3 (jet : PseudoJet) (jet_pt jetR : float) (hadron : PseudoJet)
    : HistM unit :=
  let* found_low := lift (in_range (hjet_low_trigger_range self) (pt hadron)) in
  let* found_high := lift (in_range (hjet_high_trigger_range self) (pt hadron)) in
  (* Check if jet is within the right range. *)
  let found_recoil_jet :=
    (found_low || found_high) && (np_pi - delta_R jet hadron <? 0.6) in
  (* Record the jet pt if it was found *)
  when found_recoil_jet (
    let hist_label := if found_high then "high" else "low" in
    Fill ("hRecoilJetYield_" +:+ hist_label +:+ "Trigger_R" +:+ py_str jetR)
         (Scalar jet_pt);;
    when (between 40 jet_pt 60)
      (Fill ("hRecoilJetDeltaPhi_" +:+ hist_label +:+ "Trigger_R" +:+ py_str jetR)
            (Scalar (delta_phi_to hadron jet)))).

(** [subjetR], [None] when the jet is in neither window. *)
Definition subjetR_of (jetR jet_pt : float) : option float :=
  if (jetR =? 0.4) && between 80 jet_pt 100 then Some 0.2
  else if (jetR =? 0.2) && between 60 jet_pt 80 then Some 0.1
  else None.

(** The leading subjets.  The loop over the holes reads [subjet], a name
    that is bound nowhere: its first iteration raises [NameError]. *)
Definition leading_subjet_TG3 (jet : PseudoJet) (fj_hadrons_negative : list PseudoJet)
    (jet_pt jetR subjetR : float) : HistM unit :=
  let subjets := inclusive_jets_of (constituents jet) subjetR in
  let leading_subjet := leading_jet_TG3 subjets in
  (* Sum the negative recoils within subjetR *)
  let* negative_pt :=
    lift (match fj_hadrons_negative with
          | [] => Ok 0
          | _ :: _ => Raise NameError
          end) in
  (* Compute corrected subjet pt, and fill histograms *)
  let* subjet_pt :=
    lift (match leading_subjet with
          | Some leading_subjet => Ok (pt leading_subjet - negative_pt)
          | None => Raise AttributeError
          end) in
  let* z_leading := lift (py_div subjet_pt jet_pt) in
  Fill ("hLeadingSubjet_R" +:+ py_str jetR +:+ "_r" +:+ py_str subjetR)
       (Scalar z_leading).

(** The charged jets: [if charged:].  [groomed] is the [zg] and the
    [theta_g] that an earlier jet of the loop has left, [None] before
    the first groomed jet (the two names are then unbound). *)
Definition fill_charged_jet_histograms (jet : PseudoJet)
    (fj_hadrons_positive fj_hadrons_negative holes_in_jet : list PseudoJet)
    (jet_pt jetR : float) (groomed : option (float * float))
    : HistM (option (float * float)) :=
  (* Angularity *)
  when (between 40 jet_pt 60) (
    let* value := lift (angularity_TG3 jet holes_in_jet) in
    Fill ("hAngularity_R" +:+ py_str jetR) (Scalar value));;
  (* Jet mass *)
  when (between 60 jet_pt 80) (
    let* jet_mass := lift (jet_mass_TG3 jet holes_in_jet) in
    Fill ("hJetMass_R" +:+ py_str jetR) (Scalar jet_mass));;
  (* Substructure *)
  let* groomed :=
    if between 60 jet_pt 80 then
      let* groomed :=
        match soft_drop jet jetR (soft_drop_beta self) (soft_drop_zcut self) with
        | Some jet_groomed_lund =>
            let* theta_g := lift (py_div (Delta jet_groomed_lund) jetR) in
            ret (Some (z jet_groomed_lund, theta_g))
        | None => ret groomed
        end in
      match groomed with
      | Some (zg, theta_g) =>
          Fill ("hSoftDrop_zg_R" +:+ py_str jetR) (Scalar zg);;
          Fill ("hSoftDrop_theta_g_R" +:+ py_str jetR) (Scalar theta_g);;
          ret groomed
      | None =>
          (* [getattr(...).Fill(zg)]: the histogram is looked up, then
             [zg] is read *)
          getattr ("hSoftDrop_zg_R" +:+ py_str jetR);;
          lift (Raise NameError)
      end
    else ret groomed in
  (* h-jet *)
  for_each (fj_hadrons_positive ++ fj_hadrons_negative) (hjet_TG3 jet jet_pt jetR);;
  (* Leading subjets *)
  match subjetR_of jetR jet_pt with
  | Some subjetR => leading_subjet_TG3 jet fj_hadrons_negative jet_pt jetR subjetR
  | None => ret tt
  end;;
  ret groomed.

(** The full jets: [else:]. *)
Definition fill_full_jet_histograms (jet : PseudoJet)
    (jet_pt negative_pt jetR : float) : HistM unit :=
  (* Select eta cut *)
  let* jet_eta_cut :=
    lift (if jetR =? 0.2 then Ok (jet_eta_cut_02 self)
          else if jetR =? 0.4 then Ok (jet_eta_cut_04 self)
          else Raise NameError) in
  (* CMS *)
  let* cut := lift (num_at_index jet_eta_cut [] 0) in
  when (abs (eta jet) <? cut) (Fill ("hJetPt_CMS_R" +:+ py_str jetR) (Scalar jet_pt));;
  (* ATLAS *)
  when (jetR =? 0.4) (
    let* cut := lift (num_at_index jet_eta_cut [] 1) in
    when (abs (rap jet) <? cut) (
      Fill ("hJetPt_ATLAS_binning0_R" +:+ py_str jetR) (Scalar jet_pt);;
      Fill ("hJetPt_ATLAS_binning1_R" +:+ py_str jetR) (Scalar jet_pt);;
      Fill ("hJetPt_ATLAS_binning2_R" +:+ py_str jetR) (Scalar jet_pt)));;
  (* ALICE *)
  let* cut := lift (num_at_index jet_eta_cut [] 2) in
  when (abs (eta jet) <? cut) (
    (* Check leading track requirement *)
    let* min_leading_track_pt :=
      lift (if jetR =? 0.2 then Ok 5
            else if jetR =? 0.4 then Ok 7
            else Raise NameError) in
    when (accept_jet jet min_leading_track_pt)
      (Fill ("hJetPt_ALICE_R" +:+ py_str jetR) (Scalar jet_pt));;
    Fill ("hJetPt_ALICE_no_ptlead_cut_R" +:+ py_str jetR) (Scalar jet_pt));;
  (* Recoil histogram *)
  Fill ("hJetPt_recoils_R" +:+ py_str jetR) (Pair jet_pt negative_pt).

Definition fill_jet_histograms (jets fj_hadrons_positive fj_hadrons_negative
    : list PseudoJet) (jetR : float) (charged : bool) : HistM unit :=
  fold_each jets None (fun groomed jet =>
    let '(jet_pt, jet_pt_uncorrected, holes_in_jet) :=
      corrected_jet_pt_TG3 jet fj_hadrons_negative jetR in
    let negative_pt := (sum_negative_recoils jet fj_hadrons_negative jetR).1 in
    if charged then
      fill_charged_jet_histograms jet fj_hadrons_positive fj_hadrons_negative
        holes_in_jet jet_pt jetR groomed
    else
      fill_full_jet_histograms jet jet_pt negative_pt jetR;;
      ret groomed);;
  ret tt.

End AnalyzeJetscapeEvents_TG3.

(** ** [PlotUtils.bins_from_config] and [PlotUtils.bins_from_hepdata] *)

(** Code that prints and may raise: the lines that [print] has written
    so far are kept when an exception is raised. *)
Definition IO (A : Type) : Type := list string → list string * result A.

Definition io_ret {A} (a : A) : IO A := fun out => (out, Ok a).
Definition io_bind {A B} (c : IO A) (k : A → IO B) : IO B := fun out =>
  match c out with
  | (out', Ok a) => k a out'
  | (out', Raise e) => (out', Raise e)
  end.
Definition io_lift {A} (r : result A) : IO A := fun out => (out, r).
Definition print (line : string) : IO unit := fun out => (out ++ [line], Ok tt).

Notation "'let!' x ':=' c 'in' k" := (io_bind c (fun x => k))
  (at level 10, x pattern, c at level 100, k at level 200) : py_scope.

(** [k in v] for a string [k]: a key of a dictionary, an element of a
    list, a substring of a string. *)
Definition py_in (k : string) (v : yaml) : result bool :=
  match v with
  | YDict items => Ok (bool_decide (is_Some (assoc k items)))
  | YList l => Ok (in_yaml (YStr k) l)
  | YStr s => Ok (contains k s)
  | _ => Raise TypeError
  end.

Definition as_str (v : yaml) : result string :=
  match v with YStr s => Ok s | _ => Raise TypeError end.

(** [len(v)] *)
Definition py_len (v : yaml) : result Z :=
  match v with
  | YList l => Ok (Z.of_nat (length l))
  | YStr s => Ok (Z.of_nat (String.length s))
  | YDict items => Ok (Z.of_nat (length items))
  | _ => Raise TypeError
  end.

(** [v[i]] for an integer [i]: an element of a list, a character of a
    string; the keys of the dictionaries of the configuration are
    strings. *)
Definition py_index (v : yaml) (i : Z) : result yaml :=
  match v with
  | YList l => py_nth l i
  | YStr s =>
      let? c := py_nth (list_ascii_of_string s) i in Ok (YStr (String c ""))
  | YDict _ => Raise (KeyError (pretty i))
  | _ => Raise TypeError
  end.

(** [os.path.join(a, b)] on POSIX paths *)
Definition os_path_join (a b : string) : string :=
  if String.prefix "/" b then b
  else if String.eqb a "" || String.eqb (String.substring (String.length a - 1) 1 a) "/"
       then a +:+ b
       else a +:+ "/" +:+ b.

(** numpy arrays and the ROOT files of HEPData: [np.array(v)] for a
    value of the configuration, [ROOT.TFile(filename, 'READ')], and
    [np.array(f.Get(dir_name).Get(h_name).GetXaxis().GetXbins())]
    followed by [f.Close()] for a file [f]; [str(v)] as the f-strings
    format a value.  What numpy and ROOT raise is what the instance
    gives. *)
Class PlotEnv := {
  ndarray : Type;
  np_array : yaml → result ndarray;
  TFile : Type;
  TFile_READ : string → result TFile;
  GetXbins : TFile → yaml → yaml → result ndarray;
  str : yaml → string;
}.

Section PlotUtils.
Context {Fmt : PyFormat} {Env : PlotEnv}.

(** The name [dir_key] (or [h_key]): bound to the key with the suffix
    when the block has it, to the key with no suffix when the block has
    that one, and not bound otherwise, a line being printed. *)
Definition hepdata_key (block : yaml) (key suffix : string) : IO (option string) :=
  let! with_suffix := io_lift (py_in (key +:+ suffix) block) in
  if with_suffix then io_ret (Some (key +:+ suffix))
  else
    let! without := io_lift (py_in key block) in
    if without then io_ret (Some key)
    else
      let! _ := print (key +:+ suffix +:+ " not found!") in
      io_ret None.

(** [block[key]] for a name [key] that may not be bound *)
Definition at_key (block : yaml) (key : option string) : result yaml :=
  match key with
  | Some k => getitem block k
  | None => Raise NameError
  end.

Definition bins_from_hepdata (block : yaml) (sqrts : float)
    (observable_type observable : string) (centrality_index : Z) (suffix : string)
    : IO ndarray :=
  (* Open the HEPData file *)
  let hepdata_dir :=
    "data/STAT/" +:+ py_str sqrts +:+ "/" +:+ observable_type +:+ "/" +:+ observable in
  let! hepdata := io_lift (let? x := getitem block "hepdata" in as_str x) in
  let hepdata_filename := os_path_join hepdata_dir hepdata in
  let! f := io_lift (TFile_READ hepdata_filename) in
  (* First, check for dir/hist names in config *)
  let! dir_key := hepdata_key block "hepdata_AA_dir" suffix in
  let! h_key := hepdata_key block "hepdata_AA_hname" suffix in
  (* Get the appropriate centrality entry in the dir/hist list *)
  let! dir_value := io_lift (at_key block dir_key) in
  let! names :=
    match dir_value with
    | YList l =>
        (* If fewer entries than the observable's centrality, skip *)
        if (Z.of_nat (length l) - 1 <? centrality_index)%Z then io_ret None
        else
          let! dir_name := io_lift (py_nth l centrality_index) in
          let! h_name := io_lift (at_key block h_key) in
          io_ret (Some (dir_name, h_name))
    | _ =>
        let! h_value := io_lift (at_key block h_key) in
        let! n := io_lift (py_len h_value) in
        if (n - 1 <? centrality_index)%Z then io_ret None
        else
          let! h_name := io_lift (py_index h_value centrality_index) in
          io_ret (Some (dir_value, h_name))
    end in
  match names with
  | None => io_lift (np_array (YList []))
  | Some (dir_name, h_name) =>
      (* Get the histogram, and return the bins *)
      io_lift (GetXbins f dir_name h_name)
  end.

(** [centrality] is the value that the messages format. *)
Definition bins_from_config (block : yaml) (sqrts : float)
    (observable_type observable : string) (centrality : yaml)
    (centrality_index : Z) (suffix : string) : IO ndarray :=
  let what := observable +:+ " " +:+ str centrality +:+ " " +:+ suffix in
  let! has_bins := io_lift (py_in "bins" block) in
  if has_bins then
    let! _ := print ("  Histogram with custom binning found for " +:+ what) in
    io_lift (let? bins := getitem block "bins" in np_array bins)
  else
    let! has_hepdata := io_lift (py_in "hepdata" block) in
    if has_hepdata then
      let! _ := print ("  Histogram with hepdata binning found for " +:+ what) in
      bins_from_hepdata block sqrts observable_type observable centrality_index suffix
    else
      let! _ := print ("  Warning: No binning found for " +:+ what) in
      io_lift (np_array (YList [])).

End PlotUtils.

(** ** What the properties speak of

    The invariants, the selections and the tables that the statements
    below are written with. *)

(** What the loop of [leading_jet] keeps: a jet already seen, with its
    corrected pt, that no jet seen exceeds. *)
Definition leads {FJ : FastJet} (negs : list PseudoJet) (jetR : float)
    (seen : list PseudoJet) (st : option PseudoJet * float * nat) : Prop :=
  ∃ jet, st.1.1 = Some jet ∧ st.1.2 = subtract_negative_recoils jet negs jetR
         ∧ In jet seen
         ∧ ∀ j, In j seen →
             (subtract_negative_recoils jet negs jetR
                <? subtract_negative_recoils j negs jetR) = false.

(** [c] leaves the keys outside [P] as they were. *)
Definition Outside (P : string → Prop) (c : M unit) : Prop :=
  ∀ d d' k, c d = Ok (tt, d') → ¬ P k → d' !! k = d !! k.

(** The hadron observables that [fill_hadron_observables] fills at a
    collision energy: the name of the block, whether its upper pt bound
    is open, and its species. *)
Definition hadron_blocks (sqrts : float) : list (string * bool * list Z) :=
  if in_float sqrts [2760; 5020] then
    [("pt_ch_alice", false, charged_pids); ("pt_pi_alice", false, [211%Z])]
    ++ (if in_float sqrts [2760]
        then [("pt_pi0_alice", false, [111%Z]); ("pt_ch_atlas", false, charged_pids)]
        else [])
    ++ [("pt_ch_cms", false, charged_pids)]
  else if in_float sqrts [200] then
    [("pt_pi0_phenix", true, [111%Z]); ("pt_ch_star", true, [211; 321; 2212]%Z)]
  else [].

(** The configuration has the centrality, the pt range and the
    pseudorapidity cut of the hadron observable [name]. *)
Definition readable_hadron_block (self : STAT) (name : string)
    (open_upper_bound : bool) : Prop :=
  ∃ (centrality : yaml) (pt_min pt_max eta_cut : float),
    getpath (hadron_observables self) [name; "centrality"] = Ok centrality
    ∧ num_at_index (hadron_observables self) [name; "pt"] 0 = Ok pt_min
    ∧ (if open_upper_bound then Ok 100
       else num_at_index (hadron_observables self) [name; "pt"] 1) = Ok pt_max
    ∧ num_at (hadron_observables self) [name; "eta_cut"] = Ok eta_cut.

(** The two errors of a divided point: the relative errors of the graph
    and of the histogram in quadrature when the two values are positive,
    the relative error of the graph otherwise, times the quotient.  The
    squares are those of [pow]: there are errors when it returns them. *)
Definition divided_errors (pow : float → float → result float)
    (h_y h_error gy yErrLow yErrUp : float) : result (float * float) :=
  if (0 <? gy) && (0 <? h_y) then
    let? low2 := pow (yErrLow / gy) 2 in
    let? hist2 := pow (h_error / h_y) 2 in
    let? up2 := pow (yErrUp / gy) 2 in
    Ok (sqrt (low2 + hist2) * (h_y / gy), sqrt (up2 + hist2) * (h_y / gy))
  else
    Ok (yErrLow / gy * (h_y / gy), yErrUp / gy * (h_y / gy)).

(** The squares that the errors of the point [p] divided into the bin [b]
    take are in range: [pow] returns each of them. *)
Definition squares_in_range (pow : float → float → result float)
    (b : Bin) (p : Point) : Prop :=
  (0 <? point_y p) && (0 <? bin_content b) = true →
  ∀ x, In x [eyl p / point_y p; bin_error b / bin_content b; eyh p / point_y p] →
       ∃ x2, pow x 2 = Ok x2.

(** The histogram [h] after the values [l] have been given to [Fill]. *)
Definition FilledWith (h : histogram) (l : list entry) : histogram :=
  {| h_name := h_name h; h_title := h_title h; h_axes := h_axes h;
     h_axis_titles := h_axis_titles h; h_sumw2 := h_sumw2 h;
     h_fills := h_fills h ++ l |}.

(** The selections of the three charged-hadron spectra. *)
Definition selected_TG3 {FJ : FastJet} (cut : float) (pids : list Z)
    (particle : PseudoJet) : bool :=
  (abs (eta particle) <? cut) && in_Z (Z.abs (user_index particle)) pids.

(** The values that a spectrum receives from a list of particles. *)
Definition selected_pts {FJ : FastJet} (cut : float) (pids : list Z)
    (fj_particles : list PseudoJet) : list entry :=
  map (fun particle => Scalar (pt particle))
      (List.filter (selected_TG3 cut pids) fj_particles).

(** [c] returns on every store (the attributes of the object, or the
    dictionary of the event) whose keys are [D], and leaves a store with
    the same keys. *)
Definition Safe {V A} (D : gset string) (c : St (gmap string V) A) : Prop :=
  ∀ σ, dom σ = D → ∃ a σ', c σ = Ok (a, σ') ∧ dom σ' = D.

(** [c] returns on every store, keeps the attributes there are and
    leaves the attribute [k] ([Books c]: some attributes). *)
Definition Books (c : HistM unit) : Prop :=
  ∀ σ, ∃ σ', c σ = Ok (tt, σ') ∧ dom σ ⊆ dom σ'.
Definition Creates (k : string) (c : HistM unit) : Prop :=
  ∀ σ σ', c σ = Ok (tt, σ') → k ∈ dom σ'.

(** ** A small instance of the external interfaces

    Particles with given kinematics, the distance
    [sqrt(deta^2 + dphi^2)], and a jet finder that returns the particles
    that carry constituents.  The examples below run the analysis on
    it. *)
Module Example.

Inductive particle :=
| Particle (p_pt p_eta p_phi p_m : float) (p_pid : Z) (p_parts : list particle).

Definition p_pt (p : particle) : float := let 'Particle x _ _ _ _ _ := p in x.
Definition p_eta (p : particle) : float := let 'Particle _ x _ _ _ _ := p in x.
Definition p_phi (p : particle) : float := let 'Particle _ _ x _ _ _ := p in x.
Definition p_m (p : particle) : float := let 'Particle _ _ _ x _ _ := p in x.
Definition p_pid (p : particle) : Z := let 'Particle _ _ _ _ x _ := p in x.
Definition p_parts (p : particle) : list particle :=
  let 'Particle _ _ _ _ _ x := p in x.

Definition p_delta_R (a b : particle) : float :=
  let deta := p_eta a - p_eta b in
  let dphi := p_phi a - p_phi b in
  sqrt (deta * deta + dphi * dphi).

Definition fastjet : FastJet := {|
  PseudoJet := particle;
  pt := p_pt;
  eta := p_eta;
  rap := p_eta;
  m := p_m;
  user_index := p_pid;
  delta_R := p_delta_R;
  delta_phi_to := fun a b => p_phi b - p_phi a;
  constituents := p_parts;
  PseudoJet0 := Particle 0 0 0 0 0 [];
  pj_add := fun a b =>
    Particle (p_pt a + p_pt b) (p_eta a) (p_phi a) (p_m a + p_m b) (p_pid a) [];
  jets_selected_of := fun particles jetR min_jet_pt max_jet_y =>
    filter (fun p => (min_jet_pt <? p_pt p) && negb (bool_decide (p_parts p = [])))
           particles;
  soft_drop := fun _ _ _ _ => None;
  nsubjettiness := fun _ _ => 0;
|}.

Definition numpy : NumPy := {|
  np_cos := fun x => 1 - x * x / 2;
  np_power := fun x k => if k =? 2 then x * x else x;
|}.

(** The radii and cuts the examples use, as Python prints them. *)
Definition format : PyFormat := {|
  py_str := fun x =>
    if x =? 0.2 then "0.2" else if x =? 0.3 then "0.3"
    else if x =? 0.4 then "0.4"
    else if x =? 1 then "1.0" else if x =? 2 then "2.0"
    else if x =? 3 then "3.0" else if x =? 0 then "0" else "x";
|}.

(** An event is the list of its particles, each with its status
    ([true] for a positive status); every centrality is accepted. *)
Definition constituents_of (event : list (particle * bool)) (status charged : bool)
    : list particle :=
  map fst (filter (fun '(p, s) =>
                     Bool.eqb s status
                     && (negb charged || in_Z (Z.abs (p_pid p)) charged_pids))
                  event).

Definition base : @BaseSTAT fastjet :=
  @Build_BaseSTAT fastjet (list (particle * bool)) (fun _ _ => true) constituents_of.

(** A jet of 10 GeV/c at the origin, a hole of 1 GeV/c at distance 0.1
    and a hole of 2 GeV/c at distance 0.5. *)
Definition jet10 : particle := Particle 10 0 0 1 0 [Particle 10 0 0 0 211 []].
Definition hole_near : particle := Particle 1 0.1 0 0 211 [].
Definition hole_far : particle := Particle 2 0.5 0 0 211 [].

(** A charged jet of 70 GeV/c and of mass 5 GeV/c^2. *)
Definition chjet70 : particle := Particle 70 0 0 5 211 [Particle 70 0 0 0 211 []].

(** Two jets of 100 and 50 GeV/c. *)
Definition jet100 : particle := Particle 100 0 0 5 0 [Particle 100 0 0 0 211 []].
Definition jet50 : particle := Particle 50 0 3 5 0 [Particle 50 0 3 0 211 []].

(** A charged jet of 50 GeV/c made of one pion, and a soft pion. *)
Definition chjet50 : particle := Particle 50 0 0 1 211 [Particle 50 0 0 0 211 []].
Definition soft_pion : particle := Particle 0.5 0 0 0 211 [].

(** A configuration for Pb-Pb collisions at 2.76 TeV. *)
Definition centrality : yaml := YList [YList [YNum 0; YNum 10]].

Definition hadron_block (pt_min pt_max eta_cut : float) : yaml :=
  YDict [("centrality", centrality); ("pt", YList [YNum pt_min; YNum pt_max]);
         ("eta_cut", YNum eta_cut)].

Definition jet_block (pt_min pt_max : float) (jet_R : list float)
    (cut : string) (cut_value : yaml) : yaml :=
  YDict [("centrality", centrality); ("pt", YList [YNum pt_min; YNum pt_max]);
         ("jet_R", YList (map YNum jet_R)); (cut, cut_value)].

Definition hadron : yaml :=
  YDict [("pt_ch_alice", hadron_block 1 100 0.8);
         ("pt_pi_alice", hadron_block 1 100 0.8);
         ("pt_pi0_alice", hadron_block 1 100 0.7);
         ("pt_ch_atlas", hadron_block 1 100 2);
         ("pt_ch_cms", hadron_block 1 100 1)].

Definition inclusive_jet : yaml :=
  YDict [("pt_alice", jet_block 40 140 [0.2; 0.4] "eta_cut_R" (YNum 0.9));
         ("pt_atlas", jet_block 40 400 [0.4] "y_cut" (YNum 2));
         ("pt_cms", jet_block 40 400 [0.2; 0.4] "eta_cut" (YNum 2));
         ("Dz_atlas", jet_block 100 400 [0.4] "y_cut" (YNum 2));
         ("Dz_cms", jet_block 100 300 [0.3] "eta_cut" (YList [YNum 0.3; YNum 2]))].

Definition inclusive_chjet : yaml :=
  YDict [("pt_alice",
          YDict [("centrality", centrality); ("pt", YList [YNum 20; YNum 100]);
                 ("jet_R", YList [YNum 0.2]); ("eta_cut", YNum 0.5);
                 ("leading_track_min_pt", YNum 5)]);
         ("g_alice", jet_block 40 60 [0.2] "eta_cut_R" (YNum 0.9));
         ("ptd_alice", jet_block 40 60 [0.2] "eta_cut_R" (YNum 0.9));
         ("mass_alice", jet_block 60 80 [0.4] "eta_cut_R" (YNum 0.9))].

Definition analysis (AA : bool) : STAT := {|
  sqrts := 2760;
  is_AA := AA;
  hadron_observables := hadron;
  hadron_correlation_observables := YDict [];
  inclusive_chjet_observables := inclusive_chjet;
  inclusive_jet_observables := inclusive_jet;
  semi_inclusive_chjet_observables := YNone;
  dijet_observables := YNone;
  jet_R := [0.2];
  min_jet_pt := 10;
  max_jet_y := 3;
  grooming_settings := YNone;
|}.

(** A configuration with the dijet momentum balance of ATLAS only. *)
Definition dijet : yaml :=
  YDict [("xj_atlas",
          YDict [("centrality", centrality); ("jet_R", YList [YNum 0.4]);
                 ("pt_leading_min", YNum 79); ("pt_subleading_min", YNum 32);
                 ("eta_cut", YNum 2)])].

Definition dijet_analysis : STAT := {|
  sqrts := 2760;
  is_AA := true;
  hadron_observables := YDict [];
  hadron_correlation_observables := YDict [];
  inclusive_chjet_observables := YDict [];
  inclusive_jet_observables := YNone;
  semi_inclusive_chjet_observables := YNone;
  dijet_observables := dijet;
  jet_R := [0.4];
  min_jet_pt := 10;
  max_jet_y := 3;
  grooming_settings := YNone;
|}.

(** A histogram of two bins and a graph of two points at the bin
    centers, held by the references 0 of a process. *)
Definition hist2 : TH1 :=
  {| bins := [ {| bin_center := 1; bin_content := 6; bin_error := 1 |};
               {| bin_center := 3; bin_content := 8; bin_error := 2 |} ] |}.
Definition graph2 : TGraph :=
  {| GetName := "data";
     points := [ {| point_x := 1; point_y := 2; exl := 0; exh := 0;
                    eyl := 0.5; eyh := 0.5 |};
                 {| point_x := 3; point_y := 4; exl := 0; exh := 0;
                    eyl := 1; eyh := 1 |} ] |}.
Definition objects : heap :=
  {| hists := {[ 0%nat := hist2 ]}; graphs := {[ 0%nat := graph2 ]} |}.

(** The builtin [pow] at the exponent 2, the one that [divide_tgraph]
    takes: the square, or an [OverflowError] when the square of a finite
    number is out of range. *)
Definition py_pow (x _ : float) : result float :=
  if is_finite x && is_infinity (x * x) then Raise OverflowError else Ok (x * x).

(** An event with one charged jet and one soft pion, no holes. *)
Definition event : list (particle * bool) := [(chjet50, true); (soft_pion, true)].

End Example.

(** ** More instances

    The TG3 analysis, the plotting utilities and the configuration file
    on the particles of [Example]. *)
Module Instances.
Import Example.

(** The analysis at 5.02 TeV, with semi-inclusive observables and with
    the jet charge of CMS. *)
Definition semi_inclusive_chjet : yaml :=
  YDict [("IAA_alice", jet_block 20 100 [0.2; 0.4] "eta_cut_R" (YNum 0.9))].

Definition analysis_5020 : STAT := {|
  sqrts := 5020;
  is_AA := true;
  hadron_observables := hadron;
  hadron_correlation_observables := YDict [];
  inclusive_chjet_observables := inclusive_chjet;
  inclusive_jet_observables :=
    YDict [("charge_cms",
            YDict [("centrality", centrality); ("pt", YList [YNum 40; YNum 400]);
                   ("jet_R", YList [YNum 0.4]); ("eta_cut", YNum 1.5);
                   ("track_pt_min", YNum 1); ("kappa", YList [YNum 0.3])])];
  semi_inclusive_chjet_observables := semi_inclusive_chjet;
  dijet_observables := YNone;
  jet_R := [0.2];
  min_jet_pt := 10;
  max_jet_y := 3;
  grooming_settings := YNone;
|}.

(** A configuration with no hadron observable. *)
Definition no_hadron_analysis : STAT := dijet_analysis.

(** A configuration with the groomed radius of ALICE, at two radii and
    two grooming settings. *)
Definition tg_alice : yaml :=
  YDict [("centrality", centrality); ("pt", YList [YNum 60; YNum 80]);
         ("jet_R", YList [YNum 0.2; YNum 0.4]); ("eta_cut_R", YNum 0.9);
         ("SoftDrop",
          YList [YDict [("zcut", YNum 0.2); ("beta", YNum 0)];
                 YDict [("zcut", YNum 0.4); ("beta", YNum 0)]])].

Definition tg_alice_analysis : STAT := {|
  sqrts := 5020;
  is_AA := true;
  hadron_observables := YDict [];
  hadron_correlation_observables := YDict [];
  inclusive_chjet_observables := YDict [("tg_alice", tg_alice)];
  inclusive_jet_observables := YNone;
  semi_inclusive_chjet_observables := YNone;
  dijet_observables := YNone;
  jet_R := [0.2; 0.4];
  min_jet_pt := 10;
  max_jet_y := 3;
  grooming_settings := YNone;
|}.

(** Three pions, two at mid-rapidity, of 50 and 3 GeV/c, and one
    forward; an electron of 5 GeV/c at a pseudorapidity of 0.9; a
    photon. *)
Definition pion50 : particle := Particle 50 0 0 0 211 [].
Definition pion3 : particle := Particle 3 0.5 1 0 (-211) [].
Definition pion_forward : particle := Particle 20 3 2 0 211 [].
Definition electron5 : particle := Particle 5 0.9 0 0 11 [].
Definition photon2 : particle := Particle 2 0 0 0 22 [].

(** Two holes of 1 and 2 GeV/c, at the distance 0.1 of the origin. *)
Definition holes : list particle := [hole_near; Particle 2 0 0.1 0 211 []].

(** [pathlib.Path(path).name] on a POSIX path: what follows the last
    slash. *)
Fixpoint basename (path : string) : string :=
  match path with
  | EmptyString => EmptyString
  | String c path' =>
      if contains "/" path' then basename path'
      else if Ascii.eqb c "/" then path' else path
  end.

Definition pathlib : PathLib := {| Path_name := basename |}.

Definition config : yaml :=
  YDict [("sqrt_s", YNum 5020); ("hadron", hadron);
         ("hadron_correlations", YDict []); ("inclusive_chjet", inclusive_chjet);
         ("jet_R", YList [YNum 0.2; YNum 0.4]); ("min_jet_pt", YNum 10);
         ("max_jet_y", YNum 3)].

(** The TG3 analysis. *)
Definition fastjet_TG3 : @FastJetTG3 fastjet :=
  @Build_FastJetTG3 fastjet (fun p => p_pt p + p_m p) (fun _ => 0)
    (fun particles _ => particles).

Definition pyfloat : PyFloat := {| py_square := fun x => py_pow x 2 |}.

Definition tg3 : TG3 := {|
  charged_particle_eta_cut := YList [YNum 1; YNum 2.5; YNum 0.8];
  bins_CMS_hadron := [0; 1; 10; 100];
  bins_ATLAS_hadron := [0; 1; 10; 100];
  bins_ALICE_hadron := [0; 1; 10; 100];
  min_track_pt := YNum 0.15;
  jetR_list := [0.2; 0.4];
  min_jet_pt_TG3 := 10;
  jet_eta_cut_04 := YList [YNum 2; YNum 2.8; YNum 0.3];
  jet_eta_cut_02 := YList [YNum 2; YNum 2.8; YNum 0.5];
  bins_CMS_jet := [0; 100; 1000];
  bins_ATLAS_jet_0_10 := [0; 100; 1000];
  bins_ATLAS_jet_30_40 := [0; 100; 1000];
  bins_ATLAS_jet_40_50 := [0; 100; 1000];
  bins_ALICE_jet := [0; 100; 1000];
  bins_ALICE_g_R02 := [0; 1];
  bins_ALICE_m_R04 := [0; 10];
  soft_drop_zcut := 0.2;
  soft_drop_beta := 0;
  bins_ALICE_soft_drop_zg_0_10_R02 := [0; 1];
  bins_ALICE_soft_drop_theta_g_0_10_R02 := [0; 1];
  hjet_low_trigger_range := YList [YNum 5; YNum 7];
  hjet_high_trigger_range := YList [YNum 20; YNum 50];
  bins_ALICE_hjet_IAA_R04 := [0; 100];
  bins_ALICE_hjet_delta_phi_R04 := [0; 4];
|}.

(** The three spectra, booked and empty. *)
Definition spectra : histograms :=
  {[ "hChargedPt_CMS" := Sumw2 (TH1F_bins "hChargedPt_CMS" [0; 1; 10; 100]);
     "hChargedPt_ATLAS" := Sumw2 (TH1F_bins "hChargedPt_ATLAS" [0; 1; 10; 100]);
     "hChargedPt_ALICE" := Sumw2 (TH1F_bins "hChargedPt_ALICE" [0; 1; 10; 100]) ]}.

(** A charged jet of 90 GeV/c. *)
Definition chjet90 : particle := Particle 90 0 0 5 211 [Particle 90 0 0 0 211 []].

(** The plotting utilities: arrays are lists of numbers, every file can
    be opened and every histogram has two bins. *)
Definition plot_env : PlotEnv := {|
  ndarray := list float;
  np_array := fun v => nums_at v [];
  TFile := string;
  TFile_READ := fun filename => Ok filename;
  GetXbins := fun _ _ _ => Ok [0; 1; 2];
  str := fun v => match v with YStr s => s | _ => "[0, 10]" end;
|}.

(** A block with a HEPData file and one directory for each of two
    centralities, and a block that names no directory. *)
Definition hepdata_block : list (string * yaml) :=
  [("hepdata", YStr "HEPData-ins1127262-v2-root.root");
   ("hepdata_AA_dir", YList [YStr "Table 30"; YStr "Table 31"]);
   ("hepdata_AA_hname", YStr "Hist1D_y1")].

Definition hepdata_block_no_dir : list (string * yaml) :=
  [("hepdata", YStr "HEPData-ins1127262-v2-root.root");
   ("hepdata_AA_hname", YList [YStr "Hist1D_y1"])].

(** A graph with one point, for the histogram of two bins. *)
Definition graph1 : TGraph :=
  {| GetName := "data";
     points := [ {| point_x := 1; point_y := 2; exl := 0; exh := 0;
                    eyl := 0.5; eyh := 0.5 |} ] |}.
Definition objects1 : heap :=
  {| hists := {[ 0%nat := hist2 ]}; graphs := {[ 0%nat := graph1 ]} |}.

(** A graph with two points, the second one at 2 where the second bin
    of the histogram has its center at 3. *)
Definition graph_shifted : TGraph :=
  {| GetName := "data";
     points := [ {| point_x := 1; point_y := 2; exl := 0; exh := 0;
                    eyl := 0.5; eyh := 0.5 |};
                 {| point_x := 2; point_y := 4; exl := 0; exh := 0;
                    eyl := 1; eyh := 1 |} ] |}.
Definition objects_shifted : heap :=
  {| hists := {[ 0%nat := hist2 ]}; graphs := {[ 0%nat := graph_shifted ]} |}.

(** A histogram of one bin with the content 1, and a graph with one
    point at the center of the bin, whose y-value is 1e-200 with the
    error 1: the relative error is 1e200. *)
Definition hist_one : TH1 :=
  {| bins := [ {| bin_center := 1; bin_content := 1; bin_error := 0 |} ] |}.
Definition graph_tiny : TGraph :=
  {| GetName := "data";
     points := [ {| point_x := 1; point_y := 1e-200; exl := 0; exh := 0;
                    eyl := 1; eyh := 1 |} ] |}.
Definition objects_tiny : heap :=
  {| hists := {[ 0%nat := hist_one ]}; graphs := {[ 0%nat := graph_tiny ]} |}.

End Instances.

(** * Properties *)

(** ** Floating-point facts *)

Lemma SFcompare_antisym (x y : SpecFloat.spec_float) :
  SpecFloat.SFcompare y x = option_map CompOpp (SpecFloat.SFcompare x y).
Proof.
  destruct x as [sx|sx| |sx mx ex], y as [sy|sy| |sy my ey]; simpl;
    try reflexivity;
    try (destruct sx; reflexivity); try (destruct sy; reflexivity);
    try (destruct sx, sy; reflexivity).
  destruct sx, sy; simpl; try reflexivity.
  - rewrite (Z.compare_antisym ex ey).
    destruct (ex ?= ey)%Z; simpl; try reflexivity.
    rewrite CompOpp_involutive, (Pos.compare_cont_antisym my mx Eq). reflexivity.
  - rewrite (Z.compare_antisym ex ey).
    destruct (ex ?= ey)%Z; simpl; try reflexivity.
    rewrite (Pos.compare_cont_antisym mx my Eq). reflexivity.
Qed.

(** [a <= b] excludes [b < a]. *)
Lemma float_leb_not_ltb (a b : float) : (a <=? b) = true → (b <? a) = false.
Proof.
  rewrite leb_spec, ltb_spec.
  unfold SpecFloat.SFleb, SpecFloat.SFltb.
  rewrite (SFcompare_antisym (Prim2SF a) (Prim2SF b)).
  destruct (SpecFloat.SFcompare (Prim2SF a) (Prim2SF b)) as [[]|]; simpl; congruence.
Qed.

Lemma float_sub_0_r (x : float) : x - 0 = x.
Proof.
  apply Prim2SF_inj. rewrite sub_spec.
  change (Prim2SF 0) with (SpecFloat.S754_zero false).
  destruct (Prim2SF x) as [s| s | |s m e]; try reflexivity.
  destruct s; reflexivity.
Qed.

(** ** Hole subtraction of the jet pt *)

Section HoleSubtractionProperties.
Context {FJ : FastJet}.

Lemma sum_negative_recoils_from (jet : PseudoJet) (holes : list PseudoJet)
    (jetR acc : float) (seen : list PseudoJet) :
  fold_left
    (fun '(negative_pt, holes_in_jet) hadron =>
       if delta_R jet hadron <? jetR
       then (negative_pt + pt hadron, holes_in_jet ++ [hadron])
       else (negative_pt, holes_in_jet))
    holes (acc, seen)
  = (fold_left PrimFloat.add (map pt (holes_within jet holes jetR)) acc,
     seen ++ holes_within jet holes jetR).
Proof.
  revert acc seen. induction holes as [|hadron holes IH]; intros acc seen; simpl.
  - by rewrite app_nil_r.
  - destruct (delta_R jet hadron <? jetR); simpl; rewrite IH; [|done].
    by rewrite <- app_assoc.
Qed.

(** The loop of the two analyses sums the pt of the holes within [jetR]
    and collects these holes. *)
Lemma sum_negative_recoils_spec (jet : PseudoJet) (holes : list PseudoJet) (jetR : float) :
  sum_negative_recoils jet holes jetR
  = (pt_sum (holes_within jet holes jetR), holes_within jet holes jetR).
Proof. unfold sum_negative_recoils. by rewrite sum_negative_recoils_from. Qed.

Lemma holes_within_outside (jet : PseudoJet) (holes : list PseudoJet) (jetR : float) :
  Forall (fun hadron => (jetR <=? delta_R jet hadron) = true) holes →
  holes_within jet holes jetR = [].
Proof.
  induction 1 as [|hadron holes Hout _ IH]; [done|].
  simpl. by rewrite (float_leb_not_ltb _ _ Hout).
Qed.

Lemma subtract_negative_recoils_outside (jet : PseudoJet) (holes : list PseudoJet)
    (jetR : float) :
  Forall (fun hadron => (jetR <=? delta_R jet hadron) = true) holes →
  subtract_negative_recoils jet holes jetR = pt jet.
Proof.
  unfold subtract_negative_recoils. intros Hall. generalize (pt jet).
  induction Hall as [|hadron holes Hout _ IH]; intros jet_pt; [done|].
  simpl. by rewrite (float_leb_not_ltb _ _ Hout).
Qed.

Lemma semi_inclusive_holes_sum (jet : PseudoJet) (holes : list PseudoJet)
    (jetR acc : float) :
  fold_left
    (fun jet_pt_holes temp_hadron =>
       if delta_R jet temp_hadron <? jetR
       then jet_pt_holes + pt temp_hadron
       else jet_pt_holes)
    holes acc
  = fold_left PrimFloat.add (map pt (holes_within jet holes jetR)) acc.
Proof.
  revert acc. induction holes as [|hadron holes IH]; intros acc; [done|].
  simpl. destruct (delta_R jet hadron <? jetR); simpl; by rewrite IH.
Qed.

(** C1, as amended.  The corrected jet pt of the TG3 analysis is the
    uncorrected jet pt minus the sum of the pt of exactly the holes whose
    [delta_R] to the jet axis is below [jetR] (and [holes_in_jet] is the
    list of these holes); so is the corrected jet pt of the STAT analysis
    when [is_AA] is set, and when it is not the STAT analysis leaves the
    jet pt uncorrected whatever the list of holes is. *)
Theorem corrected_jet_pt_subtracts_holes_within_R
    (is_AA : bool) (jet : PseudoJet) (holes : list PseudoJet) (jetR : float) :
  corrected_jet_pt_TG3 jet holes jetR
  = (pt jet - pt_sum (holes_within jet holes jetR), pt jet,
     holes_within jet holes jetR)
  ∧ corrected_jet_pt_STAT is_AA jet holes jetR
    = if is_AA
      then (pt jet - pt_sum (holes_within jet holes jetR), pt jet,
            holes_within jet holes jetR)
      else (pt jet, pt jet, []).
Proof.
  unfold corrected_jet_pt_TG3, corrected_jet_pt_STAT.
  rewrite sum_negative_recoils_spec. by destruct is_AA.
Qed.

(** C2.  When every hole is at a distance [delta_R >= jetR] of the jet
    axis, the subtracted sum is zero and the corrected jet pt is the
    uncorrected one: in [analyze_inclusive_jet] (STAT, in both modes), in
    [fill_jet_histograms] (TG3), in the semi-inclusive and dijet
    corrections and in [leading_jet]. *)
Theorem holes_outside_cone_leave_jet_pt
    (is_AA : bool) (jet : PseudoJet) (holes : list PseudoJet) (jetR : float) :
  Forall (fun hadron => (jetR <=? delta_R jet hadron) = true) holes →
  sum_negative_recoils jet holes jetR = (0, [])
  ∧ corrected_jet_pt_STAT is_AA jet holes jetR = (pt jet, pt jet, [])
  ∧ corrected_jet_pt_TG3 jet holes jetR = (pt jet, pt jet, [])
  ∧ corrected_jet_pt_semi_inclusive is_AA jet holes jetR = (pt jet, pt jet)
  ∧ corrected_jet_pt_dijet is_AA jet holes jetR = pt jet
  ∧ subtract_negative_recoils jet holes jetR = pt jet.
Proof.
  intros Hout.
  assert (Hsum : sum_negative_recoils jet holes jetR = (0, [])).
  { rewrite sum_negative_recoils_spec, (holes_within_outside _ _ _ Hout). done. }
  repeat split.
  - done.
  - unfold corrected_jet_pt_STAT. rewrite Hsum.
    destruct is_AA; [|done]. by rewrite float_sub_0_r.
  - unfold corrected_jet_pt_TG3. rewrite Hsum. by rewrite float_sub_0_r.
  - unfold corrected_jet_pt_semi_inclusive. destruct is_AA; [|done].
    rewrite semi_inclusive_holes_sum, (holes_within_outside _ _ _ Hout). simpl.
    by rewrite float_sub_0_r.
  - unfold corrected_jet_pt_dijet. destruct is_AA; [|done].
    destruct holes; [done|]. by apply subtract_negative_recoils_outside.
  - by apply subtract_negative_recoils_outside.
Qed.

End HoleSubtractionProperties.

(** C1 as stated fails in the STAT analysis when [is_AA] is not set: with
    a hole of 1 GeV/c at distance 0.1 of a jet of 10 GeV/c and R = 0.4,
    [jet_pt] is 10 and not 10 - 1. *)
Lemma pp_mode_does_not_subtract_holes :
  let jet_pt :=
    (corrected_jet_pt_STAT (FJ := Example.fastjet) false Example.jet10
       [Example.hole_near; Example.hole_far] 0.4).1.1 in
  holes_within (FJ := Example.fastjet) Example.jet10
    [Example.hole_near; Example.hole_far] 0.4 = [Example.hole_near]
  ∧ jet_pt = 10
  ∧ (jet_pt =? Example.p_pt Example.jet10
                - pt_sum (FJ := Example.fastjet)
                    (holes_within (FJ := Example.fastjet) Example.jet10
                       [Example.hole_near; Example.hole_far] 0.4)) = false.
Proof. vm_compute. done. Qed.

Lemma holes_outside_cone_leave_jet_pt_witness :
  Forall (fun hadron => (0.4 <=? Example.p_delta_R Example.jet10 hadron) = true)
         [Example.hole_far]
  ∧ corrected_jet_pt_STAT (FJ := Example.fastjet) true Example.jet10
      [Example.hole_far] 0.4 = (10, 10, []).
Proof.
  assert (Hout : Forall (fun hadron =>
                   (0.4 <=? Example.p_delta_R Example.jet10 hadron) = true)
                 [Example.hole_far]).
  { repeat constructor. }
  split; [exact Hout|].
  exact (proj1 (proj2 (holes_outside_cone_leave_jet_pt (FJ := Example.fastjet)
                         true Example.jet10 [Example.hole_far] 0.4 Hout))).
Defined.

(** ** [charge] *)

Lemma in_Z_true (x : Z) (l : list Z) : in_Z x l = true ↔ In x l.
Proof.
  unfold in_Z. rewrite existsb_exists. split.
  - intros (y & Hy & Heq). apply Z.eqb_eq in Heq. by subst.
  - intros Hx. exists x. split; [done|]. apply Z.eqb_refl.
Qed.

Lemma in_Z_false (x : Z) (l : list Z) : in_Z x l = false ↔ ¬ In x l.
Proof. rewrite <- in_Z_true. by destruct (in_Z x l). Qed.

(** C4.  On the species the function lists, [charge] returns -1, +1 or 0
    (by the list the identifier is in); on any other identifier it
    returns nothing and ends the run through [sys.exit] with a message,
    the exit status being 1; it never returns another value than -1, +1
    or 0. *)
Theorem charge_total_on_species (pid : Z) :
  (In pid negative_species → charge pid = Ok (-1))
  ∧ (In pid positive_species → charge pid = Ok 1)
  ∧ (In pid neutral_species → charge pid = Ok 0)
  ∧ (¬ In pid (negative_species ++ positive_species ++ neutral_species) →
     charge pid
     = Raise (SystemExit (ExitMsg ("failed to compute charge of pid " +:+ pretty pid)))
     ∧ status_of (charge pid) = 1%Z)
  ∧ (∀ q, charge pid = Ok q → q = -1 ∨ q = 1 ∨ q = 0).
Proof.
  split; [|split; [|split; [|split]]].
  - intros Hin. simpl in Hin.
    repeat (destruct Hin as [<-|Hin]; [reflexivity|]). done.
  - intros Hin. simpl in Hin.
    repeat (destruct Hin as [<-|Hin]; [reflexivity|]). done.
  - intros Hin. simpl in Hin.
    repeat (destruct Hin as [<-|Hin]; [reflexivity|]). done.
  - intros Hout. rewrite !in_app_iff in Hout. unfold charge.
    unfold negative_species, positive_species, neutral_species in Hout.
    rewrite (proj2 (in_Z_false pid _)) by tauto.
    rewrite (proj2 (in_Z_false pid _)) by tauto.
    rewrite (proj2 (in_Z_false pid _)) by tauto.
    done.
  - intros q Hq. unfold charge in Hq.
    repeat match type of Hq with
           | (if ?b then _ else _) = _ => destruct b
           end; inversion Hq; auto.
Qed.

Lemma charge_total_on_species_witness :
  charge 211 = Ok 1 ∧ charge (-211) = Ok (-1) ∧ charge 111 = Ok 0
  ∧ status_of (charge 12) = 1%Z.
Proof.
  pose proof (charge_total_on_species 211) as (_ & Hpos & _).
  pose proof (charge_total_on_species (-211)) as (Hneg & _).
  pose proof (charge_total_on_species 111) as (_ & _ & Hzero & _).
  pose proof (charge_total_on_species 12) as (_ & _ & _ & Hexit & _).
  split; [|split; [|split]].
  - apply Hpos. simpl. tauto.
  - apply Hneg. simpl. tauto.
  - apply Hzero. simpl. tauto.
  - apply Hexit. simpl. intros Hin.
    repeat (destruct Hin as [Heq|Hin]; [discriminate Heq|]). done.
Defined.

(** ** The command-line entry point *)

(** C5, as amended.  When the configuration file or the input file does
    not exist, the script prints one message that names the missing file
    and exits through [sys.exit(0)]: the exit status is 0, and the
    analysis is not run (the run is the same whatever the analysis
    is). *)
Theorem main_exits_on_missing_file {A : Type} (path_exists : string → bool)
    (analyze_jetscape_events : string → string → string → result A)
    (c i o : option string) :
  let configFile := default default_configFile c in
  let inputFile := default default_inputFile i in
  path_exists configFile = false ∨ path_exists inputFile = false →
  let r := main path_exists analyze_jetscape_events c i o in
  printed r
  = [does_not_exist (if path_exists configFile then inputFile else configFile)]
  ∧ ended r = Raise (SystemExit (ExitCode 0))
  ∧ status_of (ended r) = 0%Z
  ∧ ∀ analysis', main path_exists analysis' c i o = r.
Proof.
  intros configFile inputFile Hmissing. unfold main.
  fold configFile inputFile.
  destruct (path_exists configFile); simpl.
  - destruct Hmissing as [? | ->]; [done|]. simpl. done.
  - done.
Qed.

(** C5 as stated fails: with no configuration file the exit status is 0,
    which is not a failure status. *)
Lemma missing_file_exit_status_is_zero :
  let r := main (fun _ => false) (fun _ _ _ => Ok tt) (Some "config.yaml") None None in
  printed r = [does_not_exist "config.yaml"]
  ∧ ¬ (status_of (ended r) ≠ 0%Z).
Proof. simpl. split; [done|]. intros Hne. by apply Hne. Qed.

Lemma main_exits_on_missing_file_witness :
  let r := main (fun path => String.eqb path "config.yaml") (fun _ _ _ => Ok tt)
             (Some "config.yaml") (Some "events.parquet") None in
  printed r = [does_not_exist "events.parquet"]
  ∧ status_of (ended r) = 0%Z.
Proof.
  pose proof (main_exits_on_missing_file
                (fun path => String.eqb path "config.yaml") (fun _ _ _ => Ok tt)
                (Some "config.yaml") (Some "events.parquet") None) as Hmain.
  simpl in Hmain. destruct (Hmain (or_intror eq_refl)) as (Hp & _ & Hs & _).
  simpl. split; [exact Hp | exact Hs].
Defined.

(** ** [leading_jet] *)

Section LeadingJetProperties.
Context {FJ : FastJet}.

Lemma leading_jet_index_from (negs : list PseudoJet) (jetR : float)
    (jets : list PseudoJet) (n : nat) (st : option PseudoJet * float * nat) :
  jets ≠ [] →
  (fold_left (leading_jet_step negs jetR) (combine (seq n (length jets)) jets) st).2
  = (n + length jets - 1)%nat.
Proof.
  revert n st. induction jets as [|jet jets IH]; intros n st Hne; [done|].
  simpl. destruct jets as [|jet' jets].
  - simpl. destruct st as [[l p] i]. simpl.
    destruct l; destruct (_ <? _); simpl; lia.
  - rewrite IH by done. simpl. lia.
Qed.

(** The index that [leading_jet] returns is the index of the last jet of
    the list, whichever jet is returned. *)
Lemma leading_jet_returns_last_index (jets negs : list PseudoJet) (jetR : float) :
  jets ≠ [] →
  (leading_jet jets negs jetR).2 = (length jets - 1)%nat.
Proof.
  intros Hne. unfold leading_jet, enumerate.
  by rewrite leading_jet_index_from.
Qed.

End LeadingJetProperties.

(** C9 at a failing input: of a jet of 100 GeV/c followed by a jet of
    50 GeV/c, with no holes, [leading_jet] returns the first jet and the
    index 1, which is the index of the second; [del
    jet_candidates[i_leading_jet]] then removes the second jet and leaves
    the leading jet in the list, which the second search returns
    again.  The two jets are back to back ([|delta_phi| > 7 pi / 8]) and
    pass the cuts of the dijet balance, and [fill_dijet_observables]
    records no [xj] for them. *)
Theorem leading_jet_returns_index_of_last_jet :
  leading_jet (FJ := Example.fastjet) [Example.jet100; Example.jet50] [] 0.4
  = (Some Example.jet100, 100, 1%nat)
  ∧ py_del [Example.jet100; Example.jet50] 1 = Ok [Example.jet100]
  ∧ leading_jet (FJ := Example.fastjet) [Example.jet100] [] 0.4
    = (Some Example.jet100, 100, 0%nat)
  ∧ (7 * np_pi / 8
       <? abs (delta_phi_to (FastJet := Example.fastjet) Example.jet100 Example.jet50))
    = true
  ∧ (let d0 := output (initialize_output_lists (Fmt := Example.format)
                         Example.dijet_analysis ∅) ∅ in
     let r := fill_dijet_observables (FJ := Example.fastjet) (Base := Example.base)
                (Fmt := Example.format) Example.dijet_analysis
                [Example.jet100; Example.jet50] [] 0.4 d0 in
     d0 !! "dijet_xj_atlas_R0.4" = Some []
     ∧ returns r = true
     ∧ output r d0 !! "dijet_xj_atlas_R0.4" = Some []).
Proof. vm_compute. done. Qed.

(** ** The writes of the analysis *)

Lemma do_writes_app (ws1 ws2 : list write) (d : dict) :
  do_writes (ws1 ++ ws2) d = let? d' := do_writes ws1 d in do_writes ws2 d'.
Proof.
  unfold do_writes. revert d. induction ws1 as [|w ws1 IH]; intros d; [done|].
  simpl. destruct (do_write d w) as [d'|e]; simpl; [apply IH|done].
Qed.

Section Traceable.
Context (P : write → Prop).

Lemma Traceable_ret {A} (a : A) : Traceable P (ret a).
Proof. by exists ([], Ok a). Qed.

Lemma Traceable_lift {A} (r : result A) : Traceable P (lift r).
Proof. exists ([], r). split; [done|]. intros d. by destruct r. Qed.

Lemma Traceable_set_empty (key : string) :
  P (SetEmpty key) → Traceable P (set_empty key).
Proof.
  intros HP. exists ([SetEmpty key], Ok tt).
  split; [repeat constructor; assumption|]. intros d. reflexivity.
Qed.

Lemma Traceable_append (key : string) (x : entry) :
  P (Append key x) → Traceable P (append key x).
Proof.
  intros HP. exists ([Append key x], Ok tt).
  split; [repeat constructor; assumption|].
  intros d. unfold append, run_trace, do_writes. simpl.
  destruct (d !! key); reflexivity.
Qed.

Lemma Traceable_bind {A B} (c : M A) (k : A → M B) :
  Traceable P c → (∀ a, Traceable P (k a)) → Traceable P (bind c k).
Proof.
  intros ([ws [a|e]] & HP & Hc) Hk; simpl in *.
  - destruct (Hk a) as ([ws' r] & HP' & Hka); simpl in *.
    exists (ws ++ ws', r). split; [by apply Forall_app|].
    intros d. unfold bind, run_trace. rewrite Hc. unfold run_trace. simpl.
    rewrite do_writes_app.
    destruct (do_writes ws d) as [d'|e]; simpl; [|done].
    rewrite Hka. done.
  - exists (ws, Raise e). split; [done|].
    intros d. unfold bind, run_trace. rewrite Hc. unfold run_trace. simpl.
    by destruct (do_writes ws d).
Qed.

Lemma Traceable_when (b : bool) (body : M unit) :
  Traceable P body → Traceable P (when b body).
Proof. destruct b; [done|]. intros _. apply Traceable_ret. Qed.

Lemma Traceable_for_each {A} (l : list A) (body : A → M unit) :
  (∀ x, Traceable P (body x)) → Traceable P (for_each l body).
Proof.
  intros Hbody. induction l as [|x l IH]; simpl.
  - apply Traceable_ret.
  - apply Traceable_bind; [apply Hbody|]. intros _. apply IH.
Qed.

Lemma Traceable_fold_each {A B} (l : list A) (acc : B) (body : B → A → M B) :
  (∀ acc x, Traceable P (body acc x)) → Traceable P (fold_each l acc body).
Proof.
  intros Hbody. revert acc. induction l as [|x l IH]; intros acc; simpl.
  - apply Traceable_ret.
  - apply Traceable_bind; [apply Hbody|]. intros acc'. apply IH.
Qed.

End Traceable.

Lemma Traceable_weaken (P Q : write → Prop) {A} (c : M A) :
  (∀ w, P w → Q w) → Traceable P c → Traceable Q c.
Proof.
  intros HPQ (t & HP & Hc). exists t. split; [|done].
  eapply Forall_impl; eauto.
Qed.

Create HintDb traceable discriminated.
#[global] Hint Resolve Traceable_ret Traceable_lift : traceable.

(** The writes of code made of [ret], [lift], [set_empty], [append],
    [bind], [when] and the loops, case by case. *)
Ltac traceable_step :=
  first
    [ progress cbv beta
    | solve [eauto with traceable]
    | apply Traceable_ret
    | apply Traceable_lift
    | apply Traceable_set_empty; exact I
    | apply Traceable_append; exact I
    | apply Traceable_when
    | apply Traceable_for_each; intros
    | apply Traceable_fold_each; intros
    | apply Traceable_bind; [|intros]
    | match goal with
      | |- Traceable _ (if ?b then _ else _) => destruct b
      | |- Traceable _ (match ?x with _ => _ end) => destruct x
      | |- Traceable _ (let '(_, _) := ?x in _) => destruct x
      end ].
Ltac traceable := intros; repeat traceable_step.

Section STATWrites.
Context {FJ : FastJet} {Base : BaseSTAT} {NP : NumPy} {Fmt : PyFormat}.
Variable self : STAT.

(** [initialize_output_lists] only binds keys to the empty list. *)
Lemma initialize_groomed_sets prefix key jetR skip grooming_setting :
  Traceable is_set (initialize_groomed self prefix key jetR skip grooming_setting).
Proof. unfold initialize_groomed. traceable. Qed.
Hint Resolve initialize_groomed_sets : traceable.

Lemma initialize_output_lists_sets :
  Traceable is_set (initialize_output_lists self).
Proof.
  unfold initialize_output_lists, initialize_hadron, initialize_hadron_correlations,
    initialize_inclusive_jet, initialize_inclusive_chjet,
    initialize_semi_inclusive_chjet, initialize_dijet.
  traceable.
Qed.

(** The rest of the analysis only appends. *)
Lemma fill_hadron_block_writes name open_upper_bound pids suffix particle :
  Traceable is_append
    (fill_hadron_block self name open_upper_bound pids suffix particle).
Proof. unfold fill_hadron_block. traceable. Qed.
Hint Resolve fill_hadron_block_writes : traceable.

Lemma fill_hadron_observables_writes fj_particles status :
  Traceable is_append (fill_hadron_observables self fj_particles status).
Proof. unfold fill_hadron_observables, fill_hadron. traceable. Qed.
Hint Resolve fill_hadron_observables_writes : traceable.

Lemma fill_Dz_hadrons_writes exp holes jet hadrons jet_pt jetR :
  Traceable is_append (fill_Dz_hadrons exp holes jet hadrons jet_pt jetR).
Proof. unfold fill_Dz_hadrons. traceable. Qed.
Hint Resolve fill_Dz_hadrons_writes : traceable.

Lemma fill_full_jet_ungroomed_observables_writes
    jet fj_hadrons_positive holes_in_jet jet_pt jet_pt_uncorrected jetR :
  Traceable is_append
    (fill_full_jet_ungroomed_observables self jet fj_hadrons_positive holes_in_jet
       jet_pt jet_pt_uncorrected jetR).
Proof.
  unfold fill_full_jet_ungroomed_observables, inclusive_jet_pt_alice,
    inclusive_jet_pt_atlas, inclusive_jet_pt_cms, inclusive_jet_Dz_atlas,
    inclusive_jet_Dz_cms, inclusive_jet_charge_cms, jet_charge_cms_kappa.
  traceable.
Qed.
Hint Resolve fill_full_jet_ungroomed_observables_writes : traceable.

Lemma inclusive_jet_groomed_cms_writes
    name value grooming_setting jet jet_groomed_lund jet_pt jetR zcut beta :
  Traceable is_append
    (inclusive_jet_groomed_cms self name value grooming_setting jet jet_groomed_lund
       jet_pt jetR zcut beta).
Proof. unfold inclusive_jet_groomed_cms. traceable. Qed.
Hint Resolve inclusive_jet_groomed_cms_writes : traceable.

Lemma fill_full_jet_groomed_observables_writes grooming_setting jet jet_pt jetR :
  Traceable is_append
    (fill_full_jet_groomed_observables self grooming_setting jet jet_pt jetR).
Proof. unfold fill_full_jet_groomed_observables. traceable. Qed.
Hint Resolve fill_full_jet_groomed_observables_writes : traceable.

Lemma fill_charged_jet_ungroomed_observables_writes
    jet holes_in_jet jet_pt jet_pt_uncorrected jetR :
  Traceable is_append
    (fill_charged_jet_ungroomed_observables self jet holes_in_jet
       jet_pt jet_pt_uncorrected jetR).
Proof.
  unfold fill_charged_jet_ungroomed_observables, inclusive_chjet_pt_alice,
    inclusive_chjet_g_alice, inclusive_chjet_ptd_alice, inclusive_chjet_mass_alice,
    inclusive_chjet_pt_star.
  traceable.
Qed.
Hint Resolve fill_charged_jet_ungroomed_observables_writes : traceable.

Lemma fill_charged_jet_groomed_observables_writes grooming_setting jet jet_pt jetR :
  Traceable is_append
    (fill_charged_jet_groomed_observables self grooming_setting jet jet_pt jetR).
Proof. unfold fill_charged_jet_groomed_observables. traceable. Qed.
Hint Resolve fill_charged_jet_groomed_observables_writes : traceable.

Lemma analyze_inclusive_jet_writes
    jet fj_hadrons_positive fj_hadrons_negative jetR full_jet :
  Traceable is_append
    (analyze_inclusive_jet self jet fj_hadrons_positive fj_hadrons_negative
       jetR full_jet).
Proof.
  unfold analyze_inclusive_jet.
  destruct (corrected_jet_pt_STAT _ _ _ _) as [[jet_pt jet_pt_uncorrected] holes].
  traceable.
Qed.
Hint Resolve analyze_inclusive_jet_writes : traceable.

Lemma hjet_alice_trigger_writes
    label pt_IAA pt_dphi hadron jet jet_pt jet_pt_unsubtracted jetR :
  Traceable is_append
    (hjet_alice_trigger self label pt_IAA pt_dphi hadron jet
       jet_pt jet_pt_unsubtracted jetR).
Proof. unfold hjet_alice_trigger. traceable. Qed.
Hint Resolve hjet_alice_trigger_writes : traceable.

Lemma nsubjettiness_alice_trigger_writes
    label pt_nsubjettiness hadron jet jet_pt jet_pt_unsubtracted jetR :
  Traceable is_append
    (nsubjettiness_alice_trigger label pt_nsubjettiness hadron jet
       jet_pt jet_pt_unsubtracted jetR).
Proof. unfold nsubjettiness_alice_trigger. traceable. Qed.
Hint Resolve nsubjettiness_alice_trigger_writes : traceable.

Lemma fill_semi_inclusive_chjet_observables_writes
    jets_selected fj_hadrons_positive_charged fj_hadrons_negative_charged jetR :
  Traceable is_append
    (fill_semi_inclusive_chjet_observables self jets_selected
       fj_hadrons_positive_charged fj_hadrons_negative_charged jetR).
Proof.
  unfold fill_semi_inclusive_chjet_observables, fill_semi_inclusive_chjet_alice,
    fill_semi_inclusive_chjet_star.
  traceable.
Qed.
Hint Resolve fill_semi_inclusive_chjet_observables_writes : traceable.

Lemma fill_dijet_observables_writes jets_selected fj_hadrons_negative jetR :
  Traceable is_append
    (fill_dijet_observables self jets_selected fj_hadrons_negative jetR).
Proof. unfold fill_dijet_observables. traceable. Qed.
Hint Resolve fill_dijet_observables_writes : traceable.

(** What [analyze_event] does after [initialize_output_lists]. *)
Lemma analyze_event_jetR_writes
    fj_hadrons_positive fj_hadrons_negative
    fj_hadrons_positive_charged fj_hadrons_negative_charged jetR :
  Traceable is_append
    (analyze_event_jetR self fj_hadrons_positive fj_hadrons_negative
       fj_hadrons_positive_charged fj_hadrons_negative_charged jetR).
Proof. unfold analyze_event_jetR. traceable. Qed.
Hint Resolve analyze_event_jetR_writes : traceable.

(** [analyze_event] is [initialize_output_lists] followed by code that
    only appends. *)
Lemma analyze_event_fills event :
  ∃ fill, Traceable is_append fill
          ∧ analyze_event self event = (initialize_output_lists self;; fill).
Proof.
  eexists. split; [|reflexivity].
  unfold fill_hadron_correlation_observables. traceable.
Qed.

End STATWrites.

(** ** Reading a run backwards *)

Lemma bind_Ok {S A B} (c : St S A) (k : A → St S B) (s : S) (r : B * S) :
  bind c k s = Ok r → ∃ a s1, c s = Ok (a, s1) ∧ k a s1 = Ok r.
Proof. unfold bind. destruct (c s) as [[a s1]|e]; [eauto|done]. Qed.

Lemma lift_Ok {S A} (r : result A) (s s' : S) (a : A) :
  lift r s = Ok (a, s') → r = Ok a ∧ s' = s.
Proof. unfold lift. destruct r; [|done]. by intros [= -> ->]. Qed.

Lemma ret_Ok {S A} (a a' : A) (s s' : S) :
  ret a s = Ok (a', s') → a' = a ∧ s' = s.
Proof. by intros [= -> ->]. Qed.

Lemma when_Ok {S} (b : bool) (c : St S unit) (s s' : S) :
  when b c s = Ok (tt, s') → (b = false ∧ s' = s) ∨ (b = true ∧ c s = Ok (tt, s')).
Proof. destruct b; simpl; [by right|]. intros [= ->]. by left. Qed.

Lemma append_Ok (key : string) (x : entry) (d d' : dict) :
  append key x d = Ok (tt, d') →
  ∃ l, d !! key = Some l ∧ d' = <[key := l ++ [x]]> d.
Proof. unfold append. destruct (d !! key) as [l|]; [|done]. intros [= <-]. eauto. Qed.

(** One step backwards through a run that returned. *)
Ltac run_inv :=
  match goal with
  | Hrun : bind _ _ _ = Ok _ |- _ =>
      apply bind_Ok in Hrun as (? & ? & ? & ?)
  | Hrun : lift _ _ = Ok _ |- _ => apply lift_Ok in Hrun as [? ->]
  | Hrun : ret _ _ = Ok _ |- _ => apply ret_Ok in Hrun as [-> ->]
  | Hrun : fold_each [] _ _ _ = Ok _ |- _ => apply ret_Ok in Hrun as [-> ->]
  | Hrun : append _ _ _ = Ok _ |- _ => apply append_Ok in Hrun as (? & ? & ->)
  | Hrun : when _ _ _ = Ok (?u, _) |- _ =>
      destruct u; apply when_Ok in Hrun as [[_ ->]|[_ Hrun]]
  | Hrun : (if ?b then _ else _) _ = Ok _ |- _ => destruct b
  | u : unit |- _ => destruct u
  end.

Lemma returns_output {S} (r : result (unit * S)) (s : S) :
  returns r = true → r = Ok (tt, output r s).
Proof. by destruct r as [[[] s']|e]. Qed.

Lemma string_app_inj_l (s t : string) : s +:+ t = s → t = "".
Proof.
  induction s as [|a s IH].
  - by change ("" +:+ t) with t.
  - change (String a s +:+ t) with (String a (s +:+ t)). intros [= Hs]. auto.
Qed.

Lemma string_app_assoc (s t u : string) : (s +:+ t) +:+ u = s +:+ (t +:+ u).
Proof.
  induction s as [|a s IH]; [done|].
  change (String a (s +:+ t) +:+ u = String a (s +:+ t +:+ u)).
  change (String a ((s +:+ t) +:+ u) = String a (s +:+ t +:+ u)).
  by f_equal.
Qed.

Lemma key_suffix_ne (a suffix : string) : suffix ≠ "" → a +:+ suffix ≠ a.
Proof. intros Hne Heq. by apply Hne, (string_app_inj_l a). Qed.

Lemma key_suffix_ne' (a b suffix : string) :
  suffix ≠ "" → a +:+ b +:+ suffix ≠ a +:+ b.
Proof. rewrite <- string_app_assoc. apply key_suffix_ne. Qed.

(** ** Resetting the dictionary *)

Lemma do_writes_sets (ws : list write) :
  Forall is_set ws →
  ∃ d0 : dict,
    (∀ k l, d0 !! k = Some l → l = []) ∧ ∀ d, do_writes ws d = Ok (d0 ∪ d).
Proof.
  unfold do_writes. intros Hws.
  induction Hws as [|[key|key x] ws Hset _ (d0 & Hempty & Hd0)]; [|simpl|done].
  - exists ∅. split; [by intros k l; rewrite lookup_empty|].
    intros d. simpl. by rewrite (left_id_L ∅ (∪)).
  - exists (d0 ∪ {[key := []]}). split.
    + intros k l [Hk|[_ Hk]]%lookup_union_Some_raw; [by eapply Hempty|].
      apply lookup_singleton_Some in Hk as [_ <-]. done.
    + intros d. rewrite Hd0. f_equal.
      by rewrite insert_union_singleton_l, (assoc_L (∪)).
Qed.

Lemma do_write_dom (d d' : dict) (w : write) :
  is_append w → do_write d w = Ok d' → dom d' = dom d.
Proof.
  destruct w as [key|key x]; [done|]. intros _. simpl.
  destruct (d !! key) as [l|] eqn:Hl; [|done].
  intros [= <-]. rewrite dom_insert_L.
  apply subseteq_union_1_L, singleton_subseteq_l. by eapply elem_of_dom_2.
Qed.

Lemma do_writes_appends_dom (ws : list write) (d d' : dict) :
  Forall is_append ws → do_writes ws d = Ok d' → dom d' = dom d.
Proof.
  unfold do_writes. intros Hws. revert d.
  induction Hws as [|w ws Hw _ IH]; intros d; simpl.
  - by intros [= <-].
  - destruct (do_write d w) as [d1|e] eqn:Hd1; simpl; [|done].
    intros Hd'. rewrite (IH _ Hd'). by eapply do_write_dom.
Qed.

Lemma do_write_agree (w : write) (d1 d2 d1' d2' : dict) (k : string) :
  do_write d1 w = Ok d1' → do_write d2 w = Ok d2' →
  d1 !! k = d2 !! k → d1' !! k = d2' !! k.
Proof.
  destruct w as [key|key x]; simpl.
  - intros [= <-] [= <-] Hk.
    destruct (decide (key = k)) as [->|Hne].
    + by rewrite !lookup_insert_eq.
    + by rewrite !lookup_insert_ne.
  - destruct (d1 !! key) as [l1|] eqn:Hl1; [|done].
    destruct (d2 !! key) as [l2|] eqn:Hl2; [|done].
    intros [= <-] [= <-] Hk.
    destruct (decide (key = k)) as [->|Hne].
    + rewrite !lookup_insert_eq. congruence.
    + by rewrite !lookup_insert_ne.
Qed.

(** The same writes on two dictionaries that agree on a key give two
    dictionaries that agree on this key. *)
Lemma do_writes_agree (ws : list write) (d1 d2 d1' d2' : dict) (k : string) :
  do_writes ws d1 = Ok d1' → do_writes ws d2 = Ok d2' →
  d1 !! k = d2 !! k → d1' !! k = d2' !! k.
Proof.
  unfold do_writes. revert d1 d2.
  induction ws as [|w ws IH]; intros d1 d2; simpl.
  - by intros [= <-] [= <-].
  - destruct (do_write d1 w) as [e1|] eqn:He1; simpl; [|done].
    destruct (do_write d2 w) as [e2|] eqn:He2; simpl; [|done].
    intros H1 H2 Hk. eapply IH; eauto using do_write_agree.
Qed.

(** A computation that only binds keys to the empty list, followed by
    one that only appends. *)
Lemma reset_then_fill (reset fill : M unit) :
  Traceable is_set reset → Traceable is_append fill →
  (∃ e, ∀ d, reset d = Raise e)
  ∨ ∃ d0 : dict,
      (∀ k l, d0 !! k = Some l → l = [])
      ∧ (∀ d, reset d = Ok (tt, d0 ∪ d))
      ∧ (∀ d1 d2 d1' d2' k,
           (reset;; fill) d1 = Ok (tt, d1') → (reset;; fill) d2 = Ok (tt, d2') →
           is_Some (d0 !! k) → d1' !! k = d2' !! k)
      ∧ (∀ d, dom d ⊆ dom d0 → (reset;; fill) d = (reset;; fill) ∅)
      ∧ (∀ d d', (reset;; fill) d = Ok (tt, d') → dom d' = dom d0 ∪ dom d).
Proof.
  intros ([ws r] & Hws & Hreset) ([ws' r'] & Hws' & Hfill).
  destruct (do_writes_sets ws Hws) as (d0 & Hempty & Hd0).
  unfold run_trace in *. simpl in *.
  destruct r as [[]|e].
  2:{ left. exists e. intros d. by rewrite Hreset, Hd0. }
  right. exists d0.
  assert (Hr : ∀ d, reset d = Ok (tt, d0 ∪ d)).
  { intros d. by rewrite Hreset, Hd0. }
  assert (Hrun : ∀ d, (reset;; fill) d
                      = let? d' := do_writes ws' (d0 ∪ d) in
                        let? a := r' in Ok (a, d')).
  { intros d. unfold bind. by rewrite Hr, Hfill. }
  split; [done|]. split; [done|]. split; [|split].
  - intros d1 d2 d1' d2' k. rewrite !Hrun.
    destruct (do_writes ws' (d0 ∪ d1)) as [e1|] eqn:He1; simpl; [|done].
    destruct (do_writes ws' (d0 ∪ d2)) as [e2|] eqn:He2; simpl; [|done].
    destruct r' as [[]|]; simpl; [|done].
    intros [= <-] [= <-] [l Hl].
    eapply do_writes_agree; eauto.
    by rewrite !(lookup_union_Some_l _ _ _ _ Hl).
  - intros d Hdom. rewrite !Hrun.
    assert (d0 ∪ d = d0 ∪ ∅) as ->; [|done].
    rewrite (right_id_L ∅ (∪)). apply map_eq. intros k.
    rewrite lookup_union. destruct (d0 !! k) as [l|] eqn:Hl.
    + by destruct (d !! k).
    + apply not_elem_of_dom in Hl.
      assert (d !! k = None) as ->; [|done].
      apply not_elem_of_dom. set_solver.
  - intros d d'. rewrite Hrun.
    destruct (do_writes ws' (d0 ∪ d)) as [e1|] eqn:He1; simpl; [|done].
    destruct r' as [[]|]; simpl; [|done].
    intros [= <-]. rewrite (do_writes_appends_dom _ _ _ Hws' He1).
    by rewrite dom_union_L.
Qed.

(** ** The keys that a reset binds

    [c] leaves the key [k] bound to the empty list. *)
Definition Binds (k : string) (c : M unit) : Prop :=
  ∀ d d', c d = Ok (tt, d') → d' !! k = Some [].

Lemma sets_keep_empty (c : M unit) (k : string) (d d' : dict) :
  Traceable is_set c → c d = Ok (tt, d') → d !! k = Some [] → d' !! k = Some [].
Proof.
  intros ([ws r] & Hws & Hc) Hrun Hk. rewrite Hc in Hrun.
  destruct (do_writes_sets ws Hws) as (d0 & Hempty & Hd0).
  unfold run_trace in Hrun. simpl in Hrun. rewrite Hd0 in Hrun. simpl in Hrun.
  destruct r as [[]|e]; [|done]. injection Hrun as <-.
  rewrite lookup_union. destruct (d0 !! k) as [l|] eqn:Hl.
  - rewrite (Hempty _ _ Hl), Hk. done.
  - by rewrite Hk.
Qed.

Lemma Binds_set_empty (k : string) : Binds k (set_empty k).
Proof. intros d d' [= <-]. apply lookup_insert_eq. Qed.

Lemma Binds_bind {A} (k : string) (c : M A) (f : A → M unit) :
  (∀ a, Binds k (f a)) → Binds k (bind c f).
Proof.
  intros Hf d d' Hrun. apply bind_Ok in Hrun as (a & d1 & _ & Hrun).
  by eapply Hf.
Qed.

Lemma Binds_then (k : string) (c1 c2 : M unit) :
  Binds k c1 → Traceable is_set c2 → Binds k (c1;; c2).
Proof.
  intros H1 H2 d d' Hrun. apply bind_Ok in Hrun as ([] & d1 & Hrun1 & Hrun2).
  eapply sets_keep_empty; eauto.
Qed.

Lemma Binds_lift {A} (k : string) (r : result A) (a : A) (f : A → M unit) :
  r = Ok a → Binds k (f a) → Binds k (bind (lift r) f).
Proof.
  intros -> Hf d d' Hrun. apply bind_Ok in Hrun as (a' & d1 & Hlift & Hrun).
  apply lift_Ok in Hlift as [[= <-] ->]. by eapply Hf.
Qed.

Lemma Binds_when (k : string) (b : bool) (body : M unit) :
  b = true → Binds k body → Binds k (when b body).
Proof. by intros ->. Qed.

Lemma Binds_for_each {A} (k : string) (l : list A) (body : A → M unit) (x : A) :
  In x l → (∀ y, Traceable is_set (body y)) → Binds k (body x) →
  Binds k (for_each l body).
Proof.
  intros Hx Hsets Hbody. induction l as [|y l IH]; [done|]. simpl.
  destruct Hx as [->|Hx].
  - apply Binds_then; [done|]. by apply Traceable_for_each.
  - apply Binds_bind. intros _. by apply IH.
Qed.

Lemma string_app_nil_r (s : string) : s +:+ "" = s.
Proof.
  induction s as [|a s IH]; [done|].
  change (String a (s +:+ "") = String a s). by f_equal.
Qed.

Section ResetProperties.
Context {FJ : FastJet} {Base : BaseSTAT} {NP : NumPy} {Fmt : PyFormat}.

(** Steps through [initialize_output_lists]: past a statement ([skip]),
    into one ([here]), through a read of the configuration ([read],
    [at_block], [groomed], [ungroomed]) and at the assignment ([hit]). *)
Ltac sets :=
  unfold initialize_hadron, initialize_hadron_correlations,
    initialize_inclusive_jet, initialize_inclusive_chjet,
    initialize_semi_inclusive_chjet, initialize_dijet;
  traceable; apply initialize_groomed_sets.
Ltac skip := apply Binds_bind; intros _.
Ltac here := apply Binds_then; [|sets].
Ltac hit := rewrite ?string_app_nil_r, ?string_app_assoc; apply Binds_set_empty.
Ltac read := eapply Binds_lift; [eassumption|].
Ltac at_block :=
  match goal with
  | H : declares _ _ _ _ |- _ =>
      destruct H as (blocks & jet_R & Hitems & Hblock & HjetR & HR);
      eapply Binds_lift; [exact Hitems|];
      eapply Binds_for_each; [exact Hblock|sets|];
      eapply Binds_lift; [exact HjetR|];
      eapply Binds_for_each; [exact HR|sets|]
  end.
Ltac suffixed :=
  match goal with
  | H : AA_suffix _ _ _ |- _ => destruct H as [->|[HAA ->]]
  end.

Ltac groomed :=
  match goal with
  | H : grooms _ _ _ |- _ =>
      destruct H as (settings & grooming_setting & Hhas & Hsettings & Hsetting
                     & Hzcut & Hbeta);
      eapply Binds_lift; [exact Hhas|]; cbv iota;
      eapply Binds_lift; [exact Hsettings|];
      eapply Binds_for_each; [exact Hsetting|sets|];
      unfold initialize_groomed;
      eapply Binds_lift; [exact Hzcut|];
      eapply Binds_lift; [exact Hbeta|]
  end.
Ltac ungroomed :=
  match goal with
  | H : has_key "SoftDrop" _ = Ok false |- _ =>
      eapply Binds_lift; [exact H|]; cbv iota
  end.
Ltac last_AA := apply Binds_when; [done|]; hit.
Ltac name_AA := cbv zeta; suffixed; [here; hit|skip; last_AA].

(** [initialize_output_lists] binds every key that the configuration
    declares, the theta_g of ALICE at R = 0.2 and zcut = 0.4 apart. *)
Lemma declared_keys_bound (self : STAT) (k : string) :
  declared_except_tg_alice self k → Binds k (initialize_output_lists self).
Proof.
  unfold initialize_output_lists, declared_except_tg_alice.
  destruct 1.
  - here. unfold initialize_hadron. read.
    eapply Binds_for_each; [eassumption|sets|].
    name_AA.
  - skip. here. unfold initialize_hadron_correlations. read.
    eapply Binds_for_each; [eassumption|sets|]. hit.
  - skip. skip. here. unfold initialize_inclusive_jet.
    apply Binds_when; [done|]. at_block. groomed. name_AA.
  - skip. skip. here. unfold initialize_inclusive_jet.
    apply Binds_when; [done|]. at_block. ungroomed.
    match goal with H : contains "charge_cms" _ = true |- _ => rewrite H end.
    read. eapply Binds_for_each; [eassumption|sets|]. name_AA.
  - skip. skip. here. unfold initialize_inclusive_jet.
    apply Binds_when; [done|]. at_block. ungroomed.
    match goal with H : contains "charge_cms" _ = false |- _ => rewrite H end.
    cbv zeta. here. hit.
  - skip. skip. here. unfold initialize_inclusive_jet.
    apply Binds_when; [done|]. at_block. ungroomed.
    match goal with H : contains "charge_cms" _ = false |- _ => rewrite H end.
    cbv zeta. skip.
    match goal with H : _ || _ = true |- _ => rewrite H end.
    here. last_AA.
  - skip. skip. here. unfold initialize_inclusive_jet.
    apply Binds_when; [done|]. at_block. ungroomed.
    match goal with H : contains "charge_cms" _ = false |- _ => rewrite H end.
    cbv zeta. skip.
    match goal with H : contains "Dz" _ = true |- _ => rewrite H end.
    simpl orb. cbv iota. skip. hit.
  - skip. skip. here. unfold initialize_inclusive_jet.
    apply Binds_when; [done|]. at_block. ungroomed.
    match goal with H : contains "charge_cms" _ = false |- _ => rewrite H end.
    cbv zeta. skip.
    match goal with H : _ || _ = false |- _ => rewrite H end.
    last_AA.
  - do 3 skip. here. unfold initialize_inclusive_chjet. at_block. groomed.
    match goal with
    | H : tg_alice_R02_zcut04 _ _ _ = false |- _ =>
        unfold tg_alice_R02_zcut04 in H; rewrite H
    end.
    name_AA.
  - do 3 skip. here. unfold initialize_inclusive_chjet. at_block. ungroomed.
    name_AA.
  - do 4 skip. here. unfold initialize_semi_inclusive_chjet.
    apply Binds_when; [done|]. at_block. cbv zeta.
    match goal with H : (sqrts self =? 2760) = true |- _ => rewrite H end.
    match goal with H : _ ∨ _ |- _ => destruct H as [->| ->] end; suffixed.
    + here. hit.
    + do 3 skip. apply Binds_when; [done|]. here. hit.
    + skip. here. hit.
    + do 3 skip. apply Binds_when; [done|]. skip. here. hit.
  - do 4 skip. here. unfold initialize_semi_inclusive_chjet.
    apply Binds_when; [done|]. at_block. cbv zeta.
    match goal with H : (sqrts self =? 2760) = true |- _ => rewrite H end.
    suffixed.
    + do 2 skip. here. hit.
    + do 3 skip. apply Binds_when; [done|]. do 2 skip. hit.
  - do 4 skip. here. unfold initialize_semi_inclusive_chjet.
    apply Binds_when; [done|]. at_block. cbv zeta.
    match goal with H : (sqrts self =? 2760) = false |- _ => rewrite H end.
    match goal with H : (sqrts self =? 200) = true |- _ => rewrite H end.
    suffixed.
    + here. hit.
    + do 2 skip. apply Binds_when; [done|]. here. hit.
  - do 4 skip. here. unfold initialize_semi_inclusive_chjet.
    apply Binds_when; [done|]. at_block. cbv zeta.
    match goal with H : (sqrts self =? 2760) = false |- _ => rewrite H end.
    match goal with H : (sqrts self =? 200) = true |- _ => rewrite H end.
    suffixed.
    + skip. here. hit.
    + do 2 skip. apply Binds_when; [done|]. skip. hit.
  - do 5 skip. unfold initialize_dijet.
    apply Binds_when; [done|]. at_block. name_AA.
Qed.
(** C8.  Whatever the dictionary holds when the event starts,
    [initialize_output_lists] either raises (on a configuration it cannot
    read, and then on every dictionary) or binds to the empty list the keys
    [d0] that the configuration determines, leaving the other keys as they
    were; the keys of [d0] include every observable key that the blocks of
    the configuration declare, apart from the theta_g of ALICE at R = 0.2
    and zcut = 0.4, which the reset passes over.  The lists that
    [analyze_event] leaves under
    these keys are then the same whatever the dictionary held before; a
    dictionary that holds no other key (as one that earlier events left)
    gives the very run that the empty dictionary gives, and
    [analyze_event] adds no key to those of [d0]. *)
Theorem initialize_output_lists_resets_every_key (self : STAT) :
  (∃ e, ∀ d, initialize_output_lists self d = Raise e)
  ∨ ∃ d0 : dict,
      (∀ k l, d0 !! k = Some l → l = [])
      ∧ (∀ k, declared_except_tg_alice self k → d0 !! k = Some [])
      ∧ (∀ d, initialize_output_lists self d = Ok (tt, d0 ∪ d))
      ∧ (∀ event d1 d2 d1' d2' k,
           analyze_event self event d1 = Ok (tt, d1') →
           analyze_event self event d2 = Ok (tt, d2') →
           is_Some (d0 !! k) → d1' !! k = d2' !! k)
      ∧ (∀ event d, dom d ⊆ dom d0 →
           analyze_event self event d = analyze_event self event ∅)
      ∧ (∀ event d d', analyze_event self event d = Ok (tt, d') →
           dom d' = dom d0 ∪ dom d).
Proof.
  destruct (reset_then_fill (initialize_output_lists self) (ret tt)
              (initialize_output_lists_sets self) (Traceable_ret _ tt))
    as [Hraise|(d0 & Hempty & Hinit & _)]; [by left|].
  right. exists d0. split; [done|]. split.
  { intros k Hk. specialize (Hinit ∅). rewrite (right_id_L ∅ (∪)) in Hinit.
    exact (declared_keys_bound self k Hk _ _ Hinit). }
  split; [done|].
  pose proof (analyze_event_fills self) as Hfill.
  split; [|split].
  - intros event d1 d2 d1' d2' k. destruct (Hfill event) as (fill & Hfill' & ->).
    destruct (reset_then_fill _ fill (initialize_output_lists_sets self) Hfill')
      as [[e He]|(d0' & _ & Hinit' & Hagree & _)].
    { specialize (He ∅). by rewrite Hinit in He. }
    assert (d0' = d0) as ->.
    { specialize (Hinit ∅). rewrite Hinit' in Hinit.
      rewrite !(right_id_L ∅ (∪)) in Hinit. congruence. }
    apply Hagree.
  - intros event d. destruct (Hfill event) as (fill & Hfill' & ->).
    destruct (reset_then_fill _ fill (initialize_output_lists_sets self) Hfill')
      as [[e He]|(d0' & _ & Hinit' & _ & Hsame & _)].
    { specialize (He ∅). by rewrite Hinit in He. }
    assert (d0' = d0) as ->.
    { specialize (Hinit ∅). rewrite Hinit' in Hinit.
      rewrite !(right_id_L ∅ (∪)) in Hinit. congruence. }
    apply Hsame.
  - intros event d d'. destruct (Hfill event) as (fill & Hfill' & ->).
    destruct (reset_then_fill _ fill (initialize_output_lists_sets self) Hfill')
      as [[e He]|(d0' & _ & Hinit' & _ & _ & Hdom)].
    { specialize (He ∅). by rewrite Hinit in He. }
    assert (d0' = d0) as ->.
    { specialize (Hinit ∅). rewrite Hinit' in Hinit.
      rewrite !(right_id_L ∅ (∪)) in Hinit. congruence. }
    apply Hdom.
Qed.

End ResetProperties.

Lemma initialize_output_lists_resets_every_key_witness :
  ∃ d0 : dict,
    d0 !! "hadron_pt_ch_alice_holes" = Some []
    ∧ ∀ d, initialize_output_lists (Fmt := Example.format) (Example.analysis true) d
           = Ok (tt, d0 ∪ d).
Proof.
  destruct (initialize_output_lists_resets_every_key
              (FJ := Example.fastjet) (Base := Example.base)
              (NP := Example.numpy) (Fmt := Example.format) (Example.analysis true))
    as [[e He]|(d0 & _ & Hdeclared & Hinit & _)].
  - exfalso. specialize (He ∅).
    assert (Hreturns : returns (initialize_output_lists (Fmt := Example.format)
                                  (Example.analysis true) ∅) = true)
      by (vm_compute; reflexivity).
    rewrite He in Hreturns. discriminate Hreturns.
  - exists d0. split; [|exact Hinit].
    apply (Hdeclared (("hadron_" +:+ "pt_ch_alice") +:+ "_holes")).
    eapply (declared_hadron (Fmt := Example.format) (Example.analysis true)
              _ _ "pt_ch_alice" "_holes").
    + vm_compute. reflexivity.
    + simpl. left. reflexivity.
    + right. split; reflexivity.
Defined.

(** C8, as it is stated, fails at the theta_g of ALICE at R = 0.2 and
    zcut = 0.4.  The key is one that the blocks of the configuration
    declare; the reset returns, binds the key of R = 0.4 to the empty list
    and leaves this one as it was: unbound when it was unbound, and with
    the list of an earlier event when it held one. *)
Lemma tg_alice_R02_zcut04_is_not_reset :
  let self := Instances.tg_alice_analysis in
  let k := "inclusive_chjet_tg_alice_R0.2_zcut0.4_beta0" in
  let fresh := initialize_output_lists (Fmt := Example.format) self ∅ in
  let later := initialize_output_lists (Fmt := Example.format) self
                 {[ k := [Scalar 1] ]} in
  declared (Fmt := Example.format) self k
  ∧ returns fresh = true
  ∧ output fresh ∅ !! "inclusive_chjet_tg_alice_R0.4_zcut0.4_beta0" = Some []
  ∧ output fresh ∅ !! k = None
  ∧ returns later = true
  ∧ output later ∅ !! k = Some [Scalar 1]
  ∧ ¬ (∀ d d', initialize_output_lists (Fmt := Example.format) self d = Ok (tt, d') →
         ∀ k', declared (Fmt := Example.format) self k' → d' !! k' = Some []).
Proof.
  cbv zeta.
  assert (Hdeclared : declared (Fmt := Example.format) Instances.tg_alice_analysis
                        "inclusive_chjet_tg_alice_R0.2_zcut0.4_beta0").
  { refine (declared_inclusive_chjet_groomed (Fmt := Example.format)
              Instances.tg_alice_analysis _ "tg_alice" Instances.tg_alice
              0.2 0.4 0 "" _ _ _ _).
    - exists [("tg_alice", Instances.tg_alice)], [0.2; 0.4].
      repeat split; [by left|by left].
    - exists [YDict [("zcut", YNum 0.2); ("beta", YNum 0)];
              YDict [("zcut", YNum 0.4); ("beta", YNum 0)]],
             (YDict [("zcut", YNum 0.4); ("beta", YNum 0)]).
      repeat split. right. by left.
    - reflexivity.
    - by left. }
  split; [exact Hdeclared|].
  split; [vm_compute; reflexivity|].
  split; [vm_compute; reflexivity|].
  split; [vm_compute; reflexivity|].
  split; [vm_compute; reflexivity|].
  split; [vm_compute; reflexivity|].
  intros Hreset.
  destruct (initialize_output_lists (Fmt := Example.format)
              Instances.tg_alice_analysis ∅) as [[[] d']|e] eqn:Hrun.
  - pose proof (Hreset ∅ d' Hrun _ Hdeclared) as Hbound.
    assert (Hunbound : output (initialize_output_lists (Fmt := Example.format)
                                 Instances.tg_alice_analysis ∅) ∅
                         !! "inclusive_chjet_tg_alice_R0.2_zcut0.4_beta0" = None)
      by (vm_compute; reflexivity).
    rewrite Hrun in Hunbound. simpl in Hunbound. congruence.
  - assert (Hreturns : returns (initialize_output_lists (Fmt := Example.format)
                                  Instances.tg_alice_analysis ∅) = true)
      by (vm_compute; reflexivity).
    rewrite Hrun in Hreturns. discriminate Hreturns.
Qed.

(** ** Candidates that fail a selection *)

Section SelectionProperties.
Context {FJ : FastJet} {Base : BaseSTAT} {NP : NumPy} {Fmt : PyFormat}.
Variable self : STAT.

Ltac run_block :=
  unfold bind, lift, when, ret; simpl;
  repeat match goal with
         | Hcfg : ?r = Ok _ |- context [?r] => rewrite Hcfg; simpl
         end.

(** The next cut of the block: it fails and the block ends, or it holds
    and the selection [Hfail] goes on without it. *)
Ltac next_cut Hfail :=
  match goal with
  | |- context [if ?b then _ else _] =>
      let E := fresh "Hcut" in
      destruct b eqn:E; [simpl in Hfail; run_block | reflexivity]
  end.

(** A hadron that fails the selection of a hadron observable: nothing is
    appended, nothing is raised. *)
Lemma fill_hadron_block_skips (name : string) (open_upper_bound : bool)
    (pids : list Z) (suffix : string) (particle : PseudoJet)
    (centrality : yaml) (pt_min pt_max eta_cut : float) (d : dict) :
  getpath (hadron_observables self) [name; "centrality"] = Ok centrality →
  num_at_index (hadron_observables self) [name; "pt"] 0 = Ok pt_min →
  (if open_upper_bound then Ok 100
   else num_at_index (hadron_observables self) [name; "pt"] 1) = Ok pt_max →
  num_at (hadron_observables self) [name; "eta_cut"] = Ok eta_cut →
  hadron_passes self centrality pt_min pt_max eta_cut pids particle = false →
  fill_hadron_block self name open_upper_bound pids suffix particle d = Ok (tt, d).
Proof.
  intros Hc Hmin Hmax Heta Hfail. unfold fill_hadron_block, hadron_passes in *.
  destruct open_upper_bound; [injection Hmax as <-|];
    run_block; repeat next_cut Hfail; done.
Qed.




(** A hadron that passes the selection is appended to the list of the
    observable (which [initialize_output_lists] has bound). *)
Lemma fill_hadron_block_fills (name : string) (open_upper_bound : bool)
    (pids : list Z) (suffix : string) (particle : PseudoJet)
    (centrality : yaml) (pt_min pt_max eta_cut : float) (d : dict) (l : list entry) :
  getpath (hadron_observables self) [name; "centrality"] = Ok centrality →
  num_at_index (hadron_observables self) [name; "pt"] 0 = Ok pt_min →
  (if open_upper_bound then Ok 100
   else num_at_index (hadron_observables self) [name; "pt"] 1) = Ok pt_max →
  num_at (hadron_observables self) [name; "eta_cut"] = Ok eta_cut →
  hadron_passes self centrality pt_min pt_max eta_cut pids particle = true →
  d !! ("hadron_" +:+ name +:+ suffix) = Some l →
  fill_hadron_block self name open_upper_bound pids suffix particle d
  = Ok (tt, <["hadron_" +:+ name +:+ suffix := l ++ [Scalar (pt particle)]]> d).
Proof.
  intros Hc Hmin Hmax Heta Hpass Hl. unfold fill_hadron_block, hadron_passes in *.
  repeat (apply andb_prop in Hpass as [Hpass ?]).
  destruct open_upper_bound; [injection Hmax as <-|];
    run_block; unfold append;
    repeat match goal with
           | Hb : ?b = true |- context [?b] => rewrite Hb; simpl
           end; run_block; unfold append; by rewrite Hl.
Qed.

End SelectionProperties.


(** ** Hole subtraction with no holes *)

Section NoHoles.
Context {FJ : FastJet} {Base : BaseSTAT} {NP : NumPy} {Fmt : PyFormat}.
Variable self : STAT.

(** The list of a key after the appends of a run. *)
Ltac lookup_key :=
  repeat first
    [ rewrite lookup_insert_eq
    | rewrite lookup_insert_ne by (first [ by apply key_suffix_ne
                                         | by apply key_suffix_ne' ]) ];
  repeat match goal with
         | Hl : <[_ := _]> _ !! _ = Some _ |- _ =>
             rewrite lookup_insert_ne in Hl
               by (first [ by apply key_suffix_ne | by apply key_suffix_ne' ])
         end;
  repeat match goal with
         | Hl : ?d !! ?k = Some _ |- context [?d !! ?k] => rewrite Hl
         end.

Lemma inclusive_chjet_g_alice_no_holes (jet : PseudoJet) (jet_pt jetR : float)
    (d d' : dict) :
  let key := "inclusive_chjet_g_alice_R" +:+ py_str jetR in
  inclusive_chjet_g_alice self jet [] jet_pt jetR d = Ok (tt, d') →
  d' !! key = d !! key
  ∨ ∃ g, angularity_sum (constituents jet) jet jet_pt = Ok g
         ∧ d' !! key = (fun l => l ++ [Scalar g]) <$> d !! key.
Proof.
  intros key Hrun. unfold inclusive_chjet_g_alice in Hrun.
  repeat run_inv; auto; right; eexists; (split; [eassumption|]); subst key.
  - match goal with
    | Hh : angularity_sum [] _ _ = Ok _ |- _ => injection Hh as <-
    end.
    lookup_key. by rewrite float_sub_0_r.
  - by lookup_key.
Qed.

Lemma inclusive_chjet_ptd_alice_no_holes (jet : PseudoJet) (jet_pt jetR : float)
    (d d' : dict) :
  let key := "inclusive_chjet_ptd_alice_R" +:+ py_str jetR in
  let sum :=
    fold_left (fun sum constituent => sum + np_power (pt constituent) 2)
              (constituents jet) 0 in
  inclusive_chjet_ptd_alice self jet [] jet_pt jetR d = Ok (tt, d') →
  d' !! key = d !! key
  ∨ d' !! key = (fun l => l ++ [Scalar (sqrt sum / jet_pt)]) <$> d !! key.
Proof.
  intros key sum Hrun. unfold inclusive_chjet_ptd_alice in Hrun.
  repeat run_inv; auto; right; subst key sum.
  - lookup_key. by rewrite float_sub_0_r.
  - by lookup_key.
Qed.

Lemma inclusive_chjet_mass_alice_no_holes (jet : PseudoJet) (jet_pt jetR : float)
    (d d' : dict) :
  m PseudoJet0 = 0 →
  let key := "inclusive_chjet_mass_alice_R" +:+ py_str jetR in
  inclusive_chjet_mass_alice self jet [] jet_pt jetR d = Ok (tt, d') →
  d' !! key = d !! key
  ∨ d' !! key = (fun l => l ++ [Pair jet_pt (m jet)]) <$> d !! key.
Proof.
  intros Hm0 key Hrun. unfold inclusive_chjet_mass_alice in Hrun.
  repeat run_inv; auto; right; subst key.
  - lookup_key. simpl. by rewrite Hm0, float_sub_0_r.
  - by lookup_key.
Qed.

Lemma jet_charge_cms_kappa_no_holes (jet : PseudoJet)
    (fj_hadrons_positive : list PseudoJet) (jet_pt jetR kappa : float)
    (d d' : dict) :
  let key := "inclusive_jet_charge_cms_R" +:+ py_str jetR
               +:+ "_k" +:+ py_str kappa in
  jet_charge_cms_kappa self jet fj_hadrons_positive [] jet_pt jetR kappa d
  = Ok (tt, d') →
  ∃ sum, charge_sum self jet fj_hadrons_positive jetR kappa = Ok sum
         ∧ d' !! key
           = (fun l => l ++ [Scalar (sum / np_power jet_pt kappa)]) <$> d !! key.
Proof.
  intros key Hrun. unfold jet_charge_cms_kappa in Hrun.
  repeat run_inv; eexists; (split; [eassumption|]); subst key.
  - match goal with
    | Hh : charge_sum _ _ [] _ _ = Ok _ |- _ => injection Hh as <-
    end.
    lookup_key. by rewrite float_sub_0_r.
  - by lookup_key.
Qed.

End NoHoles.

(** C3.  With no hole, hole subtraction is the identity: the corrected
    jet pt is the uncorrected jet pt (in every place that corrects it,
    in both modes), and the jet charge, the angularity, pTD and the jet
    mass that the analysis records under the key of the observable are
    the values computed from the jet alone, whether [is_AA] is set or
    not.  For the jet mass, the mass of fastjet's empty [PseudoJet()] is
    0. *)
Theorem no_holes_subtraction_is_identity {FJ : FastJet} {Base : BaseSTAT} {NP : NumPy} {Fmt : PyFormat}
    (self : STAT) :
  (∀ (AA : bool) (jet : PseudoJet) (jetR : float),
     corrected_jet_pt_STAT AA jet [] jetR = (pt jet, pt jet, [])
     ∧ corrected_jet_pt_TG3 jet [] jetR = (pt jet, pt jet, [])
     ∧ corrected_jet_pt_semi_inclusive AA jet [] jetR = (pt jet, pt jet)
     ∧ corrected_jet_pt_dijet AA jet [] jetR = pt jet
     ∧ subtract_negative_recoils jet [] jetR = pt jet)
  ∧ (∀ (jet : PseudoJet) (fj_hadrons_positive : list PseudoJet)
       (jet_pt jetR kappa : float) (d d' : dict),
     let key := "inclusive_jet_charge_cms_R" +:+ py_str jetR
                  +:+ "_k" +:+ py_str kappa in
     jet_charge_cms_kappa self jet fj_hadrons_positive [] jet_pt jetR kappa d
     = Ok (tt, d') →
     ∃ sum, charge_sum self jet fj_hadrons_positive jetR kappa = Ok sum
            ∧ d' !! key
              = (fun l => l ++ [Scalar (sum / np_power jet_pt kappa)]) <$> d !! key)
  ∧ (∀ (jet : PseudoJet) (jet_pt jetR : float) (d d' : dict),
     let key := "inclusive_chjet_g_alice_R" +:+ py_str jetR in
     inclusive_chjet_g_alice self jet [] jet_pt jetR d = Ok (tt, d') →
     d' !! key = d !! key
     ∨ ∃ g, angularity_sum (constituents jet) jet jet_pt = Ok g
            ∧ d' !! key = (fun l => l ++ [Scalar g]) <$> d !! key)
  ∧ (∀ (jet : PseudoJet) (jet_pt jetR : float) (d d' : dict),
     let key := "inclusive_chjet_ptd_alice_R" +:+ py_str jetR in
     let sum :=
       fold_left (fun sum constituent => sum + np_power (pt constituent) 2)
                 (constituents jet) 0 in
     inclusive_chjet_ptd_alice self jet [] jet_pt jetR d = Ok (tt, d') →
     d' !! key = d !! key
     ∨ d' !! key = (fun l => l ++ [Scalar (sqrt sum / jet_pt)]) <$> d !! key)
  ∧ (∀ (jet : PseudoJet) (jet_pt jetR : float) (d d' : dict),
     m PseudoJet0 = 0 →
     let key := "inclusive_chjet_mass_alice_R" +:+ py_str jetR in
     inclusive_chjet_mass_alice self jet [] jet_pt jetR d = Ok (tt, d') →
     d' !! key = d !! key
     ∨ d' !! key = (fun l => l ++ [Pair jet_pt (m jet)]) <$> d !! key).
Proof.
  split; [|split; [|split; [|split]]].
  - intros AA jet jetR.
    unfold corrected_jet_pt_STAT, corrected_jet_pt_TG3,
      corrected_jet_pt_semi_inclusive, corrected_jet_pt_dijet,
      subtract_negative_recoils, sum_negative_recoils. simpl.
    rewrite float_sub_0_r. by destruct AA.
  - apply jet_charge_cms_kappa_no_holes.
  - apply inclusive_chjet_g_alice_no_holes.
  - apply inclusive_chjet_ptd_alice_no_holes.
  - apply inclusive_chjet_mass_alice_no_holes.
Qed.

(** A charged jet of 70 GeV/c and of mass 5, R = 0.4, in a Pb-Pb run
    with no hole: the mass recorded is 5. *)
Lemma no_holes_subtraction_is_identity_witness :
  let key := "inclusive_chjet_mass_alice_R0.4" in
  let d : dict := <[key := []]> (<[key +:+ "_unsubtracted" := []]> ∅) in
  let run := inclusive_chjet_mass_alice (Base := Example.base) (Fmt := Example.format)
               (Example.analysis true) Example.chjet70 [] 70 0.4 d in
  run = Ok (tt, output run d)
  ∧ output run d !! key = Some [Pair 70 5]
  ∧ (output run d !! key = d !! key
     ∨ output run d !! key = (fun l => l ++ [Pair 70 5]) <$> d !! key).
Proof.
  intros key d run.
  assert (Hrun : run = Ok (tt, output run d)).
  { apply returns_output. vm_compute. reflexivity. }
  split; [exact Hrun|]. split; [vm_compute; reflexivity|].
  exact (proj2 (proj2 (proj2 (proj2
    (no_holes_subtraction_is_identity (Base := Example.base) (NP := Example.numpy)
       (Fmt := Example.format) (Example.analysis true)))))
    Example.chjet70 70 0.4 d (output run d) eq_refl Hrun).
Defined.

(** ** The keys the analysis appends to *)

Section AngularityKey.
Context {FJ : FastJet} {Base : BaseSTAT} {NP : NumPy} {Fmt : PyFormat}.
Variable self : STAT.

(** In a run with [is_AA] set, a charged jet that passes the selection
    of the angularity is appended under a key that ends in
    [)unsubtracted]; [initialize_output_lists] binds the key that ends in
    [_unsubtracted], and on a dictionary that does not hold the first the
    block raises [KeyError]. *)
Lemma inclusive_chjet_g_alice_raises (jet : PseudoJet) (holes_in_jet : list PseudoJet)
    (jet_pt jetR : float) (centrality : yaml) (pt_min pt_max eta_cut_R : float)
    (jet_R : list float) (g g_holes : float) (d : dict) :
  is_AA self = true →
  getpath (inclusive_chjet_observables self) ["g_alice"; "centrality"] = Ok centrality →
  num_at_index (inclusive_chjet_observables self) ["g_alice"; "pt"] 0 = Ok pt_min →
  num_at_index (inclusive_chjet_observables self) ["g_alice"; "pt"] 1 = Ok pt_max →
  num_at (inclusive_chjet_observables self) ["g_alice"; "eta_cut_R"] = Ok eta_cut_R →
  nums_at (inclusive_chjet_observables self) ["g_alice"; "jet_R"] = Ok jet_R →
  centrality_accepted self centrality = true →
  (abs (eta jet) <? eta_cut_R - jetR) = true →
  in_float jetR jet_R = true →
  (pt_min <? jet_pt) = true → (jet_pt <? pt_max) = true →
  angularity_sum (constituents jet) jet jet_pt = Ok g →
  angularity_sum holes_in_jet jet jet_pt = Ok g_holes →
  d !! ("inclusive_chjet_g_alice_R" +:+ py_str jetR +:+ ")unsubtracted") = None →
  inclusive_chjet_g_alice self jet holes_in_jet jet_pt jetR d
  = Raise (KeyError ("inclusive_chjet_g_alice_R" +:+ py_str jetR +:+ ")unsubtracted")).
Proof.
  intros HAA Hc Hmin Hmax Heta HR Hacc Hcut HinR Hlo Hhi Hg Hgh Hkey.
  unfold inclusive_chjet_g_alice, bind, lift, when, append.
  rewrite Hc, Hacc, Hmin, Hmax, Heta, Hcut, HR, HinR, Hlo, Hhi. simpl.
  rewrite Hg, HAA, Hgh, Hkey. done.
Qed.

End AngularityKey.

(** C6 at a failing input: a Pb-Pb run at 2.76 TeV ([is_AA] set) on an
    event with one charged jet of 50 GeV/c and R = 0.2.
    [initialize_output_lists] binds
    [inclusive_chjet_g_alice_R0.2_unsubtracted] and not
    [inclusive_chjet_g_alice_R0.2)unsubtracted]; [analyze_event] appends
    to the second and raises [KeyError].  The same event in a pp run
    returns. *)
Theorem analyze_event_appends_to_unbound_key :
  let init :=
    initialize_output_lists (Fmt := Example.format) (Example.analysis true) ∅ in
  returns init = true
  ∧ output init ∅ !! "inclusive_chjet_g_alice_R0.2_unsubtracted" = Some []
  ∧ output init ∅ !! "inclusive_chjet_g_alice_R0.2)unsubtracted" = None
  ∧ analyze_event (Base := Example.base) (NP := Example.numpy) (Fmt := Example.format)
      (Example.analysis true) Example.event ∅
    = Raise (KeyError "inclusive_chjet_g_alice_R0.2)unsubtracted")
  ∧ returns (analyze_event (Base := Example.base) (NP := Example.numpy)
               (Fmt := Example.format) (Example.analysis false) Example.event ∅)
    = true.
Proof. repeat split; vm_compute; reflexivity. Qed.


(** ** [divide_tgraph] *)

(** A positive float is not zero. *)
Lemma float_pos_not_0 (y : float) : (0 <? y) = true → (y =? 0) = false.
Proof.
  rewrite FloatAxioms.ltb_spec, FloatAxioms.eqb_spec.
  unfold SpecFloat.SFltb, SpecFloat.SFeqb.
  rewrite (SFcompare_antisym (Prim2SF 0) (Prim2SF y)).
  destruct (SpecFloat.SFcompare (Prim2SF 0) (Prim2SF y)) as [[]|]; simpl; congruence.
Qed.

Lemma py_div_Ok (x y : float) : (y =? 0) = false → py_div x y = Ok (x / y).
Proof. unfold py_div. by intros ->. Qed.

Lemma extend_lt (l : list Point) (i : nat) : (i < length l)%nat → extend l i = l.
Proof.
  intros Hi. unfold extend.
  replace (S i - length l)%nat with 0%nat by lia. simpl. apply app_nil_r.
Qed.

Section DivideTGraphProperties.
Context {Fmt : PyFormat}.
Variable pow : float → float → result float.

(** The errors of a bin whose point has a y-value that is not 0. *)
Lemma new_errors_value (h_y h_error gy yErrLow yErrUp : float) :
  (gy =? 0) = false →
  new_errors pow h_y h_error gy yErrLow yErrUp (h_y / gy)
  = divided_errors pow h_y h_error gy yErrLow yErrUp.
Proof.
  intros Hgy. unfold new_errors, divided_errors.
  destruct (0 <? gy); simpl; [destruct (0 <? h_y) eqn:Hhy; simpl|].
  - rewrite !(py_div_Ok _ gy Hgy), !(py_div_Ok _ h_y (float_pos_not_0 _ Hhy)).
    simpl.
    destruct (pow (yErrLow / gy) 2) as [low2|]; simpl; [|done].
    destruct (pow (h_error / h_y) 2) as [hist2|]; simpl; [|done].
    by destruct (pow (yErrUp / gy) 2) as [up2|].
  - by rewrite !(py_div_Ok _ gy Hgy).
  - by rewrite !(py_div_Ok _ gy Hgy).
Qed.

(** There are errors when the squares are in range. *)
Lemma divided_errors_Ok (b : Bin) (p : Point) :
  squares_in_range pow b p →
  ∃ errors,
    divided_errors pow (bin_content b) (bin_error b) (point_y p) (eyl p) (eyh p)
    = Ok errors.
Proof.
  unfold squares_in_range, divided_errors. intros Hrange.
  destruct ((0 <? point_y p) && (0 <? bin_content b)) eqn:Hpos; [|eauto].
  specialize (Hrange eq_refl).
  destruct (Hrange (eyl p / point_y p)) as [low2 ->]; [simpl; auto|].
  destruct (Hrange (bin_error b / bin_content b)) as [hist2 ->]; [simpl; auto|].
  destruct (Hrange (eyh p / point_y p)) as [up2 ->]; [simpl; auto|].
  simpl. eauto.
Qed.

Lemma divided_point_name G_new i x y errors :
  GetName (divided_point G_new i x y errors) = GetName G_new.
Proof. done. Qed.

Lemma divided_point_length G_new i x y errors :
  (i < length (points G_new))%nat →
  length (points (divided_point G_new i x y errors)) = length (points G_new).
Proof.
  intros Hi. unfold divided_point, SetPointError, SetPoint. simpl.
  rewrite (extend_lt (points G_new) i Hi).
  rewrite extend_lt by (by rewrite length_alter).
  by rewrite !length_alter.
Qed.

Lemma divided_point_errors G_new i x y errors :
  (i < length (points G_new))%nat →
  ∃ q, points (divided_point G_new i x y errors) !! i = Some q
       ∧ point_x q = x ∧ point_y q = y
       ∧ exl q = 0 ∧ exh q = 0 ∧ eyl q = errors.1 ∧ eyh q = errors.2.
Proof.
  intros Hi. unfold divided_point, SetPointError, SetPoint. simpl.
  rewrite (extend_lt (points G_new) i Hi).
  rewrite extend_lt by (by rewrite length_alter).
  destruct (lookup_lt_is_Some_2 _ _ Hi) as [p Hp].
  rewrite !list_lookup_alter_eq, Hp. simpl. eexists. split; [done|]. done.
Qed.

Lemma divided_point_lookup_ne G_new i j x y errors :
  (i < length (points G_new))%nat → i ≠ j →
  points (divided_point G_new i x y errors) !! j = points G_new !! j.
Proof.
  intros Hi Hne. unfold divided_point, SetPointError, SetPoint. simpl.
  rewrite (extend_lt (points G_new) i Hi).
  rewrite extend_lt by (by rewrite length_alter).
  by rewrite !list_lookup_alter_ne.
Qed.

(** One bin whose center is the x of the graph and whose point has a
    y-value that is not 0: the point is divided when there are errors,
    and what [pow] raises is raised otherwise. *)
Lemma divide_bin_value (h g g_new j : nat) (σ : heap) (H : TH1) (G Gn : TGraph)
    (b : Bin) (p : Point) :
  hists σ !! h = Some H → graphs σ !! g = Some G → graphs σ !! g_new = Some Gn →
  bins H !! j = Some b → points G !! j = Some p →
  isclose (bin_center b) (point_x p) = true → (point_y p =? 0) = false →
  divide_bin pow h g g_new (S j) σ
  = match divided_errors pow (bin_content b) (bin_error b) (point_y p)
            (eyl p) (eyh p) with
    | Ok errors =>
        Ok (tt, {| hists := hists σ;
                   graphs := <[g_new := divided_point Gn j (bin_center b)
                                          (bin_content b / point_y p) errors]>
                               (graphs σ) |})
    | Raise e => Raise e
    end.
Proof.
  intros Hh Hg Hn Hb Hp Hclose Hy.
  unfold divide_bin, bind, hist, graph. rewrite Hh, Hg.
  unfold GetPoint, GetErrorYlow, GetErrorYhigh, GetBinCenter, GetBinContent,
    GetBinError, bin_of.
  replace (S j - 1)%nat with j by lia. rewrite Hp.
  rewrite (nth_lookup_Some _ _ _ _ Hb), Hclose. simpl.
  rewrite (py_div_Ok _ _ Hy). simpl. rewrite (new_errors_value _ _ _ _ _ Hy).
  destruct (divided_errors _ _ _ _ _ _) as [[el eu]|e]; simpl; [|done].
  unfold update_graph. simpl. rewrite Hn. simpl.
  rewrite lookup_insert_eq. simpl. by rewrite insert_insert_eq.
Qed.

(** One bin whose center is not the x of the graph: the exit, with its
    message. *)
Lemma divide_bin_exit (h g g_new j : nat) (σ : heap) (H : TH1) (G : TGraph) (b : Bin) :
  hists σ !! h = Some H → graphs σ !! g = Some G →
  bins H !! j = Some b →
  isclose (bin_center b) (GetPoint G j).1 = false →
  divide_bin pow h g g_new (S j) σ
  = Raise (SystemExit (ExitMsg ("ERROR: hist x: " +:+ py_str (bin_center b)
                                  +:+ ", graph x: " +:+ py_str (GetPoint G j).1))).
Proof.
  intros Hh Hg Hb Hbad.
  unfold divide_bin, bind, hist, graph. rewrite Hh, Hg.
  unfold GetBinCenter, GetBinContent, GetBinError, bin_of.
  replace (S j - 1)%nat with j by lia.
  rewrite (nth_lookup_Some _ _ _ _ Hb).
  destruct (GetPoint G j) as [gx gy]. simpl in *. by rewrite Hbad.
Qed.

(** One bin whose center is not the x of the graph, or whose point has
    the y-value 0: nothing is returned. *)
Lemma divide_bin_Raise (h g g_new j : nat) (σ : heap) (H : TH1) (G : TGraph) (b : Bin) :
  hists σ !! h = Some H → graphs σ !! g = Some G →
  bins H !! j = Some b →
  isclose (bin_center b) (GetPoint G j).1 = false
  ∨ ((GetPoint G j).2 =? 0) = true →
  ∃ e, divide_bin pow h g g_new (S j) σ = Raise e.
Proof.
  intros Hh Hg Hb Hbad.
  unfold divide_bin, bind, hist, graph. rewrite Hh, Hg.
  unfold GetBinCenter, GetBinContent, GetBinError, bin_of.
  replace (S j - 1)%nat with j by lia.
  rewrite (nth_lookup_Some _ _ _ _ Hb).
  destruct (GetPoint G j) as [gx gy]. simpl in *.
  destruct (isclose (bin_center b) gx); simpl.
  - destruct Hbad as [?|Hgy]; [done|]. unfold py_div. rewrite Hgy. simpl. eauto.
  - eauto.
Qed.

(** What one bin has done when it returns: its center is the x of a
    point of the graph, the y-value of the point is not 0, there are
    errors, and [g_new] has the divided point. *)
Lemma divide_bin_returned (h g g_new j : nat) (σ σ' : heap) (H : TH1) (G Gn : TGraph)
    (b : Bin) :
  hists σ !! h = Some H → graphs σ !! g = Some G → graphs σ !! g_new = Some Gn →
  bins H !! j = Some b →
  divide_bin pow h g g_new (S j) σ = Ok (tt, σ') →
  ∃ p errors,
    points G !! j = Some p
    ∧ isclose (bin_center b) (point_x p) = true ∧ (point_y p =? 0) = false
    ∧ divided_errors pow (bin_content b) (bin_error b) (point_y p) (eyl p) (eyh p)
      = Ok errors
    ∧ σ' = {| hists := hists σ;
              graphs := <[g_new := divided_point Gn j (bin_center b)
                                     (bin_content b / point_y p) errors]>
                          (graphs σ) |}.
Proof.
  intros Hh Hg Hn Hb Hrun.
  destruct (isclose (bin_center b) (GetPoint G j).1) eqn:Hclose.
  2:{ destruct (divide_bin_Raise h g g_new j σ H G b Hh Hg Hb (or_introl Hclose))
        as [e He]. by rewrite He in Hrun. }
  destruct ((GetPoint G j).2 =? 0) eqn:Hy.
  { destruct (divide_bin_Raise h g g_new j σ H G b Hh Hg Hb (or_intror Hy))
      as [e He]. by rewrite He in Hrun. }
  unfold GetPoint in Hclose, Hy.
  destruct (points G !! j) as [p|] eqn:Hp; [|done]. simpl in Hclose, Hy.
  rewrite (divide_bin_value h g g_new j σ H G Gn b p) in Hrun by done.
  destruct (divided_errors _ _ _ _ _ _) as [errors|e] eqn:Herrors; [|done].
  injection Hrun as <-. by exists p, errors.
Qed.

Lemma py_div_Raise (x y : float) (e : exn) :
  py_div x y = Raise e → e = ZeroDivisionError.
Proof. unfold py_div. destruct (y =? 0); congruence. Qed.

Lemma new_errors_Raise (h_y h_error gy yErrLow yErrUp new_content : float) (e : exn) :
  new_errors pow h_y h_error gy yErrLow yErrUp new_content = Raise e →
  e = ZeroDivisionError ∨ ∃ x, pow x 2 = Raise e.
Proof.
  unfold new_errors, rbind.
  destruct ((0 <? gy) && (0 <? h_y));
    repeat match goal with
           | |- context [py_div ?x ?y] =>
               let Hd := fresh "Hd" in
               destruct (py_div x y) eqn:Hd;
               [|apply py_div_Raise in Hd; subst; intros; simplify_eq; by left]
           | |- context [pow ?x 2] =>
               let Hp := fresh "Hp" in
               destruct (pow x 2) eqn:Hp;
               [|intros; simplify_eq; right; by eexists]
           end; done.
Qed.

(** What one bin raises. *)
Lemma divide_bin_kind (h g g_new j : nat) (σ : heap) (H : TH1) (G Gn : TGraph) (e : exn) :
  hists σ !! h = Some H → graphs σ !! g = Some G → graphs σ !! g_new = Some Gn →
  divide_bin pow h g g_new (S j) σ = Raise e →
  e = ZeroDivisionError ∨ (∃ msg, e = SystemExit (ExitMsg msg))
  ∨ ∃ x, pow x 2 = Raise e.
Proof.
  intros Hh Hg Hn.
  unfold divide_bin, bind, hist, graph. rewrite Hh, Hg.
  destruct (GetPoint G (S j - 1)) as [gx gy]. simpl.
  destruct (isclose _ gx); simpl; [|intros [= <-]; eauto].
  destruct (py_div _ gy) as [c|] eqn:Hc; simpl.
  2:{ intros [= <-]. left. by eapply py_div_Raise. }
  destruct (new_errors _ _ _ _ _ _ _) as [[el eu]|] eqn:He; simpl.
  2:{ intros [= <-]. destruct (new_errors_Raise _ _ _ _ _ _ _ He); auto. }
  unfold update_graph. simpl. rewrite Hn. simpl. by rewrite lookup_insert_eq.
Qed.

(** The loop over the bins [j + 1] to [j + k], when every center is the x
    of the graph, no y-value is 0 and there are errors. *)
Lemma divide_loop_value (h g g_new : nat) (H : TH1) (G : TGraph) (k : nat) :
  ∀ (j : nat) (σ : heap) (Gn : TGraph),
    hists σ !! h = Some H → graphs σ !! g = Some G → graphs σ !! g_new = Some Gn →
    g ≠ g_new →
    (j + k ≤ length (bins H))%nat → (j + k ≤ length (points G))%nat →
    length (points Gn) = length (points G) →
    (∀ i b p, (j ≤ i < j + k)%nat → bins H !! i = Some b → points G !! i = Some p →
       isclose (bin_center b) (point_x p) = true ∧ (point_y p =? 0) = false
       ∧ ∃ errors, divided_errors pow (bin_content b) (bin_error b) (point_y p)
                     (eyl p) (eyh p) = Ok errors) →
    ∃ Gn',
      for_each (seq (S j) k) (divide_bin pow h g g_new) σ
      = Ok (tt, {| hists := hists σ; graphs := <[g_new := Gn']> (graphs σ) |})
      ∧ GetName Gn' = GetName Gn
      ∧ length (points Gn') = length (points Gn)
      ∧ (∀ i b p, (j ≤ i < j + k)%nat → bins H !! i = Some b → points G !! i = Some p →
           ∃ q, points Gn' !! i = Some q
                ∧ point_x q = bin_center b
                ∧ point_y q = bin_content b / point_y p
                ∧ exl q = 0 ∧ exh q = 0
                ∧ Ok (eyl q, eyh q)
                  = divided_errors pow (bin_content b) (bin_error b) (point_y p)
                      (eyl p) (eyh p))
      ∧ (∀ i, ¬ (j ≤ i < j + k)%nat → points Gn' !! i = points Gn !! i).
Proof.
  induction k as [|k IH]; intros j σ Gn Hh Hg Hn Hne Hjk Hjk' HlenN Hgood.
  - exists Gn. simpl. unfold ret. split.
    { destruct σ as [hs gs]. simpl in *. by rewrite (insert_id gs g_new Gn). }
    split; [done|]. split; [done|]. split; [intros; lia|done].
  - destruct (lookup_lt_is_Some_2 (bins H) j) as [b Hb]; [lia|].
    destruct (lookup_lt_is_Some_2 (points G) j) as [p Hp]; [lia|].
    destruct (Hgood j b p ltac:(lia) Hb Hp) as (Hclose & Hy & errors & Herrors).
    pose proof (divide_bin_value h g g_new j σ H G Gn b p Hh Hg Hn Hb Hp Hclose Hy)
      as Hbin.
    rewrite Herrors in Hbin.
    set (Gn1 := divided_point Gn j (bin_center b) (bin_content b / point_y p) errors)
      in *.
    set (σ1 := {| hists := hists σ; graphs := <[g_new := Gn1]> (graphs σ) |}) in *.
    assert (Hj : (j < length (points Gn))%nat) by lia.
    pose proof (divided_point_length Gn j (bin_center b)
                  (bin_content b / point_y p) errors Hj) as HlenN1.
    fold Gn1 in HlenN1.
    destruct (IH (S j) σ1 Gn1) as (Gn' & Hloop & Hname & Hlen' & Hdiv & Hrest).
    { done. }
    { simpl. by rewrite lookup_insert_ne. }
    { simpl. by rewrite lookup_insert_eq. }
    { done. }
    { lia. }
    { lia. }
    { lia. }
    { intros i b' p' Hi. apply Hgood. lia. }
    exists Gn'. split.
    { change (seq (S j) (S k)) with (S j :: seq (S (S j)) k). simpl.
      unfold bind at 1. rewrite Hbin, Hloop. simpl. by rewrite insert_insert_eq. }
    split; [by rewrite Hname|]. split; [lia|]. split.
    + intros i b' p' Hi Hb' Hp'.
      destruct (decide (i = j)) as [->|Hij].
      * rewrite Hrest by lia.
        assert (b' = b) as -> by congruence. assert (p' = p) as -> by congruence.
        destruct (divided_point_errors Gn j (bin_center b)
                    (bin_content b / point_y p) errors Hj)
          as (q & Hq & Hx & Hy' & Hxl & Hxh & Hyl & Hyh).
        exists q. fold Gn1 in Hq. rewrite Hyl, Hyh, Herrors.
        rewrite <- surjective_pairing. done.
      * apply Hdiv; [lia|done..].
    + intros i Hi. rewrite Hrest by lia.
      apply divided_point_lookup_ne; lia.
Qed.

(** The loop, when it returns: every bin had its point. *)
Lemma divide_loop_returned (h g g_new : nat) (H : TH1) (G : TGraph) (k : nat) :
  ∀ (j : nat) (σ σ' : heap) (Gn : TGraph),
    hists σ !! h = Some H → graphs σ !! g = Some G → graphs σ !! g_new = Some Gn →
    g ≠ g_new → (j + k ≤ length (bins H))%nat →
    for_each (seq (S j) k) (divide_bin pow h g g_new) σ = Ok (tt, σ') →
    ∀ i b, (j ≤ i < j + k)%nat → bins H !! i = Some b →
      ∃ p errors,
        points G !! i = Some p
        ∧ isclose (bin_center b) (point_x p) = true ∧ (point_y p =? 0) = false
        ∧ divided_errors pow (bin_content b) (bin_error b) (point_y p)
            (eyl p) (eyh p) = Ok errors.
Proof.
  induction k as [|k IH]; intros j σ σ' Gn Hh Hg Hn Hne Hjk Hrun i b Hi Hb; [lia|].
  change (seq (S j) (S k)) with (S j :: seq (S (S j)) k) in Hrun. simpl in Hrun.
  unfold bind at 1 in Hrun.
  destruct (divide_bin pow h g g_new (S j) σ) as [[[] σ1]|e] eqn:Hbin; [|done].
  destruct (lookup_lt_is_Some_2 (bins H) j) as [bj Hbj]; [lia|].
  destruct (divide_bin_returned h g g_new j σ σ1 H G Gn bj Hh Hg Hn Hbj Hbin)
    as (p & errors & Hp & Hclose & Hy & Herrors & ->).
  destruct (decide (i = j)) as [->|Hij].
  - assert (b = bj) as -> by congruence. by exists p, errors.
  - eapply (IH (S j) _ σ'); [..|exact Hrun| |exact Hb]; simpl; try done.
    + by rewrite lookup_insert_ne.
    + by rewrite lookup_insert_eq.
    + lia.
    + lia.
Qed.

(** What the loop raises. *)
Lemma divide_loop_kind (h g g_new : nat) (H : TH1) (G : TGraph) (k : nat) :
  ∀ (j : nat) (σ : heap) (Gn : TGraph) (e : exn),
    hists σ !! h = Some H → graphs σ !! g = Some G → graphs σ !! g_new = Some Gn →
    g ≠ g_new → (j + k ≤ length (bins H))%nat →
    for_each (seq (S j) k) (divide_bin pow h g g_new) σ = Raise e →
    e = ZeroDivisionError ∨ (∃ msg, e = SystemExit (ExitMsg msg))
    ∨ ∃ x, pow x 2 = Raise e.
Proof.
  induction k as [|k IH]; intros j σ Gn e Hh Hg Hn Hne Hjk Hrun; [done|].
  change (seq (S j) (S k)) with (S j :: seq (S (S j)) k) in Hrun. simpl in Hrun.
  unfold bind at 1 in Hrun.
  destruct (divide_bin pow h g g_new (S j) σ) as [[[] σ1]|e1] eqn:Hbin.
  - destruct (lookup_lt_is_Some_2 (bins H) j) as [bj Hbj]; [lia|].
    destruct (divide_bin_returned h g g_new j σ σ1 H G Gn bj Hh Hg Hn Hbj Hbin)
      as (p & errors & Hp & Hclose & Hy & Herrors & ->).
    eapply (IH (S j)); [..|exact Hrun]; simpl; try done.
    + by rewrite lookup_insert_ne.
    + by rewrite lookup_insert_eq.
    + lia.
  - injection Hrun as <-.
    exact (divide_bin_kind h g g_new j σ H G Gn e1 Hh Hg Hn Hbin).
Qed.

(** The loop, when some bin has no point to be divided by: the x of the
    graph is not the center of the bin, or the y-value is 0. *)
Lemma divide_loop_bad (h g g_new : nat) (H : TH1) (G : TGraph) (k : nat)
    (j : nat) (σ : heap) (Gn : TGraph) :
  hists σ !! h = Some H → graphs σ !! g = Some G → graphs σ !! g_new = Some Gn →
  g ≠ g_new → (j + k ≤ length (bins H))%nat →
  (∃ i b, (j ≤ i < j + k)%nat ∧ bins H !! i = Some b
          ∧ (isclose (bin_center b) (GetPoint G i).1 = false
             ∨ ((GetPoint G i).2 =? 0) = true)) →
  ∃ e, for_each (seq (S j) k) (divide_bin pow h g g_new) σ = Raise e
       ∧ (e = ZeroDivisionError ∨ (∃ msg, e = SystemExit (ExitMsg msg))
          ∨ ∃ x, pow x 2 = Raise e).
Proof.
  intros Hh Hg Hn Hne Hjk (i & b & Hi & Hb & Hbad).
  destruct (for_each (seq (S j) k) (divide_bin pow h g g_new) σ)
    as [[[] σ']|e] eqn:Hrun.
  - exfalso.
    destruct (divide_loop_returned h g g_new H G k j σ σ' Gn Hh Hg Hn Hne Hjk Hrun
                i b Hi Hb) as (p & errors & Hp & Hclose & Hy & _).
    unfold GetPoint in Hbad. rewrite Hp in Hbad. simpl in Hbad.
    destruct Hbad; congruence.
  - exists e. split; [done|].
    exact (divide_loop_kind h g g_new H G k j σ Gn e Hh Hg Hn Hne Hjk Hrun).
Qed.

(** The loop, when the bins before the bin [i + 1] divide and the center
    of the bin [i + 1] is not the x of the graph: the exit of that bin. *)
Lemma divide_loop_exit (h g g_new : nat) (H : TH1) (G : TGraph) (i : nat) (b : Bin)
    (k : nat) :
  ∀ (j : nat) (σ : heap) (Gn : TGraph),
    hists σ !! h = Some H → graphs σ !! g = Some G → graphs σ !! g_new = Some Gn →
    g ≠ g_new →
    (j ≤ i < j + k)%nat → bins H !! i = Some b →
    isclose (bin_center b) (GetPoint G i).1 = false →
    (∀ i' b', (j ≤ i' < i)%nat → bins H !! i' = Some b' →
       ∃ p' errors,
         points G !! i' = Some p'
         ∧ isclose (bin_center b') (point_x p') = true ∧ (point_y p' =? 0) = false
         ∧ divided_errors pow (bin_content b') (bin_error b') (point_y p')
             (eyl p') (eyh p') = Ok errors) →
    for_each (seq (S j) k) (divide_bin pow h g g_new) σ
    = Raise (SystemExit (ExitMsg ("ERROR: hist x: " +:+ py_str (bin_center b)
                                    +:+ ", graph x: " +:+ py_str (GetPoint G i).1))).
Proof.
  induction k as [|k IH]; intros j σ Gn Hh Hg Hn Hne Hi Hb Hbad Hbefore; [lia|].
  change (seq (S j) (S k)) with (S j :: seq (S (S j)) k). simpl. unfold bind at 1.
  destruct (decide (j = i)) as [->|Hji].
  - by rewrite (divide_bin_exit h g g_new i σ H G b Hh Hg Hb Hbad).
  - destruct (lookup_lt_is_Some_2 (bins H) j) as [bj Hbj].
    { apply lookup_lt_Some in Hb. lia. }
    destruct (Hbefore j bj ltac:(lia) Hbj) as (p & errors & Hp & Hclose & Hy & Herrors).
    rewrite (divide_bin_value h g g_new j σ H G Gn bj p Hh Hg Hn Hbj Hp Hclose Hy),
      Herrors.
    eapply (IH (S j)); simpl; try done.
    + by rewrite lookup_insert_ne.
    + by rewrite lookup_insert_eq.
    + lia.
    + intros i' b' Hi'. apply Hbefore. lia.
Qed.

(** [divide_tgraph] is the loop over the bins, on the objects with the
    clone of the graph added. *)
Lemma divide_tgraph_start (σ : heap) (h g : nat) (H : TH1) (G : TGraph) :
  hists σ !! h = Some H → graphs σ !! g = Some G →
  let g_new := fresh (dom (graphs σ)) in
  let σ0 := {| hists := hists σ;
               graphs := <[g_new := Clone G (GetName G +:+ "_divided")]> (graphs σ) |} in
  graphs σ !! g_new = None ∧ g ≠ g_new
  ∧ hists σ0 !! h = Some H ∧ graphs σ0 !! g = Some G
  ∧ graphs σ0 !! g_new = Some (Clone G (GetName G +:+ "_divided"))
  ∧ divide_tgraph pow h g σ
    = match for_each (seq 1 (length (bins H))) (divide_bin pow h g g_new) σ0 with
      | Ok (_, σ') => Ok (g_new, σ')
      | Raise e => Raise e
      end.
Proof.
  intros Hh Hg g_new σ0.
  assert (Hfresh : graphs σ !! g_new = None).
  { apply not_elem_of_dom, is_fresh. }
  assert (Hne : g ≠ g_new) by congruence.
  split; [done|]. split; [done|]. split; [done|].
  split; [simpl; by rewrite lookup_insert_ne|].
  split; [simpl; by rewrite lookup_insert_eq|].
  unfold divide_tgraph, bind, graph, new_graph, hist. rewrite Hg. simpl.
  rewrite Hh. fold g_new σ0. unfold GetNbinsX.
  by destruct (for_each _ _ σ0) as [[[] σ']|e].
Qed.

End DivideTGraphProperties.

(** C10.  [h] and [g] are references to a histogram [H] and to a graph
    [G].  When [G] has at least as many points as [H] has bins, the x of
    each of these points is close to the center of the bin, its y-value
    is not 0 and the squares that its errors take are in range,
    [divide_tgraph] returns a reference [g_new] to a new object: the
    objects that existed are as they were ([h] and [g] among them), and
    the point [i] of the new graph has the center of the bin [i + 1] for
    x and the content of the bin divided by the y-value of the point [i]
    of [G] for y; the points past the last bin are those of [G].  When
    the center of some bin is not close to the x of the graph, nothing is
    returned: the run ends on [sys.exit] with a message, on the division
    by a y-value 0 of an earlier bin, or on what [pow] raises at an
    earlier bin.  It is [sys.exit] with the centers of that bin and of
    the graph in the message when the bins before divide. *)
Theorem divide_tgraph_divides_point_by_point {Fmt : PyFormat}
    (pow : float → float → result float) (σ : heap) (h g : nat) (H : TH1)
    (G : TGraph) :
  hists σ !! h = Some H → graphs σ !! g = Some G →
  ((length (bins H) ≤ length (points G))%nat →
   (∀ i b p, bins H !! i = Some b → points G !! i = Some p →
             isclose (bin_center b) (point_x p) = true ∧ (point_y p =? 0) = false) →
   (∀ i b p, bins H !! i = Some b → points G !! i = Some p →
             squares_in_range pow b p) →
   ∃ g_new G_new,
     divide_tgraph pow h g σ
     = Ok (g_new, {| hists := hists σ; graphs := <[g_new := G_new]> (graphs σ) |})
     ∧ graphs σ !! g_new = None
     ∧ GetName G_new = GetName G +:+ "_divided"
     ∧ length (points G_new) = length (points G)
     ∧ (∀ i b p, bins H !! i = Some b → points G !! i = Some p →
          ∃ q, points G_new !! i = Some q ∧ point_x q = bin_center b
               ∧ point_y q = bin_content b / point_y p)
     ∧ (∀ i, (length (bins H) ≤ i)%nat → points G_new !! i = points G !! i))
  ∧ ((∃ i b, bins H !! i = Some b
             ∧ isclose (bin_center b) (GetPoint G i).1 = false) →
     ∃ e, divide_tgraph pow h g σ = Raise e
          ∧ (e = ZeroDivisionError ∨ (∃ msg, e = SystemExit (ExitMsg msg))
             ∨ ∃ x, pow x 2 = Raise e))
  ∧ (∀ i b, bins H !! i = Some b →
       isclose (bin_center b) (GetPoint G i).1 = false →
       (∀ i' b' p', (i' < i)%nat → bins H !! i' = Some b' → points G !! i' = Some p' →
          isclose (bin_center b') (point_x p') = true ∧ (point_y p' =? 0) = false
          ∧ squares_in_range pow b' p') →
       (i ≤ length (points G))%nat →
       divide_tgraph pow h g σ
       = Raise (SystemExit (ExitMsg ("ERROR: hist x: " +:+ py_str (bin_center b)
                                       +:+ ", graph x: "
                                       +:+ py_str (GetPoint G i).1)))).
Proof.
  intros Hh Hg.
  destruct (divide_tgraph_start pow σ h g H G Hh Hg)
    as (Hfresh & Hne & Hh0 & Hg0 & Hn0 & Hstart).
  set (g_new := fresh (dom (graphs σ))) in *.
  split; [|split].
  - intros Hlen Hgood Hrange.
    destruct (divide_loop_value pow h g g_new H G (length (bins H)) 0 _ _ Hh0 Hg0 Hn0)
      as (Gn' & Hloop & Hname & Hlen' & Hdiv & Hrest); try done.
    { intros i b p _ Hb Hp. destruct (Hgood i b p Hb Hp) as [Hclose Hy].
      split; [done|]. split; [done|]. by apply divided_errors_Ok, (Hrange i). }
    exists g_new, Gn'. rewrite Hstart, Hloop. simpl.
    rewrite insert_insert_eq. split; [done|]. split; [done|].
    split; [done|]. split; [done|]. split.
    + intros i b p Hb Hp.
      destruct (Hdiv i b p) as (q & Hq & Hx & Hy & _); [|done..|by exists q].
      apply lookup_lt_Some in Hb. lia.
    + intros i Hi. rewrite Hrest by lia. done.
  - intros (i & b & Hb & Hbad).
    destruct (divide_loop_bad pow h g g_new H G (length (bins H)) 0 _ _ Hh0 Hg0 Hn0)
      as (e & Hloop & Hkind); try done.
    { exists i, b. split; [|auto]. apply lookup_lt_Some in Hb. lia. }
    exists e. by rewrite Hstart, Hloop.
  - intros i b Hb Hbad Hbefore Hi.
    rewrite Hstart.
    rewrite (divide_loop_exit pow h g g_new H G i b (length (bins H)) 0 _ _
               Hh0 Hg0 Hn0 Hne); [done| |done..|].
    { apply lookup_lt_Some in Hb. lia. }
    intros i' b' Hi' Hb'.
    destruct (lookup_lt_is_Some_2 (points G) i') as [p' Hp']; [lia|].
    destruct (Hbefore i' b' p' ltac:(lia) Hb' Hp') as (Hclose & Hy & Hrange).
    destruct (divided_errors_Ok pow b' p' Hrange) as [errors Herrors].
    by exists p', errors.
Qed.

(** The bins 6 and 8 divided by the points 2 and 4; and the same bins
    with a graph whose second point is at 2, not at the center 3 of the
    second bin. *)
Lemma divide_tgraph_divides_point_by_point_witness :
  (∃ g_new G_new,
     divide_tgraph (Fmt := Example.format) Example.py_pow 0 0 Example.objects
     = Ok (g_new, {| hists := hists Example.objects;
                     graphs := <[g_new := G_new]> (graphs Example.objects) |})
     ∧ graphs Example.objects !! g_new = None
     ∧ GetName G_new = "data_divided"
     ∧ length (points G_new) = 2%nat
     ∧ (∀ i b p, bins Example.hist2 !! i = Some b →
                 points Example.graph2 !! i = Some p →
          ∃ q, points G_new !! i = Some q ∧ point_x q = bin_center b
               ∧ point_y q = bin_content b / point_y p)
     ∧ (∀ i, (2 ≤ i)%nat → points G_new !! i = points Example.graph2 !! i))
  ∧ (∃ e, divide_tgraph (Fmt := Example.format) Example.py_pow 0 0
            Instances.objects_shifted = Raise e
          ∧ (e = ZeroDivisionError ∨ (∃ msg, e = SystemExit (ExitMsg msg))
             ∨ ∃ x, Example.py_pow x 2 = Raise e))
  ∧ divide_tgraph (Fmt := Example.format) Example.py_pow 0 0 Instances.objects_shifted
    = Raise (SystemExit (ExitMsg "ERROR: hist x: 3.0, graph x: 2.0")).
Proof.
  split; [|split].
  - apply (proj1 (divide_tgraph_divides_point_by_point (Fmt := Example.format)
                    Example.py_pow Example.objects 0 0 Example.hist2 Example.graph2
                    eq_refl eq_refl)).
    + simpl. lia.
    + intros i b p Hb Hp.
      destruct i as [|[|i]]; simpl in Hb, Hp; simplify_eq; split; reflexivity.
    + intros i b p Hb Hp.
      destruct i as [|[|i]]; simpl in Hb, Hp; simplify_eq;
        intros _ x Hx; simpl in Hx;
        destruct Hx as [<-|[<-|[<-|[]]]]; vm_compute; eexists; reflexivity.
  - apply (proj1 (proj2 (divide_tgraph_divides_point_by_point (Fmt := Example.format)
                           Example.py_pow Instances.objects_shifted 0 0 Example.hist2
                           Instances.graph_shifted eq_refl eq_refl))).
    exists 1%nat, {| bin_center := 3; bin_content := 8; bin_error := 2 |}.
    split; [reflexivity|]. vm_compute. reflexivity.
  - apply (proj2 (proj2 (divide_tgraph_divides_point_by_point (Fmt := Example.format)
                           Example.py_pow Instances.objects_shifted 0 0 Example.hist2
                           Instances.graph_shifted eq_refl eq_refl))
             1%nat {| bin_center := 3; bin_content := 8; bin_error := 2 |} eq_refl).
    + vm_compute. reflexivity.
    + intros i' b' p' Hi' Hb' Hp'.
      destruct i' as [|i']; [|lia]. simpl in Hb', Hp'. simplify_eq.
      split; [reflexivity|]. split; [reflexivity|].
      intros _ x Hx; simpl in Hx;
        destruct Hx as [<-|[<-|[<-|[]]]]; vm_compute; eexists; reflexivity.
    + simpl. lia.
Defined.

(** C10, as it is stated, fails when a square is out of range.  The
    histogram has one bin with the content 1, the graph has one point at
    the center of the bin with the y-value 1e-200 and the error 1: the
    graph has a point for every bin, the x-coordinates are the centers
    and no y-value is 0, and [divide_tgraph] returns no graph: [pow]
    raises an [OverflowError] at the square of 1e200. *)
Lemma divide_tgraph_raises_when_a_square_overflows :
  (length (bins Instances.hist_one) ≤ length (points Instances.graph_tiny))%nat
  ∧ (∀ i b p, bins Instances.hist_one !! i = Some b →
              points Instances.graph_tiny !! i = Some p →
       isclose (bin_center b) (point_x p) = true ∧ (point_y p =? 0) = false)
  ∧ Example.py_pow (1 / 1e-200) 2 = Raise OverflowError
  ∧ divide_tgraph (Fmt := Example.format) Example.py_pow 0 0 Instances.objects_tiny
    = Raise OverflowError.
Proof.
  split; [simpl; lia|]. split.
  - intros i b p Hb Hp.
    destruct i as [|i]; simpl in Hb, Hp; simplify_eq. split; reflexivity.
  - split; vm_compute; reflexivity.
Qed.

(** * More properties

    Of the code above and of the rest of the three files: the TG3
    analysis, the configuration and the binning of the plots. *)

(** ** The order of floats *)

Lemma SFltb_trans (x y z : SpecFloat.spec_float) :
  SpecFloat.SFltb x y = true → SpecFloat.SFltb y z = true → SpecFloat.SFltb x z = true.
Proof.
  unfold SpecFloat.SFltb.
  destruct x as [sx|sx| |sx mx ex], y as [sy|sy| |sy my ey], z as [sz|sz| |sz mz ez];
    simpl; try discriminate;
    try (destruct sx; simpl; try discriminate);
    try (destruct sy; simpl; try discriminate);
    try (destruct sz; simpl; try discriminate);
    try reflexivity.
  - rewrite !Pos.compare_cont_spec. unfold Pos.switch_Eq.
    destruct (Z.compare_spec ex ey), (Z.compare_spec ey ez), (Z.compare_spec ex ez);
      simpl; try discriminate; try reflexivity; try lia;
      destruct (Pos.compare_spec mx my), (Pos.compare_spec my mz),
        (Pos.compare_spec mx mz); simpl; try discriminate; try reflexivity; lia.
  - rewrite !Pos.compare_cont_spec. unfold Pos.switch_Eq.
    destruct (Z.compare_spec ex ey), (Z.compare_spec ey ez), (Z.compare_spec ex ez);
      simpl; try discriminate; try reflexivity; try lia;
      destruct (Pos.compare_spec mx my), (Pos.compare_spec my mz),
        (Pos.compare_spec mx mz); simpl; try discriminate; try reflexivity; lia.
Qed.

Lemma float_ltb_trans (a b c : float) :
  (a <? b) = true → (b <? c) = true → (a <? c) = true.
Proof. rewrite !ltb_spec. apply SFltb_trans. Qed.

Lemma float_ltb_asym (a b : float) : (a <? b) = true → (b <? a) = false.
Proof.
  rewrite !ltb_spec. unfold SpecFloat.SFltb.
  rewrite (SFcompare_antisym (Prim2SF a) (Prim2SF b)).
  destruct (SpecFloat.SFcompare (Prim2SF a) (Prim2SF b)) as [[]|]; simpl; congruence.
Qed.

Lemma float_ltb_irrefl (a : float) : (a <? a) = false.
Proof.
  destruct (a <? a) eqn:Ha; [|done]. by rewrite (float_ltb_asym a a Ha) in Ha.
Qed.

(** [x == y] on a [y] that is not 0: the two floats are the same. *)
Lemma float_eqb_eq (x y : float) :
  (x =? y) = true → (y =? 0) = false → x = y.
Proof.
  rewrite !FloatAxioms.eqb_spec. intros Hxy Hy. apply Prim2SF_inj.
  change (Prim2SF 0) with (SpecFloat.S754_zero false) in Hy.
  unfold SpecFloat.SFeqb in *.
  destruct (Prim2SF x) as [sx|sx| |sx mx ex], (Prim2SF y) as [sy|sy| |sy my ey];
    simpl in *; try discriminate;
    try (destruct sx; discriminate); try (destruct sy; discriminate);
    try (destruct sx, sy; simpl in *; try discriminate; reflexivity).
  destruct sx, sy; simpl in *; try discriminate;
    destruct (Z.compare_spec ex ey); try discriminate; subst;
    destruct (Pos.compare_cont Eq mx my) eqn:Hm; try discriminate;
    apply Pcompare_Eq_eq in Hm; subst; reflexivity.
Qed.

(** ** The leading jet *)

Section LeadingJetMaximal.
Context {FJ : FastJet}.

Lemma leading_jet_step_leads (negs : list PseudoJet) (jetR : float)
    (seen : list PseudoJet) (st : option PseudoJet * float * nat) (i : nat)
    (jet : PseudoJet) :
  (seen = [] ∧ st.1.1 = None) ∨ leads negs jetR seen st →
  leads negs jetR (seen ++ [jet]) (leading_jet_step negs jetR st (i, jet)).
Proof.
  intros Hst. destruct st as [[l p] i0]. unfold leading_jet_step.
  set (q := subtract_negative_recoils jet negs jetR).
  assert (Hnew : ∀ seen',
            (∀ j, In j seen' → (q <? subtract_negative_recoils j negs jetR) = false) →
            leads negs jetR (seen' ++ [jet]) (Some jet, q, i)).
  { intros seen' Hseen. exists jet. simpl. split; [done|]. split; [done|].
    split; [apply in_or_app; right; by left|].
    intros j [Hj|[<-|[]]]%in_app_or; [by apply Hseen|apply float_ltb_irrefl]. }
  destruct Hst as [[-> Hl]|(jet0 & Hl & Hp & Hin & Hmax)]; simpl in *; subst l.
  - destruct (q <? q); apply (Hnew []); by intros j [].
  - subst p. destruct (_ <? q) eqn:Hq.
    + apply Hnew. intros j Hj.
      destruct (q <? subtract_negative_recoils j negs jetR) eqn:Hj'; [|done].
      pose proof (Hmax j Hj) as Hc. by rewrite (float_ltb_trans _ _ _ Hq Hj') in Hc.
    + exists jet0. simpl. split; [done|]. split; [done|].
      split; [apply in_or_app; by left|].
      intros j [Hj|[<-|[]]]%in_app_or; [by apply Hmax|done].
Qed.

Lemma leading_jet_loop_leads (negs : list PseudoJet) (jetR : float)
    (jets : list PseudoJet) :
  ∀ (n : nat) (seen : list PseudoJet) (st : option PseudoJet * float * nat),
    jets ≠ [] →
    (seen = [] ∧ st.1.1 = None) ∨ leads negs jetR seen st →
    leads negs jetR (seen ++ jets)
      (fold_left (leading_jet_step negs jetR) (combine (seq n (length jets)) jets) st).
Proof.
  induction jets as [|jet jets IH]; intros n seen st Hne Hst; [done|].
  simpl. pose proof (leading_jet_step_leads negs jetR seen st n jet Hst) as Hstep.
  destruct jets as [|jet' jets].
  - simpl. done.
  - replace (seen ++ jet :: jet' :: jets) with ((seen ++ [jet]) ++ jet' :: jets)
      by (by rewrite <- app_assoc).
    apply IH; [done|by right].
Qed.

Lemma leading_jet_TG3_loop (jets : list PseudoJet) :
  ∀ (seen : list PseudoJet) (st : option PseudoJet),
    jets ≠ [] →
    (seen = [] ∧ st = None)
    ∨ (∃ jet, st = Some jet ∧ In jet seen
              ∧ ∀ j, In j seen → (pt jet <? pt j) = false) →
    ∃ jet,
      fold_left
        (fun leading_jet jet =>
           let leading_jet :=
             match leading_jet with None => Some jet | Some _ => leading_jet end in
           match leading_jet with
           | Some l => if pt l <? pt jet then Some jet else leading_jet
           | None => leading_jet
           end)
        jets st = Some jet
      ∧ In jet (seen ++ jets)
      ∧ ∀ j, In j (seen ++ jets) → (pt jet <? pt j) = false.
Proof.
  induction jets as [|x jets IH]; intros seen st Hne Hst; [done|].
  simpl.
  set (st' := match match st with None => Some x | Some _ => st end with
              | Some l => if pt l <? pt x then Some x
                          else match st with None => Some x | Some _ => st end
              | None => match st with None => Some x | Some _ => st end
              end).
  assert (Hst' : ∃ jet, st' = Some jet ∧ In jet (seen ++ [x])
                        ∧ ∀ j, In j (seen ++ [x]) → (pt jet <? pt j) = false).
  { subst st'. destruct Hst as [[-> ->]|(jet0 & -> & Hin & Hmax)]; simpl.
    - exists x. split; [by destruct (pt x <? pt x)|]. split; [by left|].
      intros j [<-|[]]. apply float_ltb_irrefl.
    - destruct (pt jet0 <? pt x) eqn:Hx.
      + exists x. split; [done|]. split; [apply in_or_app; right; by left|].
        intros j [Hj|[<-|[]]]%in_app_or; [|apply float_ltb_irrefl].
        destruct (pt x <? pt j) eqn:Hj'; [|done].
        pose proof (Hmax j Hj) as Hc. by rewrite (float_ltb_trans _ _ _ Hx Hj') in Hc.
      + exists jet0. split; [done|]. split; [apply in_or_app; by left|].
        intros j [Hj|[<-|[]]]%in_app_or; [by apply Hmax|done]. }
  destruct jets as [|x' jets].
  - simpl. done.
  - replace (seen ++ x :: x' :: jets) with ((seen ++ [x]) ++ x' :: jets)
      by (by rewrite <- app_assoc).
    apply IH; [done|by right].
Qed.

End LeadingJetMaximal.

(** X1.  Of a list of jets that is not empty, [leading_jet] returns a jet
    of the list with its pt corrected for the holes, and no jet of the
    list has a larger corrected pt; the [leading_jet] of the TG3 analysis
    returns a jet of the list that no jet exceeds in pt. *)
Theorem leading_jet_has_largest_pt {FJ : FastJet}
    (jets negs : list PseudoJet) (jetR : float) :
  jets ≠ [] →
  (∃ jet i,
     leading_jet jets negs jetR
     = (Some jet, subtract_negative_recoils jet negs jetR, i)
     ∧ In jet jets
     ∧ ∀ j, In j jets →
         (subtract_negative_recoils jet negs jetR
            <? subtract_negative_recoils j negs jetR) = false)
  ∧ (∃ jet, leading_jet_TG3 jets = Some jet ∧ In jet jets
            ∧ ∀ j, In j jets → (pt jet <? pt j) = false).
Proof.
  intros Hne. split.
  - destruct (leading_jet_loop_leads negs jetR jets 0 [] (None, 0, 0%nat) Hne)
      as (jet & Hl & Hp & Hin & Hmax); [by left|].
    unfold leading_jet, enumerate.
    destruct (fold_left _ _ _) as [[l p] i]. simpl in *. subst.
    exists jet, i. done.
  - destruct (leading_jet_TG3_loop jets [] None Hne) as (jet & Hl & Hin & Hmax);
      [by left|].
    exists jet. done.
Qed.

Lemma leading_jet_has_largest_pt_witness :
  ∃ jet i,
    leading_jet (FJ := Example.fastjet) [Example.jet50; Example.jet100] [] 0.4
    = (Some jet, subtract_negative_recoils (FJ := Example.fastjet) jet [] 0.4, i)
    ∧ In jet [Example.jet50; Example.jet100].
Proof.
  destruct (leading_jet_has_largest_pt (FJ := Example.fastjet)
              [Example.jet50; Example.jet100] [] 0.4) as [(jet & i & Hl & Hin & _) _].
  - discriminate.
  - exists jet, i. split; [exact Hl|exact Hin].
Defined.

(** ** The two leading jets *)

(** X2.  In [fill_dijet_observables], [del jet_candidates[i_leading_jet]]
    never raises: the index is in range.  It removes the last candidate,
    whichever candidate leads. *)
Theorem dijet_deletes_the_last_candidate {FJ : FastJet}
    (jet_candidates fj_hadrons_negative : list PseudoJet) (jetR : float) :
  jet_candidates ≠ [] →
  py_del jet_candidates (leading_jet jet_candidates fj_hadrons_negative jetR).2
  = Ok (removelast jet_candidates).
Proof.
  intros Hne. rewrite leading_jet_returns_last_index by done.
  unfold py_del.
  assert (Hlen : (0 < length jet_candidates)%nat).
  { destruct jet_candidates; [done|simpl; lia]. }
  destruct (Nat.ltb_spec (length jet_candidates - 1) (length jet_candidates)); [|lia].
  rewrite removelast_firstn_len.
  replace (S (length jet_candidates - 1)) with (length jet_candidates) by lia.
  rewrite skipn_all, app_nil_r. f_equal. f_equal. lia.
Qed.

Lemma dijet_deletes_the_last_candidate_witness :
  py_del [Example.jet100; Example.jet50]
    (leading_jet (FJ := Example.fastjet) [Example.jet100; Example.jet50] [] 0.4).2
  = Ok [Example.jet100].
Proof.
  apply (dijet_deletes_the_last_candidate (FJ := Example.fastjet)
           [Example.jet100; Example.jet50] [] 0.4).
  discriminate.
Defined.

(** ** The radii of the semi-inclusive observables *)

Lemma bind_raises {S A B} (c : St S A) (k : A → St S B) (s : S) :
  (∀ a s', ∃ e, k a s' = Raise e) → ∃ e, bind c k s = Raise e.
Proof.
  intros Hk. unfold bind. destruct (c s) as [[a s']|e]; [apply Hk|eauto].
Qed.

Lemma bind_raises_l {S A B} (c : St S A) (k : A → St S B) (s : S) :
  (∃ e, c s = Raise e) → ∃ e, bind c k s = Raise e.
Proof. intros [e He]. exists e. unfold bind. by rewrite He. Qed.

(** X3.  With semi-inclusive observables in the configuration and a
    collision energy that is neither 2760 nor 200, [jetR_list] is not
    bound when it is read: [analyze_event] raises on every event, for any
    list of jet radii that is not empty. *)
Theorem analyze_event_needs_a_known_sqrts
    {FJ : FastJet} {Base : BaseSTAT} {NP : NumPy} {Fmt : PyFormat} (self : STAT)
    (event : Event) (d : dict) :
  truthy (semi_inclusive_chjet_observables self) = true →
  (sqrts self =? 2760) = false → (sqrts self =? 200) = false →
  jet_R self ≠ [] →
  ∃ e, analyze_event self event d = Raise e.
Proof.
  intros Htruthy H2760 H200 HR. unfold analyze_event.
  apply bind_raises. intros _ d1. cbv zeta.
  apply bind_raises. intros _ d2. apply bind_raises. intros _ d3.
  apply bind_raises. intros _ d4.
  destruct (jet_R self) as [|jetR jet_R]; [done|]. cbn [for_each].
  apply bind_raises_l. unfold analyze_event_jetR. cbv zeta.
  apply bind_raises. intros _ d5. apply bind_raises. intros _ d6.
  apply bind_raises_l. rewrite Htruthy. cbn [when].
  unfold semi_inclusive_jetR_list. cbv zeta. rewrite H2760, H200.
  by exists NameError.
Qed.

(** A collision energy of 5020 and semi-inclusive observables. *)
Lemma analyze_event_needs_a_known_sqrts_witness :
  ∃ e, analyze_event (FJ := Example.fastjet) (Base := Example.base)
         (NP := Example.numpy) (Fmt := Example.format)
         Instances.analysis_5020 Example.event ∅ = Raise e.
Proof.
  apply (analyze_event_needs_a_known_sqrts (FJ := Example.fastjet)
           (Base := Example.base) (NP := Example.numpy) (Fmt := Example.format)
           Instances.analysis_5020 Example.event ∅).
  - vm_compute. reflexivity.
  - vm_compute. reflexivity.
  - vm_compute. reflexivity.
  - discriminate.
Defined.

(** ** The keys that a reset leaves alone *)

Section Outside.
Context (P : string → Prop).

Lemma Outside_ret : Outside P (ret tt).
Proof. by intros d d' k [= <-]. Qed.

Lemma Outside_set_empty (key : string) : P key → Outside P (set_empty key).
Proof.
  intros HP d d' k [= <-] Hk. apply lookup_insert_ne. by intros ->.
Qed.

Lemma Outside_then (c1 c2 : M unit) :
  Outside P c1 → Outside P c2 → Outside P (c1;; c2).
Proof.
  intros H1 H2 d d' k Hrun Hk. apply bind_Ok in Hrun as ([] & d1 & Hrun1 & Hrun2).
  rewrite (H2 _ _ _ Hrun2 Hk). by eapply H1.
Qed.

Lemma Outside_lift {A} (r : result A) (f : A → M unit) :
  (∀ a, r = Ok a → Outside P (f a)) → Outside P (bind (lift r) f).
Proof.
  intros Hf d d' k Hrun Hk. apply bind_Ok in Hrun as (a & d1 & Hlift & Hrun).
  apply lift_Ok in Hlift as [-> ->]. by eapply Hf.
Qed.

Lemma Outside_when (b : bool) (body : M unit) :
  (b = true → Outside P body) → Outside P (when b body).
Proof. destruct b; [auto|]. intros _. apply Outside_ret. Qed.

Lemma Outside_for_each {A} (l : list A) (body : A → M unit) :
  (∀ x, In x l → Outside P (body x)) → Outside P (for_each l body).
Proof.
  induction l as [|x l IH]; intros Hbody; simpl; [apply Outside_ret|].
  apply Outside_then; [apply Hbody; by left|].
  apply IH. intros y Hy. apply Hbody. by right.
Qed.

End Outside.

Section Exact.
Context {FJ : FastJet} {Base : BaseSTAT} {NP : NumPy} {Fmt : PyFormat}.
Variable self : STAT.

Lemma AA_suffix_nil suffix : AA_suffix self suffix "".
Proof. by left. Qed.

Lemma AA_suffix_AA suffix : is_AA self = true → AA_suffix self suffix suffix.
Proof. by right. Qed.

(** A key and its second list. *)
Lemma Outside_name_AA (name suffix : string) :
  (∀ s, AA_suffix self suffix s → declared_except_tg_alice self (name +:+ s)) →
  Outside (declared_except_tg_alice self)
    (set_empty name;; when (is_AA self) (set_empty (name +:+ suffix))).
Proof.
  intros Hname. apply Outside_then.
  - apply Outside_set_empty. rewrite <- (string_app_nil_r name).
    apply Hname, AA_suffix_nil.
  - apply Outside_when. intros HAA. apply Outside_set_empty.
    by apply Hname, AA_suffix_AA.
Qed.

Lemma initialize_groomed_outside prefix key dict jetR skip settings grooming_setting :
  has_key "SoftDrop" dict = Ok true →
  (let? x := getitem dict "SoftDrop" in as_list x) = Ok settings →
  In grooming_setting settings →
  (∀ zcut beta s, grooms dict zcut beta → skip zcut = false →
     AA_suffix self "_unsubtracted" s →
     declared_except_tg_alice self
       ((prefix +:+ "_" +:+ key +:+ "_R" +:+ py_str jetR
           +:+ "_zcut" +:+ py_str zcut +:+ "_beta" +:+ py_str beta) +:+ s)) →
  Outside (declared_except_tg_alice self)
    (initialize_groomed self prefix key jetR skip grooming_setting).
Proof.
  intros Hhas Hsettings Hin Hdecl. unfold initialize_groomed.
  apply Outside_lift. intros zcut Hzcut. apply Outside_lift. intros beta Hbeta.
  destruct (skip zcut) eqn:Hskip; [apply Outside_ret|].
  apply Outside_name_AA. intros s Hs. apply Hdecl; [|done..].
  by exists settings, grooming_setting.
Qed.

Ltac blocks :=
  apply Outside_lift; intros blocks Hblocks;
  apply Outside_for_each; intros [key dict] Hblock;
  apply Outside_lift; intros jet_R HjetR;
  apply Outside_for_each; intros jetR HR;
  assert (Hdeclares : declares _ key dict jetR)
    by (exists blocks, jet_R; done).

Lemma initialize_output_lists_outside :
  Outside (declared_except_tg_alice self) (initialize_output_lists self).
Proof.
  unfold initialize_output_lists.
  repeat apply Outside_then.
  - unfold initialize_hadron. apply Outside_lift. intros observables Hobs.
    apply Outside_for_each. intros observable Hin.
    rewrite <- (string_app_assoc "hadron_" observable "_holes").
    apply Outside_name_AA. intros s Hs. by eapply declared_hadron.
  - unfold initialize_hadron_correlations. apply Outside_lift. intros observables Hobs.
    apply Outside_for_each. intros observable Hin.
    apply Outside_set_empty. by eapply declared_hadron_correlations.
  - unfold initialize_inclusive_jet. apply Outside_when. intros Htruthy. blocks.
    apply Outside_lift. intros [] Hhas.
    + apply Outside_lift. intros settings Hsettings.
      apply Outside_for_each. intros grooming_setting Hin.
      eapply initialize_groomed_outside; [done..|].
      intros zcut beta s Hg _ Hs.
      by eapply (declared_inclusive_jet_groomed self _ key dict jetR zcut beta s).
    + destruct (contains "charge_cms" key) eqn:Hcharge.
      * apply Outside_lift. intros kappas Hkappas.
        apply Outside_for_each. intros kappa Hkappa. cbv zeta.
        apply Outside_name_AA. intros s Hs.
        by eapply (declared_inclusive_jet_charge self _ key dict jetR kappas kappa s).
      * cbv zeta. apply Outside_then.
        { apply Outside_set_empty. by eapply declared_inclusive_jet. }
        destruct (contains "Dz" key || contains "Dpt" key) eqn:HD.
        -- apply Outside_then; apply Outside_when; intros Hb; apply Outside_set_empty.
           ++ by eapply declared_inclusive_jet_holes.
           ++ by eapply declared_inclusive_jet_Njets.
        -- apply Outside_when. intros HAA. apply Outside_set_empty.
           by eapply declared_inclusive_jet_unsubtracted.
  - unfold initialize_inclusive_chjet. blocks.
    apply Outside_lift. intros [] Hhas.
    + apply Outside_lift. intros settings Hsettings.
      apply Outside_for_each. intros grooming_setting Hin.
      eapply initialize_groomed_outside; [done..|].
      intros zcut beta s Hg Hskip Hs.
      by eapply (declared_inclusive_chjet_groomed self _ key dict jetR zcut beta s).
    + cbv zeta. apply Outside_name_AA. intros s Hs.
      by eapply (declared_inclusive_chjet self _ key dict jetR s).
  - unfold initialize_semi_inclusive_chjet. apply Outside_when. intros Htruthy. blocks.
    cbv zeta. destruct (sqrts self =? 2760) eqn:H2760;
      [|destruct (sqrts self =? 200) eqn:H200; [|apply Outside_ret]].
    + set (name := "semi_inclusive_chjet_" +:+ key +:+ "_R" +:+ py_str jetR).
      repeat apply Outside_then.
      * apply Outside_set_empty. rewrite <- (string_app_nil_r (name +:+ _)).
        eapply declared_semi_inclusive_alice; eauto using AA_suffix_nil.
      * apply Outside_set_empty. rewrite <- (string_app_nil_r (name +:+ _)).
        eapply declared_semi_inclusive_alice; eauto using AA_suffix_nil.
      * apply Outside_set_empty.
        change (declared_except_tg_alice self ("semi_inclusive_chjet_alice_trigger_pt" +:+ "")).
        eapply declared_semi_inclusive_alice_trigger_pt; eauto using AA_suffix_nil.
      * apply Outside_when. intros HAA. repeat apply Outside_then.
        -- apply Outside_set_empty.
           change "_lowTrigger_unsubtracted" with ("_lowTrigger" +:+ "_unsubtracted").
           rewrite <- string_app_assoc.
           eapply declared_semi_inclusive_alice; eauto using AA_suffix_AA.
        -- apply Outside_set_empty.
           change "_highTrigger_unsubtracted" with ("_highTrigger" +:+ "_unsubtracted").
           rewrite <- string_app_assoc.
           eapply declared_semi_inclusive_alice; eauto using AA_suffix_AA.
        -- apply Outside_set_empty.
           change (declared_except_tg_alice self
                     ("semi_inclusive_chjet_alice_trigger_pt" +:+ "_unsubtracted")).
           eapply declared_semi_inclusive_alice_trigger_pt; eauto using AA_suffix_AA.
    + set (name := "semi_inclusive_chjet_" +:+ key +:+ "_R" +:+ py_str jetR).
      repeat apply Outside_then.
      * apply Outside_set_empty. rewrite <- (string_app_nil_r name).
        eapply declared_semi_inclusive_star; eauto using AA_suffix_nil.
      * apply Outside_set_empty.
        change (declared_except_tg_alice self ("semi_inclusive_chjet_star_trigger_pt" +:+ "")).
        eapply declared_semi_inclusive_star_trigger_pt; eauto using AA_suffix_nil.
      * apply Outside_when. intros HAA. repeat apply Outside_then.
        -- apply Outside_set_empty.
           eapply declared_semi_inclusive_star; eauto using AA_suffix_AA.
        -- apply Outside_set_empty.
           change (declared_except_tg_alice self
                     ("semi_inclusive_chjet_star_trigger_pt" +:+ "_unsubtracted")).
           eapply declared_semi_inclusive_star_trigger_pt; eauto using AA_suffix_AA.
  - unfold initialize_dijet. apply Outside_when. intros Htruthy. blocks.
    cbv zeta. apply Outside_name_AA. intros s Hs.
    by eapply (declared_dijet self _ key dict jetR s).
Qed.

End Exact.

(** X4.  [initialize_output_lists] changes [observable_dict_event] at the
    keys that the configuration declares other than the theta_g of ALICE
    at R = 0.2 and zcut = 0.4, and nowhere else: when it returns, every
    such key is bound to the empty list and every other key, that of the
    theta_g of ALICE at R = 0.2 and zcut = 0.4 among them, holds what it
    held. *)
Theorem initialize_output_lists_binds_the_declared_keys_only {Fmt : PyFormat}
    (self : STAT) (d d' : dict) :
  initialize_output_lists self d = Ok (tt, d') →
  ∀ k, (declared_except_tg_alice self k → d' !! k = Some [])
       ∧ (¬ declared_except_tg_alice self k → d' !! k = d !! k).
Proof.
  intros Hrun k. split.
  - intros Hk. by eapply declared_keys_bound.
  - intros Hk. by eapply initialize_output_lists_outside.
Qed.

(** A reset of the dijet analysis keeps a list that is not an
    observable of the configuration. *)
Lemma initialize_output_lists_binds_the_declared_keys_only_witness :
  let d := {[ "n_events" := [Scalar 1] ]} in
  let r := initialize_output_lists (Fmt := Example.format) Example.dijet_analysis d in
  returns r = true ∧ output r d !! "n_events" = Some [Scalar 1].
Proof.
  cbv zeta.
  assert (Hreturns : returns (initialize_output_lists (Fmt := Example.format)
                                Example.dijet_analysis
                                {[ "n_events" := [Scalar 1] ]}) = true)
    by (vm_compute; reflexivity).
  split; [exact Hreturns|].
  destruct (initialize_output_lists _ _) as [[[] d']|e] eqn:Hrun;
    [|discriminate Hreturns].
  simpl.
  destruct (initialize_output_lists_binds_the_declared_keys_only
              (Fmt := Example.format) Example.dijet_analysis _ _ Hrun "n_events")
    as [_ Hkept].
  rewrite Hkept; [reflexivity|].
  inversion 1; simplify_eq/=.
Defined.

(** ** Appending *)

Lemma do_write_extends (d d' : dict) (w : write) :
  is_append w → do_write d w = Ok d' →
  ∀ k l, d !! k = Some l → ∃ l', d' !! k = Some (l ++ l').
Proof.
  destruct w as [key|key x]; [done|]. intros _. simpl.
  destruct (d !! key) as [l0|] eqn:Hl0; [|done].
  intros [= <-] k l Hl. destruct (decide (key = k)) as [->|Hne].
  - rewrite lookup_insert_eq. exists [x]. congruence.
  - rewrite lookup_insert_ne by done. exists []. by rewrite app_nil_r.
Qed.

Lemma do_writes_extend (ws : list write) (d d' : dict) :
  Forall is_append ws → do_writes ws d = Ok d' →
  ∀ k l, d !! k = Some l → ∃ l', d' !! k = Some (l ++ l').
Proof.
  unfold do_writes. intros Hws. revert d.
  induction Hws as [|w ws Hw _ IH]; intros d; simpl.
  - intros [= <-] k l Hl. exists []. by rewrite app_nil_r.
  - destruct (do_write d w) as [d1|e] eqn:Hd1; simpl; [|done].
    intros Hd' k l Hl.
    destruct (do_write_extends d d1 w Hw Hd1 k l Hl) as [l1 Hl1].
    destruct (IH d1 Hd' k _ Hl1) as [l2 Hl2].
    exists (l1 ++ l2). by rewrite app_assoc.
Qed.

(** Code that only appends keeps the keys and extends the lists. *)
Lemma appends_extend (c : M unit) (d d' : dict) :
  Traceable is_append c → c d = Ok (tt, d') →
  dom d' = dom d ∧ ∀ k l, d !! k = Some l → ∃ l', d' !! k = Some (l ++ l').
Proof.
  intros ([ws r] & Hws & Hc). rewrite Hc. unfold run_trace. simpl.
  destruct (do_writes ws d) as [d1|e] eqn:Hd1; simpl; [|done].
  destruct r as [[]|]; simpl; [|done]. intros [= <-]. split.
  - by eapply do_writes_appends_dom.
  - by eapply do_writes_extend.
Qed.

(** X5.  What the event has recorded is never dropped or rewritten: when
    [fill_hadron_observables] or the analysis of a jet radius returns,
    the dictionary has the keys it had, and each list is the list it was
    with the new values at its end. *)
Theorem analysis_extends_the_lists
    {FJ : FastJet} {Base : BaseSTAT} {NP : NumPy} {Fmt : PyFormat} (self : STAT)
    (fj_hadrons_positive fj_hadrons_negative : list PseudoJet)
    (fj_hadrons_positive_charged fj_hadrons_negative_charged : list PseudoJet)
    (status : bool) (jetR : float) (d d' : dict) :
  fill_hadron_observables self fj_hadrons_positive status d = Ok (tt, d')
  ∨ analyze_event_jetR self fj_hadrons_positive fj_hadrons_negative
      fj_hadrons_positive_charged fj_hadrons_negative_charged jetR d = Ok (tt, d') →
  dom d' = dom d ∧ ∀ k l, d !! k = Some l → ∃ l', d' !! k = Some (l ++ l').
Proof.
  intros [Hrun|Hrun].
  - eapply appends_extend; [|exact Hrun]. apply fill_hadron_observables_writes.
  - eapply appends_extend; [|exact Hrun]. apply analyze_event_jetR_writes.
Qed.

(** The same particles: what the event had recorded is still there. *)
Lemma analysis_extends_the_lists_witness :
  let d := {[ "hadron_pt_ch_alice" := [Scalar 7]; "hadron_pt_pi_alice" := [];
              "hadron_pt_pi0_alice" := []; "hadron_pt_ch_atlas" := [];
              "hadron_pt_ch_cms" := [] ]} in
  let r := fill_hadron_observables (FJ := Example.fastjet) (Base := Example.base)
             (Example.analysis true) [Instances.pion50; Instances.pion3] true d in
  returns r = true
  ∧ ∃ l', output r d !! "hadron_pt_ch_alice" = Some ([Scalar 7] ++ l').
Proof.
  cbv zeta.
  set (d := {[ "hadron_pt_ch_alice" := [Scalar 7]; "hadron_pt_pi_alice" := [];
               "hadron_pt_pi0_alice" := []; "hadron_pt_ch_atlas" := [];
               "hadron_pt_ch_cms" := [] ]} : dict).
  assert (Hreturns : returns (fill_hadron_observables (FJ := Example.fastjet)
                                (Base := Example.base) (Example.analysis true)
                                [Instances.pion50; Instances.pion3] true d) = true)
    by (vm_compute; reflexivity).
  split; [exact Hreturns|].
  destruct (fill_hadron_observables _ _ _ _) as [[[] d']|e] eqn:Hrun;
    [|discriminate Hreturns].
  simpl.
  destruct (analysis_extends_the_lists (FJ := Example.fastjet) (Base := Example.base)
              (NP := Example.numpy) (Fmt := Example.format) (Example.analysis true)
              [Instances.pion50; Instances.pion3] [] [] [] true 0.2 d d'
              (or_introl Hrun)) as [_ Hextends].
  apply (Hextends "hadron_pt_ch_alice" [Scalar 7]). vm_compute. reflexivity.
Defined.

(** ** The jet charge *)

Lemma charge_of_charged (pid : Z) :
  in_Z (Z.abs pid) charged_pids = true → charge pid = Ok 1 ∨ charge pid = Ok (-1).
Proof.
  intros Hin. apply in_Z_true in Hin. simpl in Hin.
  repeat (destruct Hin as [Hin|Hin];
          [ match type of Hin with
            | ?v = _ => assert (pid = v ∨ pid = (- v)%Z) as [-> | ->] by lia
            end; vm_compute; auto | ]).
  done.
Qed.

(** X6.  The jet charge never ends the run: the sum is over the hadrons
    whose [abs(pid)] is in the list of charged species, and [charge]
    knows each of them.  [charge_sum] returns whenever the track pt
    threshold can be read from the configuration. *)
Theorem jet_charge_never_exits
    {FJ : FastJet} {NP : NumPy} (self : STAT)
    (jet : PseudoJet) (hadrons : list PseudoJet) (jetR kappa track_pt_min : float) :
  num_at (inclusive_jet_observables self) ["charge_cms"; "track_pt_min"]
  = Ok track_pt_min →
  ∃ sum, charge_sum self jet hadrons jetR kappa = Ok sum.
Proof.
  intros Hmin. unfold charge_sum.
  assert (Hsum : ∀ acc, ∃ sum,
            rfold
              (fun sum hadron =>
                 let? track_pt_min :=
                   num_at (inclusive_jet_observables self)
                     ["charge_cms"; "track_pt_min"] in
                 if track_pt_min <? pt hadron then
                   let pid := user_index hadron in
                   if in_Z (Z.abs pid) charged_pids then
                     if delta_R jet hadron <? jetR then
                       let? q := charge pid in
                       Ok (sum + q * np_power (pt hadron) kappa)
                     else Ok sum
                   else Ok sum
                 else Ok sum)
              hadrons acc = Ok sum); [|apply Hsum].
  rewrite Hmin. cbn [rbind].
  induction hadrons as [|hadron hadrons IH]; intros acc; [by exists acc|].
  cbn [rfold].
  destruct (track_pt_min <? pt hadron); [|apply IH].
  destruct (in_Z _ charged_pids) eqn:Hpid; [|apply IH].
  destruct (delta_R jet hadron <? jetR); [|apply IH].
  destruct (charge_of_charged _ Hpid) as [-> | ->]; apply IH.
Qed.

(** The jet charge of a jet of three hadrons, one of them neutral. *)
Lemma jet_charge_never_exits_witness :
  ∃ sum,
    charge_sum (FJ := Example.fastjet) (NP := Example.numpy) Instances.analysis_5020
      Example.jet100 [Instances.pion50; Instances.pion3; Instances.photon2] 0.4 0.3
    = Ok sum.
Proof.
  apply (jet_charge_never_exits (FJ := Example.fastjet) (NP := Example.numpy)
           Instances.analysis_5020 Example.jet100
           [Instances.pion50; Instances.pion3; Instances.photon2] 0.4 0.3 1).
  vm_compute. reflexivity.
Defined.

(** ** The pTD of a jet with holes *)

Section PtD.
Context {FJ : FastJet} {Base : BaseSTAT} {NP : NumPy} {Fmt : PyFormat}.
Variable self : STAT.

(** The loop over the holes of the pTD: one value appended to the
    unsubtracted list for every hole. *)
Lemma ptd_holes_loop (key : string) (x : entry) (holes_in_jet : list PseudoJet) :
  ∀ (acc : float) (d : dict) (lu : list entry),
    d !! key = Some lu →
    fold_each holes_in_jet acc (fun sum_holes hadron =>
      append key x;; ret (sum_holes + np_power (pt hadron) 2)) d
    = Ok (fold_left (fun sum_holes hadron => sum_holes + np_power (pt hadron) 2)
                    holes_in_jet acc,
          <[key := lu ++ replicate (length holes_in_jet) x]> d).
Proof.
  induction holes_in_jet as [|hadron holes IH]; intros acc d lu Hlu.
  - simpl. unfold ret. by rewrite app_nil_r, insert_id.
  - cbn [fold_each fold_left length replicate]. unfold bind at 1.
    unfold bind at 1. unfold append at 1. rewrite Hlu. simpl.
    rewrite (IH _ _ (lu ++ [x])) by apply lookup_insert_eq.
    rewrite insert_insert_eq. by rewrite <- app_assoc.
Qed.

End PtD.

(** X7.  For a jet that passes the selection of the pTD in a run with
    [is_AA] set, the unsubtracted list receives one value for every hole
    in the jet (the same value each time, and none when the jet has no
    hole), and the subtracted list receives one value. *)
Theorem ptd_unsubtracted_has_one_entry_per_hole
    {FJ : FastJet} {Base : BaseSTAT} {NP : NumPy} {Fmt : PyFormat} (self : STAT)
    (jet : PseudoJet) (holes_in_jet : list PseudoJet) (jet_pt jetR : float)
    (centrality : yaml) (pt_min pt_max eta_cut_R : float) (jet_R : list float)
    (d : dict) (l lu : list entry) :
  let obs := inclusive_chjet_observables self in
  let key := "inclusive_chjet_ptd_alice_R" +:+ py_str jetR in
  let sum := fold_left (fun sum constituent => sum + np_power (pt constituent) 2)
                       (constituents jet) 0 in
  let sum_holes := fold_left (fun sum_holes hadron => sum_holes + np_power (pt hadron) 2)
                             holes_in_jet 0 in
  is_AA self = true →
  getpath obs ["ptd_alice"; "centrality"] = Ok centrality →
  num_at_index obs ["ptd_alice"; "pt"] 0 = Ok pt_min →
  num_at_index obs ["ptd_alice"; "pt"] 1 = Ok pt_max →
  num_at obs ["ptd_alice"; "eta_cut_R"] = Ok eta_cut_R →
  nums_at obs ["ptd_alice"; "jet_R"] = Ok jet_R →
  centrality_accepted self centrality = true →
  (abs (eta jet) <? eta_cut_R - jetR) = true →
  in_float jetR jet_R = true →
  (pt_min <? jet_pt) = true → (jet_pt <? pt_max) = true →
  d !! key = Some l → d !! (key +:+ "_unsubtracted") = Some lu →
  ∃ d',
    inclusive_chjet_ptd_alice self jet holes_in_jet jet_pt jetR d = Ok (tt, d')
    ∧ d' !! (key +:+ "_unsubtracted")
      = Some (lu ++ replicate (length holes_in_jet) (Scalar (sqrt sum / jet_pt)))
    ∧ d' !! key = Some (l ++ [Scalar (sqrt (sum - sum_holes) / jet_pt)])
    ∧ ∀ k, k ≠ key → k ≠ key +:+ "_unsubtracted" → d' !! k = d !! k.
Proof.
  intros obs key sum sum_holes HAA Hc Hmin Hmax Heta HR Hacc Hcut Hin Hlo Hhi Hl Hlu.
  unfold inclusive_chjet_ptd_alice. fold obs.
  unfold bind at 1. unfold lift at 1. rewrite Hc. cbn [when]. rewrite Hacc.
  unfold bind at 1. unfold lift at 1. rewrite Hmin.
  unfold bind at 1. unfold lift at 1. rewrite Hmax.
  unfold bind at 1. unfold lift at 1. rewrite Heta. rewrite Hcut.
  unfold bind at 1. unfold lift at 1. rewrite HR. rewrite Hin.
  rewrite Hlo, Hhi. cbn [andb]. cbv zeta. rewrite HAA.
  fold sum. rewrite <- string_app_assoc. fold key.
  unfold bind at 1. unfold bind at 1.
  cbn [when]. cbv beta.
  rewrite (ptd_holes_loop (key +:+ "_unsubtracted") _ holes_in_jet 0 d lu Hlu).
  fold sum_holes. unfold ret at 1. unfold append.
  rewrite lookup_insert_ne by (by apply key_suffix_ne).
  rewrite Hl. eexists. split; [reflexivity|]. split; [|split].
  - rewrite lookup_insert_ne by (by apply not_eq_sym, key_suffix_ne).
    apply lookup_insert_eq.
  - apply lookup_insert_eq.
  - intros k Hk Hku. by rewrite !lookup_insert_ne.
Qed.

(** The pTD of a charged jet of 50 GeV/c with two holes inside. *)
Lemma ptd_unsubtracted_has_one_entry_per_hole_witness :
  ∃ d',
    inclusive_chjet_ptd_alice (FJ := Example.fastjet) (Base := Example.base)
      (NP := Example.numpy) (Fmt := Example.format) (Example.analysis true)
      Example.chjet50 Instances.holes 47 0.2
      {[ "inclusive_chjet_ptd_alice_R0.2" := [];
         "inclusive_chjet_ptd_alice_R0.2_unsubtracted" := [] ]}
    = Ok (tt, d')
    ∧ d' !! "inclusive_chjet_ptd_alice_R0.2_unsubtracted"
      = Some [Scalar (50 / 47); Scalar (50 / 47)]
    ∧ d' !! "inclusive_chjet_ptd_alice_R0.2" = Some [Scalar (sqrt (2500 - 5) / 47)].
Proof.
  destruct (ptd_unsubtracted_has_one_entry_per_hole (FJ := Example.fastjet)
              (Base := Example.base) (NP := Example.numpy) (Fmt := Example.format)
              (Example.analysis true) Example.chjet50 Instances.holes 47 0.2
              Example.centrality 40 60 0.9 [0.2]
              {[ "inclusive_chjet_ptd_alice_R0.2" := [];
                 "inclusive_chjet_ptd_alice_R0.2_unsubtracted" := [] ]} [] [])
    as (d' & Hrun & Hunsubtracted & Hsubtracted & _);
    try (vm_compute; reflexivity).
  exists d'. split; [exact Hrun|]. split.
  - etrans; [exact Hunsubtracted|]. vm_compute. reflexivity.
  - etrans; [exact Hsubtracted|]. vm_compute. reflexivity.
Defined.

(** ** The lists of the hadron observables *)

Lemma string_length_app (s t : string) :
  String.length (s +:+ t) = (String.length s + String.length t)%nat.
Proof.
  induction s as [|a s IH]; [done|].
  change (S (String.length (s +:+ t)) = S (String.length s + String.length t)).
  by rewrite IH.
Qed.

Lemma string_app_inv_r (s1 s2 t : string) : s1 +:+ t = s2 +:+ t → s1 = s2.
Proof.
  revert s2. induction s1 as [|a s1 IH]; intros [|b s2] Heq.
  - done.
  - apply (f_equal String.length) in Heq.
    change (String b s2 +:+ t) with (String b (s2 +:+ t)) in Heq.
    change ("" +:+ t) with t in Heq. simpl in Heq.
    rewrite string_length_app in Heq. lia.
  - apply (f_equal String.length) in Heq.
    change (String a s1 +:+ t) with (String a (s1 +:+ t)) in Heq.
    change ("" +:+ t) with t in Heq. simpl in Heq.
    rewrite string_length_app in Heq. lia.
  - change (String a (s1 +:+ t) = String b (s2 +:+ t)) in Heq.
    injection Heq as -> Heq. f_equal. by apply IH.
Qed.

(** Two hadron observables have two keys. *)
Lemma hadron_key_ne (n1 n2 suffix : string) :
  n1 ≠ n2 → "hadron_" +:+ n1 +:+ suffix ≠ "hadron_" +:+ n2 +:+ suffix.
Proof.
  intros Hne Heq. apply Hne.
  change (String "h" (String "a" (String "d" (String "r" (String "o" (String "n"
            (String "_" (n1 +:+ suffix)))))))
          = String "h" (String "a" (String "d" (String "r" (String "o" (String "n"
            (String "_" (n2 +:+ suffix)))))))) in Heq.
  injection Heq as Heq. by eapply string_app_inv_r.
Qed.

Section HadronLists.
Context {FJ : FastJet} {Base : BaseSTAT} {NP : NumPy} {Fmt : PyFormat}.
Variable self : STAT.

(** A block, when its configuration can be read: the hadron is appended
    when it passes the selection. *)
Lemma fill_hadron_block_run (name : string) (open_upper_bound : bool)
    (pids : list Z) (suffix : string) (particle : PseudoJet)
    (centrality : yaml) (pt_min pt_max eta_cut : float) (d : dict) :
  getpath (hadron_observables self) [name; "centrality"] = Ok centrality →
  num_at_index (hadron_observables self) [name; "pt"] 0 = Ok pt_min →
  (if open_upper_bound then Ok 100
   else num_at_index (hadron_observables self) [name; "pt"] 1) = Ok pt_max →
  num_at (hadron_observables self) [name; "eta_cut"] = Ok eta_cut →
  fill_hadron_block self name open_upper_bound pids suffix particle d
  = if hadron_passes self centrality pt_min pt_max eta_cut pids particle
    then append ("hadron_" +:+ name +:+ suffix) (Scalar (pt particle)) d
    else Ok (tt, d).
Proof.
  intros Hc Hmin Hmax Heta.
  destruct (hadron_passes _ _ _ _ _ _ _) eqn:Hpass.
  - unfold fill_hadron_block, hadron_passes in *.
    repeat (apply andb_prop in Hpass as [Hpass ?]).
    destruct open_upper_bound; [injection Hmax as <-|];
      unfold bind, lift, when, ret; simpl;
      repeat match goal with
             | Hcfg : ?r = Ok _ |- context [?r] => rewrite Hcfg; simpl
             | Hb : ?b = true |- context [?b] => rewrite Hb; simpl
             end; done.
  - by eapply fill_hadron_block_skips.
Qed.

Lemma fill_hadron_block_own (name : string) (open_upper_bound : bool)
    (pids : list Z) (suffix : string) (particle : PseudoJet)
    (centrality : yaml) (pt_min pt_max eta_cut : float) (d d' : dict) :
  getpath (hadron_observables self) [name; "centrality"] = Ok centrality →
  num_at_index (hadron_observables self) [name; "pt"] 0 = Ok pt_min →
  (if open_upper_bound then Ok 100
   else num_at_index (hadron_observables self) [name; "pt"] 1) = Ok pt_max →
  num_at (hadron_observables self) [name; "eta_cut"] = Ok eta_cut →
  fill_hadron_block self name open_upper_bound pids suffix particle d = Ok (tt, d') →
  d' !! ("hadron_" +:+ name +:+ suffix)
  = (fun l => l ++ (if hadron_passes self centrality pt_min pt_max eta_cut pids particle
                    then [Scalar (pt particle)] else []))
      <$> d !! ("hadron_" +:+ name +:+ suffix).
Proof.
  intros Hc Hmin Hmax Heta.
  rewrite (fill_hadron_block_run _ _ _ _ _ _ _ _ _ _ Hc Hmin Hmax Heta).
  destruct (hadron_passes _ _ _ _ _ _ _).
  - intros (l & Hl & ->)%append_Ok. by rewrite lookup_insert_eq, Hl.
  - intros [= <-]. destruct (d !! _) as [l|]; simpl; [|done]. by rewrite app_nil_r.
Qed.

Lemma fill_hadron_block_other (name : string) (open_upper_bound : bool)
    (pids : list Z) (suffix : string) (particle : PseudoJet) (d d' : dict) (k : string) :
  fill_hadron_block self name open_upper_bound pids suffix particle d = Ok (tt, d') →
  k ≠ "hadron_" +:+ name +:+ suffix →
  d' !! k = d !! k.
Proof.
  intros Hrun Hk. unfold fill_hadron_block in Hrun.
  repeat run_inv; try done; by rewrite lookup_insert_ne.
Qed.

(** One hadron, at the key of one of the observables of the energy. *)
Lemma fill_hadron_key (name : string) (open_upper_bound : bool) (pids : list Z)
    (suffix : string) (particle : PseudoJet)
    (centrality : yaml) (pt_min pt_max eta_cut : float) (d d' : dict) :
  In (name, open_upper_bound, pids) (hadron_blocks (sqrts self)) →
  getpath (hadron_observables self) [name; "centrality"] = Ok centrality →
  num_at_index (hadron_observables self) [name; "pt"] 0 = Ok pt_min →
  (if open_upper_bound then Ok 100
   else num_at_index (hadron_observables self) [name; "pt"] 1) = Ok pt_max →
  num_at (hadron_observables self) [name; "eta_cut"] = Ok eta_cut →
  fill_hadron self suffix particle d = Ok (tt, d') →
  d' !! ("hadron_" +:+ name +:+ suffix)
  = (fun l => l ++ (if hadron_passes self centrality pt_min pt_max eta_cut pids particle
                    then [Scalar (pt particle)] else []))
      <$> d !! ("hadron_" +:+ name +:+ suffix).
Proof.
  intros Hin Hc Hmin Hmax Heta Hrun.
  unfold fill_hadron in Hrun. unfold hadron_blocks in Hin.
  destruct (in_float (sqrts self) [2760; 5020]);
    [destruct (in_float (sqrts self) [2760])
    |destruct (in_float (sqrts self) [200])];
    simpl in Hin, Hrun;
    repeat (destruct Hin as [[= <- <- <-]|Hin]); try done;
    repeat match goal with
           | H : bind _ _ _ = Ok _ |- _ => apply bind_Ok in H as ([] & ? & ? & ?)
           | H : ret _ _ = Ok _ |- _ => apply ret_Ok in H as [_ ->]
           end;
    repeat match goal with
           | H : fill_hadron_block _ _ _ _ _ _ _ = Ok _ |- _ !! ?k = _ =>
               first
                 [ apply (fill_hadron_block_other _ _ _ _ _ _ _ k) in H;
                   [|by apply hadron_key_ne]
                 | eapply fill_hadron_block_own in H; [|eassumption..] ]
           end.
  all: repeat match goal with
              | H : ?a !! _ = _ |- _ => rewrite H; clear H
              end.
  all: done.
Qed.

(** A block whose observable is not in the configuration. *)
Lemma fill_hadron_block_unconfigured (name : string) (open_upper_bound : bool)
    (pids : list Z) (suffix : string) (particle : PseudoJet) (d : dict) (e : exn) :
  getitem (hadron_observables self) name = Raise e →
  fill_hadron_block self name open_upper_bound pids suffix particle d = Raise e.
Proof.
  intros He. unfold fill_hadron_block, getpath. cbn [rfold]. rewrite He. done.
Qed.

Lemma fill_hadron_unconfigured (name : string) (open_upper_bound : bool)
    (pids : list Z) (suffix : string) (particle : PseudoJet) (d : dict) (e : exn) :
  In (name, open_upper_bound, pids) (hadron_blocks (sqrts self)) →
  getitem (hadron_observables self) name = Raise e →
  ∃ e', fill_hadron self suffix particle d = Raise e'.
Proof.
  intros Hin He. unfold fill_hadron. unfold hadron_blocks in Hin.
  destruct (in_float (sqrts self) [2760; 5020]);
    [destruct (in_float (sqrts self) [2760])
    |destruct (in_float (sqrts self) [200])];
    simpl in Hin; cbn [when];
    repeat (destruct Hin as [[= <- <- <-]|Hin]); try done;
    repeat first
      [ by (eexists; apply fill_hadron_block_unconfigured)
      | apply bind_raises_l; by (eexists; apply fill_hadron_block_unconfigured)
      | apply bind_raises; intros [] ? ].
Qed.

End HadronLists.

(** X8.  The list of a hadron observable after [fill_hadron_observables]:
    for each observable of the collision energy whose cuts can be read,
    the pt of the particles that pass the selection of the observable are
    appended to its list, in the order of the particles. *)
Theorem fill_hadron_observables_appends_the_selected
    {FJ : FastJet} {Base : BaseSTAT} (self : STAT)
    (name : string) (open_upper_bound : bool) (pids : list Z) (status : bool)
    (centrality : yaml) (pt_min pt_max eta_cut : float)
    (fj_particles : list PseudoJet) (d d' : dict) :
  In (name, open_upper_bound, pids) (hadron_blocks (sqrts self)) →
  getpath (hadron_observables self) [name; "centrality"] = Ok centrality →
  num_at_index (hadron_observables self) [name; "pt"] 0 = Ok pt_min →
  (if open_upper_bound then Ok 100
   else num_at_index (hadron_observables self) [name; "pt"] 1) = Ok pt_max →
  num_at (hadron_observables self) [name; "eta_cut"] = Ok eta_cut →
  fill_hadron_observables self fj_particles status d = Ok (tt, d') →
  let key := "hadron_" +:+ name +:+ (if status then "" else "_holes") in
  d' !! key
  = (fun l => l ++ map (fun particle => Scalar (pt particle))
                     (List.filter
                        (hadron_passes self centrality pt_min pt_max eta_cut pids)
                        fj_particles))
      <$> d !! key.
Proof.
  intros Hin Hc Hmin Hmax Heta. unfold fill_hadron_observables. cbv zeta.
  revert d d'. induction fj_particles as [|particle ps IH]; intros d d' Hrun.
  - apply ret_Ok in Hrun as [_ ->]. simpl.
    destruct (d !! _); simpl; [|done]. by rewrite app_nil_r.
  - cbn [for_each] in Hrun. apply bind_Ok in Hrun as ([] & d1 & Hp & Hps).
    rewrite (IH _ _ Hps).
    rewrite (fill_hadron_key self name open_upper_bound pids _ particle centrality
               pt_min pt_max eta_cut d d1 Hin Hc Hmin Hmax Heta Hp).
    destruct (d !! _) as [l|]; simpl; [|done].
    destruct (hadron_passes _ _ _ _ _ _ particle); simpl.
    + by rewrite <- app_assoc.
    + by rewrite app_nil_r.
Qed.

(** Four particles at 2.76 TeV: the two pions at mid-rapidity are
    charged hadrons of ALICE, the forward one and the photon are not. *)
Lemma fill_hadron_observables_appends_the_selected_witness :
  let d := {[ "hadron_pt_ch_alice" := [Scalar 7]; "hadron_pt_pi_alice" := [];
              "hadron_pt_pi0_alice" := []; "hadron_pt_ch_atlas" := [];
              "hadron_pt_ch_cms" := [] ]} in
  let r := fill_hadron_observables (FJ := Example.fastjet) (Base := Example.base)
             (Example.analysis true)
             [Instances.pion50; Instances.pion_forward; Instances.photon2;
              Instances.pion3] true d in
  returns r = true
  ∧ output r d !! "hadron_pt_ch_alice" = Some [Scalar 7; Scalar 50; Scalar 3].
Proof.
  cbv zeta.
  set (d := {[ "hadron_pt_ch_alice" := [Scalar 7]; "hadron_pt_pi_alice" := [];
               "hadron_pt_pi0_alice" := []; "hadron_pt_ch_atlas" := [];
               "hadron_pt_ch_cms" := [] ]} : dict).
  set (particles := [Instances.pion50; Instances.pion_forward; Instances.photon2;
                     Instances.pion3]).
  assert (Hreturns : returns (fill_hadron_observables (FJ := Example.fastjet)
                                (Base := Example.base) (Example.analysis true)
                                particles true d) = true)
    by (vm_compute; reflexivity).
  split; [exact Hreturns|].
  destruct (fill_hadron_observables _ _ _ _) as [[[] d']|e] eqn:Hrun;
    [|discriminate Hreturns].
  simpl.
  etrans.
  - apply (fill_hadron_observables_appends_the_selected (FJ := Example.fastjet)
             (Base := Example.base) (Example.analysis true)
             "pt_ch_alice" false charged_pids true Example.centrality 1 100 0.8
             particles d d');
      [vm_compute; left; reflexivity|try (vm_compute; reflexivity)..|exact Hrun].
  - vm_compute. reflexivity.
Defined.

(** X9.  Every hadron observable of the collision energy has to be in the
    configuration: when one is not, [fill_hadron_observables] raises on
    the first particle. *)
Theorem fill_hadron_observables_needs_every_block
    {FJ : FastJet} {Base : BaseSTAT} (self : STAT)
    (name : string) (open_upper_bound : bool) (pids : list Z) (status : bool)
    (fj_particles : list PseudoJet) (d : dict) (e : exn) :
  In (name, open_upper_bound, pids) (hadron_blocks (sqrts self)) →
  getitem (hadron_observables self) name = Raise e →
  fj_particles ≠ [] →
  ∃ e', fill_hadron_observables self fj_particles status d = Raise e'.
Proof.
  intros Hin He Hne. destruct fj_particles as [|particle ps]; [done|].
  unfold fill_hadron_observables. cbn [for_each]. apply bind_raises_l.
  by eapply fill_hadron_unconfigured.
Qed.

(** A configuration with no hadron observable, at 2.76 TeV. *)
Lemma fill_hadron_observables_needs_every_block_witness :
  ∃ e, fill_hadron_observables (FJ := Example.fastjet) (Base := Example.base)
         Instances.no_hadron_analysis [Instances.pion50] true ∅ = Raise e.
Proof.
  apply (fill_hadron_observables_needs_every_block (FJ := Example.fastjet)
           (Base := Example.base) Instances.no_hadron_analysis
           "pt_ch_alice" false charged_pids true [Instances.pion50] ∅
           (KeyError "pt_ch_alice")).
  - vm_compute. left. reflexivity.
  - vm_compute. reflexivity.
  - discriminate.
Defined.

(** ** Code that returns on every store with given keys *)

Section Safe.
Context {V : Type} (D : gset string).
Implicit Types σ : gmap string V.

Lemma Safe_ret {A} (a : A) : Safe (V := V) D (ret a).
Proof. intros σ HD. by exists a, σ. Qed.

Lemma Safe_lift {A} (r : result A) (a : A) : r = Ok a → Safe (V := V) D (lift r).
Proof. intros -> σ HD. by exists a, σ. Qed.

Lemma Safe_bind {A B} (c : St (gmap string V) A) (k : A → St (gmap string V) B) :
  Safe (V := V) D c → (∀ a, Safe (V := V) D (k a)) → Safe (V := V) D (bind c k).
Proof.
  intros Hc Hk σ HD. destruct (Hc σ HD) as (a & σ1 & Hrun & HD1).
  unfold bind. rewrite Hrun. by apply Hk.
Qed.

Lemma Safe_bind_lift {A B} (r : result A) (a : A) (k : A → St (gmap string V) B) :
  r = Ok a → Safe (V := V) D (k a) → Safe (V := V) D (bind (lift r) k).
Proof. intros -> Hk σ HD. unfold bind, lift. by apply Hk. Qed.

Lemma Safe_when (b : bool) (c : St (gmap string V) unit) :
  Safe (V := V) D c → Safe (V := V) D (when b c).
Proof. destruct b; [done|]. intros _. apply Safe_ret. Qed.

Lemma Safe_for_each {A} (l : list A) (body : A → St (gmap string V) unit) :
  (∀ x, Safe (V := V) D (body x)) → Safe (V := V) D (for_each l body).
Proof.
  intros Hbody. induction l as [|x l IH]; simpl; [apply Safe_ret|].
  apply Safe_bind; [apply Hbody|]. intros _. apply IH.
Qed.

Lemma Safe_fold_each {A B} (l : list A) (acc : B)
    (body : B → A → St (gmap string V) B) :
  (∀ acc x, Safe (V := V) D (body acc x)) → Safe (V := V) D (fold_each l acc body).
Proof.
  intros Hbody. revert acc. induction l as [|x l IH]; intros acc; simpl;
    [apply Safe_ret|].
  apply Safe_bind; [apply Hbody|]. intros acc'. apply IH.
Qed.

End Safe.

(** ** The hadron lists after a reset *)

Lemma Safe_append (D : gset string) (key : string) (x : entry) :
  key ∈ D → Safe D (append key x).
Proof.
  intros Hin d HD. unfold append. subst D.
  apply elem_of_dom in Hin as [l Hl]. rewrite Hl.
  eexists tt, _. split; [done|]. rewrite dom_insert_L.
  apply subseteq_union_1_L, singleton_subseteq_l. by eapply elem_of_dom_2.
Qed.

Lemma assoc_In {A} (k : string) (items : list (string * A)) (v : A) :
  assoc k items = Some v → In k (map fst items).
Proof.
  induction items as [|[k' v'] items IH]; simpl; [done|].
  destruct (String.eqb_spec k k') as [->|Hne]; [by left|]. right. auto.
Qed.

(** An observable that can be read is a key of the configuration. *)
Lemma readable_hadron_block_key (self : STAT) (name : string) (open_upper_bound : bool) :
  readable_hadron_block self name open_upper_bound →
  ∃ observables,
    keys (hadron_observables self) = Ok observables ∧ In name observables.
Proof.
  intros (c & pt_min & pt_max & eta_cut & Hc & _). unfold getpath in Hc.
  cbn [rfold] in Hc.
  destruct (hadron_observables self) as [| | | |items]; try done. simpl in Hc.
  destruct (assoc name items) eqn:Ha; [|done].
  eexists. split; [done|]. by eapply assoc_In.
Qed.

Section HadronSafe.
Context {FJ : FastJet} {Base : BaseSTAT} {NP : NumPy} {Fmt : PyFormat}.
Variable self : STAT.

Lemma fill_hadron_block_safe (D : gset string) (name : string)
    (open_upper_bound : bool) (pids : list Z) (suffix : string)
    (particle : PseudoJet) :
  readable_hadron_block self name open_upper_bound →
  "hadron_" +:+ name +:+ suffix ∈ D →
  Safe D (fill_hadron_block self name open_upper_bound pids suffix particle).
Proof.
  intros (c & pt_min & pt_max & eta_cut & Hc & Hmin & Hmax & Heta) Hin d HD.
  rewrite (fill_hadron_block_run self name open_upper_bound pids suffix particle
             c pt_min pt_max eta_cut d Hc Hmin Hmax Heta).
  destruct (hadron_passes _ _ _ _ _ _ _); [by apply Safe_append|by exists tt, d].
Qed.

Lemma fill_hadron_safe (D : gset string) (suffix : string) (particle : PseudoJet) :
  (∀ name open_upper_bound pids,
     In (name, open_upper_bound, pids) (hadron_blocks (sqrts self)) →
     readable_hadron_block self name open_upper_bound
     ∧ "hadron_" +:+ name +:+ suffix ∈ D) →
  Safe D (fill_hadron self suffix particle).
Proof.
  intros Hblocks. unfold fill_hadron. unfold hadron_blocks in Hblocks.
  destruct (in_float (sqrts self) [2760; 5020]);
    [destruct (in_float (sqrts self) [2760])
    |destruct (in_float (sqrts self) [200])];
    cbn [when];
    repeat first
      [ apply Safe_ret
      | apply Safe_bind; [|intros _]
      | match goal with
        | |- Safe _ (fill_hadron_block _ ?n ?o ?p _ _) =>
            destruct (Hblocks n o p) as [? ?]; [simpl; tauto|];
            by apply fill_hadron_block_safe
        end ].
Qed.

Lemma fill_hadron_observables_safe (D : gset string)
    (fj_particles : list PseudoJet) (status : bool) :
  (∀ name open_upper_bound pids,
     In (name, open_upper_bound, pids) (hadron_blocks (sqrts self)) →
     readable_hadron_block self name open_upper_bound
     ∧ "hadron_" +:+ name +:+ (if status then "" else "_holes") ∈ D) →
  Safe D (fill_hadron_observables self fj_particles status).
Proof.
  intros Hblocks. unfold fill_hadron_observables. cbv zeta.
  apply Safe_for_each. intros particle. by apply fill_hadron_safe.
Qed.

End HadronSafe.

(** X10.  The lists of the hadron observables are there when they are
    filled: after [initialize_output_lists], with the cuts of every
    hadron observable of the collision energy readable,
    [fill_hadron_observables] returns on the particles of the shower
    and, in a run with [is_AA] set, on the holes, as [analyze_event]
    calls it; no [KeyError] is raised, and the dictionary keeps its
    keys. *)
Theorem initialized_hadron_lists_can_be_filled
    {FJ : FastJet} {Base : BaseSTAT} {Fmt : PyFormat} (self : STAT)
    (fj_hadrons_positive fj_hadrons_negative : list PseudoJet) (d0 d : dict) :
  initialize_output_lists self d0 = Ok (tt, d) →
  (∀ name open_upper_bound pids,
     In (name, open_upper_bound, pids) (hadron_blocks (sqrts self)) →
     readable_hadron_block self name open_upper_bound) →
  ∃ d1 d2,
    fill_hadron_observables self fj_hadrons_positive true d = Ok (tt, d1)
    ∧ when (is_AA self) (fill_hadron_observables self fj_hadrons_negative false) d1
      = Ok (tt, d2)
    ∧ dom d2 = dom d.
Proof.
  intros Hinit Hread.
  assert (Hkey : ∀ name open_upper_bound pids s,
            In (name, open_upper_bound, pids) (hadron_blocks (sqrts self)) →
            AA_suffix self "_holes" s →
            "hadron_" +:+ name +:+ s ∈ dom d).
  { intros name o pids s Hin Hs.
    destruct (readable_hadron_block_key self name o (Hread _ _ _ Hin))
      as (observables & Hkeys & Hname).
    rewrite <- string_app_assoc. apply elem_of_dom. exists [].
    eapply declared_keys_bound; [|exact Hinit].
    by eapply declared_hadron. }
  destruct (fill_hadron_observables_safe self (dom d) fj_hadrons_positive true)
    with (σ := d) as ([] & d1 & Hrun1 & Hdom1); [|done|].
  { intros name o pids Hin. split; [by eapply Hread|].
    eapply Hkey; [done|]. by left. }
  exists d1. destruct (is_AA self) eqn:HAA; cbn [when].
  - destruct (fill_hadron_observables_safe self (dom d) fj_hadrons_negative false)
      with (σ := d1) as ([] & d2 & Hrun2 & Hdom2); [|done|by exists d2].
    intros name o pids Hin. split; [by eapply Hread|].
    eapply Hkey; [done|]. by right.
  - by exists d1.
Qed.

(** The hadron observables of 2.76 TeV after a reset. *)
Lemma initialized_hadron_lists_can_be_filled_witness :
  let r := initialize_output_lists (Fmt := Example.format) (Example.analysis true) ∅ in
  returns r = true
  ∧ ∃ d1 d2,
      fill_hadron_observables (FJ := Example.fastjet) (Base := Example.base)
        (Example.analysis true) [Instances.pion50; Instances.pion3] true (output r ∅)
      = Ok (tt, d1)
      ∧ when (is_AA (Example.analysis true))
          (fill_hadron_observables (FJ := Example.fastjet) (Base := Example.base)
             (Example.analysis true) [Example.hole_near] false) d1
        = Ok (tt, d2)
      ∧ dom d2 = dom (output r ∅).
Proof.
  cbv zeta.
  assert (Hreturns : returns (initialize_output_lists (Fmt := Example.format)
                                (Example.analysis true) ∅) = true)
    by (vm_compute; reflexivity).
  split; [exact Hreturns|].
  destruct (initialize_output_lists _ _) as [[[] d]|e] eqn:Hrun;
    [|discriminate Hreturns].
  simpl output.
  apply (initialized_hadron_lists_can_be_filled (FJ := Example.fastjet)
           (Base := Example.base) (Fmt := Example.format) (Example.analysis true)
           [Instances.pion50; Instances.pion3] [Example.hole_near] ∅ d Hrun).
  intros name open_upper_bound pids Hin. vm_compute in Hin.
  repeat (destruct Hin as [[= <- <- <-]|Hin];
          [eexists _, _, _, _; repeat split; vm_compute; reflexivity|]).
  destruct Hin.
Defined.

(** ** [initialize_user_config] *)

Lemma optional_dict (items : list (string * yaml)) (key : string) :
  optional (YDict items) key = Ok (default YNone (assoc key items)).
Proof.
  unfold optional, has_key, getitem.
  destruct (assoc key items) as [v|]; reflexivity.
Qed.

(** X11.  [initialize_user_config] needs the seven keys [sqrt_s],
    [hadron], [hadron_correlations], [inclusive_chjet], [jet_R],
    [min_jet_pt] and [max_jet_y]: with them it returns, whatever their
    values, and without one of them it raises [KeyError] on a required
    key that is missing.  The blocks [inclusive_jet],
    [semi_inclusive_chjet], [dijet] and [SoftDrop] are [None] when the
    configuration does not have them. *)
Theorem initialize_user_config_required_keys {P : PathLib}
    (input_file_hadrons : string) (items : list (string * yaml)) :
  (Forall (fun key => is_Some (assoc key items)) required_keys →
   ∃ c, initialize_user_config input_file_hadrons (YDict items) = Ok c
        ∧ config_inclusive_jet_observables c
          = default YNone (assoc "inclusive_jet" items)
        ∧ config_semi_inclusive_chjet_observables c
          = default YNone (assoc "semi_inclusive_chjet" items)
        ∧ config_dijet_observables c = default YNone (assoc "dijet" items)
        ∧ config_grooming_settings c = default YNone (assoc "SoftDrop" items))
  ∧ (Exists (fun key => assoc key items = None) required_keys →
     ∃ key, In key required_keys ∧ assoc key items = None
            ∧ initialize_user_config input_file_hadrons (YDict items)
              = Raise (KeyError key)).
Proof.
  unfold initialize_user_config, required_keys. rewrite !optional_dict.
  cbn [getitem rbind]. split.
  - intros Hall.
    repeat match goal with
           | H : Forall _ (_ :: _) |- _ => apply Forall_cons in H as [[? ->] H]
           end.
    cbn [rbind]. eexists. split; [reflexivity|]. done.
  - intros Hex.
    destruct (assoc "sqrt_s" items) eqn:E1;
      [|exists "sqrt_s"; split; [simpl; tauto|done]].
    destruct (assoc "hadron" items) eqn:E2;
      [|exists "hadron"; split; [simpl; tauto|done]].
    destruct (assoc "hadron_correlations" items) eqn:E3;
      [|exists "hadron_correlations"; split; [simpl; tauto|done]].
    destruct (assoc "inclusive_chjet" items) eqn:E4;
      [|exists "inclusive_chjet"; split; [simpl; tauto|done]].
    cbn [rbind].
    destruct (assoc "jet_R" items) eqn:E5;
      [|exists "jet_R"; split; [simpl; tauto|done]].
    destruct (assoc "min_jet_pt" items) eqn:E6;
      [|exists "min_jet_pt"; split; [simpl; tauto|done]].
    destruct (assoc "max_jet_y" items) eqn:E7;
      [|exists "max_jet_y"; split; [simpl; tauto|done]].
    exfalso.
    repeat (apply Exists_cons in Hex as [Hex|Hex]; [congruence|]).
    by apply Exists_nil in Hex.
Qed.

(** The configuration of the example has the seven keys; a
    configuration with [sqrt_s] only does not. *)
Lemma initialize_user_config_required_keys_witness :
  (∃ c, initialize_user_config (P := Instances.pathlib) "test.out" Instances.config
        = Ok c
        ∧ config_dijet_observables c = YNone)
  ∧ ∃ key, initialize_user_config (P := Instances.pathlib) "test.out"
             (YDict [("sqrt_s", YNum 5020)]) = Raise (KeyError key).
Proof.
  split.
  - destruct (proj1 (initialize_user_config_required_keys (P := Instances.pathlib)
                       "test.out"
                       [("sqrt_s", YNum 5020); ("hadron", Example.hadron);
                        ("hadron_correlations", YDict []);
                        ("inclusive_chjet", Example.inclusive_chjet);
                        ("jet_R", YList [YNum 0.2; YNum 0.4]); ("min_jet_pt", YNum 10);
                        ("max_jet_y", YNum 3)]))
      as (c & Hc & _ & _ & Hdijet & _).
    + repeat constructor; eexists; vm_compute; reflexivity.
    + exists c. split; [exact Hc|exact Hdijet].
  - destruct (proj2 (initialize_user_config_required_keys (P := Instances.pathlib)
                       "test.out" [("sqrt_s", YNum 5020)]))
      as (key & _ & _ & Hraise).
    + apply Exists_cons_tl, Exists_cons_hd. vm_compute. reflexivity.
    + exists key. exact Hraise.
Defined.

Lemma replace_from_absent (old new : string) (s : string) :
  contains old s = false → replace_from old new 0 s = s.
Proof.
  unfold contains. induction s as [|c s IH]; [done|].
  cbn [String.index replace_from].
  destruct (String.prefix old (String c s)); [done|].
  destruct (String.index 0 old s) as [n|]; [done|].
  intros _. f_equal. by apply IH.
Qed.

Lemma prefix_app (s t : string) : String.prefix s (s +:+ t) = true.
Proof.
  induction s as [|a s IH]; [by destruct t|].
  change (String.prefix (String a s) (String a (s +:+ t)) = true).
  cbn [String.prefix]. by destruct (ascii_dec a a).
Qed.

Lemma replace_from_skip (old new s t : string) :
  replace_from old new (String.length s) (s +:+ t) = replace_from old new 0 t.
Proof.
  induction s as [|a s IH]; [done|].
  change (replace_from old new (S (String.length s)) (String a (s +:+ t))
          = replace_from old new 0 t).
  cbn [replace_from]. exact IH.
Qed.

(** An occurrence at the start of the string. *)
Lemma replace_from_prefix (a : ascii) (old new t : string) :
  replace_from (String a old) new 0 (String a old +:+ t)
  = new +:+ replace_from (String a old) new 0 t.
Proof.
  pose proof (prefix_app (String a old) t) as Hprefix.
  change (String a old +:+ t) with (String a (old +:+ t)) in *.
  cbn [replace_from]. rewrite Hprefix. f_equal.
  replace (String.length (String a old) - 1)%nat with (String.length old)
    by (simpl; lia).
  apply replace_from_skip.
Qed.

(** X12.  The name of the output file.  It is [observables] when the path
    of the input file does not contain [final_state_hadrons].  When it
    does and the name of the file is [final_state_hadrons] followed by a
    label, the output file is [observables] followed by the label; when
    only a directory of the path contains [final_state_hadrons], the
    output file has the very name of the input file. *)
Theorem output_file_name {P : PathLib}
    (input_file_hadrons : string) (config : yaml) (c : user_config) :
  initialize_user_config input_file_hadrons config = Ok c →
  (contains "final_state_hadrons" input_file_hadrons = false →
   config_output_file c = "observables")
  ∧ (contains "final_state_hadrons" input_file_hadrons = true →
     ∀ label,
       Path_name input_file_hadrons = "final_state_hadrons" +:+ label →
       contains "final_state_hadrons" label = false →
       config_output_file c = "observables" +:+ label)
  ∧ (contains "final_state_hadrons" input_file_hadrons = true →
     contains "final_state_hadrons" (Path_name input_file_hadrons) = false →
     config_output_file c = Path_name input_file_hadrons).
Proof.
  unfold initialize_user_config. intros Hrun.
  repeat match type of Hrun with
         | rbind ?r _ = Ok _ => destruct r; [cbn [rbind] in Hrun|done]
         end.
  injection Hrun as <-. cbn [config_output_file]. split; [|split].
  - by intros ->.
  - intros -> label -> Hlabel. unfold str_replace.
    rewrite replace_from_prefix. by rewrite replace_from_absent.
  - intros -> Hname. by apply replace_from_absent.
Qed.

(** A file with the name of the convention, and a file whose directory
    has it. *)
Lemma output_file_name_witness :
  (∃ c,
     initialize_user_config (P := Instances.pathlib)
       "run/final_state_hadrons_0000_00.parquet" Instances.config = Ok c
     ∧ config_output_file c = "observables_0000_00.parquet")
  ∧ ∃ c,
      initialize_user_config (P := Instances.pathlib)
        "final_state_hadrons/run_0001.parquet" Instances.config = Ok c
      ∧ config_output_file c = "run_0001.parquet".
Proof.
  split.
  - assert (Hreturns : ∃ c, initialize_user_config (P := Instances.pathlib)
                              "run/final_state_hadrons_0000_00.parquet"
                              Instances.config = Ok c)
      by (eexists; vm_compute; reflexivity).
    destruct Hreturns as [c Hc]. exists c. split; [exact Hc|].
    destruct (output_file_name (P := Instances.pathlib) _ _ c Hc) as (_ & Hname & _).
    apply (Hname eq_refl "_0000_00.parquet"); vm_compute; reflexivity.
  - assert (Hreturns : ∃ c, initialize_user_config (P := Instances.pathlib)
                              "final_state_hadrons/run_0001.parquet"
                              Instances.config = Ok c)
      by (eexists; vm_compute; reflexivity).
    destruct Hreturns as [c Hc]. exists c. split; [exact Hc|].
    destruct (output_file_name (P := Instances.pathlib) _ _ c Hc) as (_ & _ & Hname).
    etrans; [apply Hname; vm_compute; reflexivity|].
    vm_compute. reflexivity.
Defined.

(** ** The histograms of the TG3 analysis *)

Lemma FilledWith_nil (h : histogram) : FilledWith h [] = h.
Proof. destruct h. unfold FilledWith. simpl. by rewrite app_nil_r. Qed.

Lemma FilledWith_app (h : histogram) (l1 l2 : list entry) :
  FilledWith (FilledWith h l1) l2 = FilledWith h (l1 ++ l2).
Proof. unfold FilledWith. simpl. by rewrite app_assoc. Qed.

Lemma Filled_FilledWith (h : histogram) (x : entry) : Filled h x = FilledWith h [x].
Proof. done. Qed.

Section TG3Hadrons.
Context {FJ : FastJet} {FJ3 : FastJetTG3} {PyF : PyFloat} {Fmt : PyFormat}.
Variable self : TG3.

Lemma fill_recoils (fj_particles : list PseudoJet) :
  ∀ (σ : histograms) (h : histogram),
    σ !! "hChargedPt_Recoils" = Some h →
    fill_hadron_histograms self fj_particles false σ
    = Ok (tt, <["hChargedPt_Recoils" :=
                  FilledWith h (map (fun particle => Scalar (pt particle)) fj_particles)]> σ).
Proof.
  unfold fill_hadron_histograms.
  induction fj_particles as [|particle ps IH]; intros σ h Hh.
  - simpl. unfold ret. by rewrite FilledWith_nil, insert_id.
  - cbn [for_each negb map]. unfold bind at 1. unfold Fill at 1. rewrite Hh.
    rewrite (IH _ (Filled h (Scalar (pt particle)))) by apply lookup_insert_eq.
    rewrite insert_insert_eq, Filled_FilledWith, FilledWith_app. done.
Qed.

End TG3Hadrons.

(** X13.  [fill_hadron_histograms] on the holes ([status = '-']): the pt of
    every hole, whatever its species and its pseudorapidity, is filled
    into [hChargedPt_Recoils], in the order of the list, and no other
    histogram is touched.  Without this histogram the first hole raises
    [AttributeError]. *)
Theorem holes_fill_the_recoil_histogram_only
    {FJ : FastJet} (self : TG3) (fj_particles : list PseudoJet) (σ : histograms) :
  match σ !! "hChargedPt_Recoils" with
  | Some h =>
      fill_hadron_histograms self fj_particles false σ
      = Ok (tt, <["hChargedPt_Recoils" :=
                    FilledWith h (map (fun particle => Scalar (pt particle))
                                      fj_particles)]> σ)
  | None =>
      fill_hadron_histograms self fj_particles false σ
      = if bool_decide (fj_particles = []) then Ok (tt, σ) else Raise AttributeError
  end.
Proof.
  destruct (σ !! "hChargedPt_Recoils") as [h|] eqn:Hh.
  - by apply fill_recoils.
  - destruct fj_particles as [|particle ps]; [done|].
    unfold fill_hadron_histograms. cbn [for_each negb]. unfold bind, Fill.
    by rewrite Hh.
Qed.

(** ** Booking and filling *)

Lemma Safe_Fill (D : gset string) (hname : string) (x : entry) :
  hname ∈ D → Safe D (Fill hname x).
Proof.
  intros Hin σ HD. unfold Fill. subst D.
  apply elem_of_dom in Hin as [h Hh]. rewrite Hh.
  eexists tt, _. split; [done|]. rewrite dom_insert_L.
  apply subseteq_union_1_L, singleton_subseteq_l. by eapply elem_of_dom_2.
Qed.

Lemma Books_setattr (hname : string) (h : histogram) : Books (setattr hname h).
Proof.
  intros σ. eexists. split; [done|]. rewrite dom_insert_L. set_solver.
Qed.

Lemma Books_ret : Books (ret tt).
Proof. intros σ. by exists σ. Qed.

Lemma Books_then (c1 c2 : HistM unit) : Books c1 → Books c2 → Books (c1;; c2).
Proof.
  intros H1 H2 σ. destruct (H1 σ) as (σ1 & Hrun1 & Hsub1).
  destruct (H2 σ1) as (σ2 & Hrun2 & Hsub2).
  exists σ2. unfold bind. rewrite Hrun1. split; [done|]. set_solver.
Qed.

Lemma Books_when (b : bool) (c : HistM unit) : Books c → Books (when b c).
Proof. destruct b; [done|]. intros _. apply Books_ret. Qed.

Lemma Books_for_each {A} (l : list A) (body : A → HistM unit) :
  (∀ x, Books (body x)) → Books (for_each l body).
Proof.
  intros Hbody. induction l as [|x l IH]; simpl; [apply Books_ret|].
  apply Books_then; [apply Hbody|apply IH].
Qed.

Lemma Creates_setattr (hname : string) (h : histogram) : Creates hname (setattr hname h).
Proof. intros σ σ' [= <-]. rewrite dom_insert_L. set_solver. Qed.

Lemma Creates_here (k : string) (c1 c2 : HistM unit) :
  Creates k c1 → Books c2 → Creates k (c1;; c2).
Proof.
  intros H1 H2 σ σ' Hrun. apply bind_Ok in Hrun as ([] & σ1 & Hrun1 & Hrun2).
  destruct (H2 σ1) as (σ2 & Hrun2' & Hsub). rewrite Hrun2 in Hrun2'.
  injection Hrun2' as <-. apply H1 in Hrun1. set_solver.
Qed.

Lemma Creates_later (k : string) (c1 c2 : HistM unit) :
  Creates k c2 → Creates k (c1;; c2).
Proof.
  intros H2 σ σ' Hrun. apply bind_Ok in Hrun as ([] & σ1 & Hrun1 & Hrun2).
  by eapply H2.
Qed.

Lemma Creates_when (k : string) (b : bool) (c : HistM unit) :
  b = true → Creates k c → Creates k (when b c).
Proof. by intros ->. Qed.

Lemma Creates_for_each {A} (k : string) (l : list A) (body : A → HistM unit) (x : A) :
  In x l → (∀ y, Books (body y)) → Creates k (body x) → Creates k (for_each l body).
Proof.
  intros Hx Hbooks Hbody. induction l as [|y l IH]; [done|]. simpl.
  destruct Hx as [->|Hx].
  - apply Creates_here; [done|]. by apply Books_for_each.
  - apply Creates_later. by apply IH.
Qed.

Ltac books :=
  repeat first
    [ apply Books_setattr | apply Books_ret | apply Books_then | apply Books_when
    | apply Books_for_each; intros ].

Section TG3Booking.
Context {FJ : FastJet} {FJ3 : FastJetTG3} {PyF : PyFloat} {Fmt : PyFormat}.
Variable self : TG3.

Lemma initialize_user_output_objects_books :
  Books (initialize_user_output_objects self).
Proof. unfold initialize_user_output_objects, book. cbv zeta. books. Qed.

(** The histograms that [initialize_user_output_objects] books: the four
    hadron spectra and, for every radius of [jetR_list], the histograms
    of the full jets. *)
Lemma booked_hadrons (hname : string) :
  In hname ["hChargedPt_CMS"; "hChargedPt_ATLAS"; "hChargedPt_ALICE";
            "hChargedPt_Recoils"] →
  Creates hname (initialize_user_output_objects self).
Proof.
  unfold initialize_user_output_objects, book. cbv zeta. simpl.
  intros [<-|[<-|[<-|[<-|[]]]]].
  - apply Creates_here; [apply Creates_setattr|books].
  - apply Creates_later, Creates_here; [apply Creates_setattr|books].
  - do 2 apply Creates_later. apply Creates_here; [apply Creates_setattr|books].
  - do 3 apply Creates_later. apply Creates_here; [apply Creates_setattr|books].
Qed.

Lemma booked_full_jets (jetR : float) (hname : string) :
  In jetR (jetR_list self) →
  In hname ["hJetPt_CMS_R" +:+ py_str jetR; "hJetPt_ALICE_R" +:+ py_str jetR;
            "hJetPt_ALICE_no_ptlead_cut_R" +:+ py_str jetR;
            "hJetPt_recoils_R" +:+ py_str jetR] →
  Creates hname (initialize_user_output_objects self).
Proof.
  intros HR Hin.
  unfold initialize_user_output_objects, book. cbv zeta.
  do 4 apply Creates_later. apply Creates_here; [|books].
  eapply Creates_for_each; [exact HR|intros; books|].
  simpl in Hin. destruct Hin as [<-|[<-|[<-|[<-|[]]]]].
  - apply Creates_here; [apply Creates_setattr|books].
  - apply Creates_later, Creates_here; [apply Creates_setattr|books].
  - do 2 apply Creates_later. apply Creates_here; [apply Creates_setattr|books].
  - do 10 apply Creates_later. apply Creates_setattr.
Qed.

Lemma booked_ATLAS_jets (hname : string) :
  In hname ["hJetPt_ATLAS_binning0_R" +:+ py_str 0.4;
            "hJetPt_ATLAS_binning1_R" +:+ py_str 0.4;
            "hJetPt_ATLAS_binning2_R" +:+ py_str 0.4] →
  Creates hname (initialize_user_output_objects self).
Proof.
  intros Hin.
  unfold initialize_user_output_objects, book. cbv zeta.
  do 5 apply Creates_later.
  simpl in Hin. destruct Hin as [<-|[<-|[<-|[]]]].
  - apply Creates_here; [apply Creates_setattr|books].
  - apply Creates_later, Creates_here; [apply Creates_setattr|books].
  - do 2 apply Creates_later. apply Creates_setattr.
Qed.

End TG3Booking.

Section TG3FullJets.
Context {FJ : FastJet} {FJ3 : FastJetTG3} {PyF : PyFloat} {Fmt : PyFormat}.
Variable self : TG3.

Lemma fill_hadron_histograms_safe (D : gset string)
    (fj_particles : list PseudoJet) (status : bool) :
  (∀ i, In i [0; 1; 2]%Z →
        ∃ cut, num_at_index (charged_particle_eta_cut self) [] i = Ok cut) →
  (∀ hname, In hname ["hChargedPt_CMS"; "hChargedPt_ATLAS"; "hChargedPt_ALICE";
                      "hChargedPt_Recoils"] → hname ∈ D) →
  Safe D (fill_hadron_histograms self fj_particles status).
Proof.
  intros Hcuts HD. unfold fill_hadron_histograms.
  destruct (Hcuts 0%Z) as [c0 H0]; [simpl; tauto|].
  destruct (Hcuts 1%Z) as [c1 H1]; [simpl; tauto|].
  destruct (Hcuts 2%Z) as [c2 H2]; [simpl; tauto|].
  apply Safe_for_each. intros particle. cbv zeta.
  destruct status; cbn [negb].
  - repeat first
      [ apply Safe_Fill; apply HD; simpl; tauto
      | apply Safe_when
      | eapply Safe_bind_lift; [eassumption|]
      | apply Safe_bind; [|intros] ].
  - apply Safe_Fill, HD. simpl. tauto.
Qed.

Lemma fill_full_jets_safe (D : gset string)
    (jets fj_hadrons_positive fj_hadrons_negative : list PseudoJet) (jetR : float) :
  (jetR =? 0.2) = true ∨ (jetR =? 0.4) = true →
  (∀ i, In i [0; 1; 2]%Z →
        ∃ cut, num_at_index (if jetR =? 0.2 then jet_eta_cut_02 self
                             else jet_eta_cut_04 self) [] i = Ok cut) →
  (∀ hname,
     In hname (["hJetPt_CMS_R" +:+ py_str jetR; "hJetPt_ALICE_R" +:+ py_str jetR;
                "hJetPt_ALICE_no_ptlead_cut_R" +:+ py_str jetR;
                "hJetPt_recoils_R" +:+ py_str jetR]
               ++ ["hJetPt_ATLAS_binning0_R" +:+ py_str 0.4;
                   "hJetPt_ATLAS_binning1_R" +:+ py_str 0.4;
                   "hJetPt_ATLAS_binning2_R" +:+ py_str 0.4]) →
     hname ∈ D) →
  Safe D (fill_jet_histograms self jets fj_hadrons_positive fj_hadrons_negative
            jetR false).
Proof.
  intros HR Hcuts HD. unfold fill_jet_histograms.
  destruct (Hcuts 0%Z) as [c0 H0]; [simpl; tauto|].
  destruct (Hcuts 1%Z) as [c1 H1]; [simpl; tauto|].
  destruct (Hcuts 2%Z) as [c2 H2]; [simpl; tauto|].
  apply Safe_bind; [|intros; apply Safe_ret].
  apply Safe_fold_each. intros groomed jet.
  destruct (corrected_jet_pt_TG3 _ _ _) as [[jet_pt jet_pt_uncorrected] holes_in_jet].
  cbv zeta. apply Safe_bind; [|intros; apply Safe_ret].
  unfold fill_full_jet_histograms.
  destruct (jetR =? 0.4) eqn:H04.
  - (* the radius is 0.4 *)
    apply float_eqb_eq in H04; [|done]. subst jetR.
    destruct (0.4 =? 0.2); cbn [when];
      repeat first
        [ apply Safe_Fill; apply HD; simpl; tauto
        | apply Safe_when
        | eapply Safe_bind_lift; [first [eassumption|reflexivity]|]
        | apply Safe_bind; [|intros] ].
  - destruct HR as [HR|?]; [|done]. rewrite HR in *. cbn [when].
    repeat first
      [ apply Safe_Fill; apply HD; simpl; tauto
      | apply Safe_when
      | eapply Safe_bind_lift; [first [eassumption|reflexivity]|]
      | apply Safe_bind; [|intros] ].
Qed.

End TG3FullJets.

(** X14.  [initialize_user_output_objects] books the histograms that
    [fill_hadron_histograms] and the full-jet part of
    [fill_jet_histograms] fill: after it, and after any filling, they
    raise no [AttributeError].  With the three pseudorapidity cuts
    readable, they return and leave the attributes that there were. *)
Theorem booked_histograms_can_be_filled
    {FJ : FastJet} {FJ3 : FastJetTG3} {PyF : PyFloat} {Fmt : PyFormat}
    (self : TG3) (σ0 : histograms) :
  ∃ σ,
    initialize_user_output_objects self σ0 = Ok (tt, σ)
    ∧ ∀ σ1, dom σ ⊆ dom σ1 →
        ((∀ i, In i [0; 1; 2]%Z →
               ∃ cut, num_at_index (charged_particle_eta_cut self) [] i = Ok cut) →
         ∀ fj_particles status,
           ∃ σ2, fill_hadron_histograms self fj_particles status σ1 = Ok (tt, σ2)
                 ∧ dom σ2 = dom σ1)
        ∧ (∀ jetR,
             In jetR (jetR_list self) →
             (jetR =? 0.2) = true ∨ (jetR =? 0.4) = true →
             (∀ i, In i [0; 1; 2]%Z →
                   ∃ cut, num_at_index (if jetR =? 0.2 then jet_eta_cut_02 self
                                        else jet_eta_cut_04 self) [] i = Ok cut) →
             ∀ jets fj_hadrons_positive fj_hadrons_negative,
               ∃ σ2, fill_jet_histograms self jets fj_hadrons_positive
                       fj_hadrons_negative jetR false σ1 = Ok (tt, σ2)
                     ∧ dom σ2 = dom σ1).
Proof.
  destruct (initialize_user_output_objects_books self σ0) as (σ & Hinit & _).
  exists σ. split; [done|]. intros σ1 Hsub. split.
  - intros Hcuts ps status.
    destruct (fill_hadron_histograms_safe self (dom σ1) ps status Hcuts)
      with (σ := σ1) as ([] & σ2 & Hrun & Hdom); [|done|by exists σ2].
    intros hname Hin. apply Hsub. by eapply booked_hadrons.
  - intros jetR HR H0204 Hcuts jets pos negs.
    destruct (fill_full_jets_safe self (dom σ1) jets pos negs jetR H0204 Hcuts)
      with (σ := σ1) as ([] & σ2 & Hrun & Hdom); [|done|by exists σ2].
    intros hname [Hin|Hin]%in_app_or; apply Hsub.
    + by eapply booked_full_jets.
    + by eapply booked_ATLAS_jets.
Qed.

(** The full jets of radius 0.4 after the booking. *)
Lemma booked_histograms_can_be_filled_witness :
  ∃ σ σ2,
    initialize_user_output_objects (Fmt := Example.format) Instances.tg3 ∅ = Ok (tt, σ)
    ∧ fill_jet_histograms (FJ := Example.fastjet) (FJ3 := Instances.fastjet_TG3)
        (PyF := Instances.pyfloat) (Fmt := Example.format)
        Instances.tg3 [Example.jet100; Example.jet50] [] [Example.hole_near] 0.4 false σ
      = Ok (tt, σ2)
    ∧ dom σ2 = dom σ.
Proof.
  destruct (booked_histograms_can_be_filled (FJ := Example.fastjet)
              (FJ3 := Instances.fastjet_TG3) (PyF := Instances.pyfloat)
              (Fmt := Example.format) Instances.tg3 ∅) as (σ & Hinit & Hfill).
  destruct (Hfill σ) as [_ Hjets]; [done|].
  destruct (Hjets 0.4) with (jets := [Example.jet100; Example.jet50])
    (fj_hadrons_positive := @nil Example.particle)
    (fj_hadrons_negative := [Example.hole_near]) as (σ2 & Hrun & Hdom).
  - right. left. reflexivity.
  - right. vm_compute. reflexivity.
  - intros i [<-|[<-|[<-|[]]]]; eexists; vm_compute; reflexivity.
  - exists σ, σ2. split; [exact Hinit|]. split; [exact Hrun|exact Hdom].
Defined.

(** X15.  The full jets of a radius that is neither 0.2 nor 0.4:
    [jet_eta_cut] is not bound, and the first jet raises. *)
Theorem full_jets_need_radius_02_or_04
    {FJ : FastJet} {FJ3 : FastJetTG3} {PyF : PyFloat} {Fmt : PyFormat}
    (self : TG3) (jets fj_hadrons_positive fj_hadrons_negative : list PseudoJet)
    (jetR : float) (σ : histograms) :
  jets ≠ [] → (jetR =? 0.2) = false → (jetR =? 0.4) = false →
  fill_jet_histograms self jets fj_hadrons_positive fj_hadrons_negative jetR false σ
  = Raise NameError.
Proof.
  intros Hne H02 H04. destruct jets as [|jet jets]; [done|].
  unfold fill_jet_histograms. cbn [fold_each].
  destruct (corrected_jet_pt_TG3 _ _ _) as [[jet_pt jet_pt_uncorrected] holes_in_jet].
  unfold fill_full_jet_histograms. rewrite H02, H04. done.
Qed.

(** Full jets of radius 0.3. *)
Lemma full_jets_need_radius_02_or_04_witness :
  fill_jet_histograms (FJ := Example.fastjet) (FJ3 := Instances.fastjet_TG3)
    (PyF := Instances.pyfloat) (Fmt := Example.format)
    Instances.tg3 [Example.jet100] [] [] 0.3 false ∅
  = Raise NameError.
Proof.
  apply (full_jets_need_radius_02_or_04 (FJ := Example.fastjet)
           (FJ3 := Instances.fastjet_TG3) (PyF := Instances.pyfloat)
           (Fmt := Example.format) Instances.tg3 [Example.jet100] [] [] 0.3 ∅).
  - discriminate.
  - vm_compute. reflexivity.
  - vm_compute. reflexivity.
Defined.

Section TG3Charged.
Context {FJ : FastJet} {FJ3 : FastJetTG3} {PyF : PyFloat} {Fmt : PyFormat}.
Variable self : TG3.

Lemma leading_subjet_with_holes (jet : PseudoJet)
    (fj_hadrons_positive fj_hadrons_negative holes_in_jet : list PseudoJet)
    (jet_pt jetR subjetR : float) (groomed : option (float * float)) (σ : histograms) :
  subjetR_of jetR jet_pt = Some subjetR → fj_hadrons_negative ≠ [] →
  ∃ e, fill_charged_jet_histograms self jet fj_hadrons_positive fj_hadrons_negative
         holes_in_jet jet_pt jetR groomed σ = Raise e.
Proof.
  intros Hsub Hne. unfold fill_charged_jet_histograms.
  apply bind_raises. intros _ σ1. apply bind_raises. intros _ σ2.
  apply bind_raises. intros g σ3. apply bind_raises. intros _ σ4.
  apply bind_raises_l. rewrite Hsub. unfold leading_subjet_TG3. cbv zeta.
  destruct fj_hadrons_negative; [done|]. by exists NameError.
Qed.

Lemma ungroomed_first_jet (jet : PseudoJet)
    (fj_hadrons_positive fj_hadrons_negative holes_in_jet : list PseudoJet)
    (jet_pt jetR : float) (σ : histograms) :
  between 60 jet_pt 80 = true →
  soft_drop jet jetR (soft_drop_beta self) (soft_drop_zcut self) = None →
  ∃ e, fill_charged_jet_histograms self jet fj_hadrons_positive fj_hadrons_negative
         holes_in_jet jet_pt jetR None σ = Raise e.
Proof.
  intros Hpt Hsd. unfold fill_charged_jet_histograms.
  apply bind_raises. intros _ σ1. apply bind_raises. intros _ σ2.
  apply bind_raises_l. rewrite Hpt, Hsd.
  unfold bind at 1. unfold ret at 1. apply bind_raises. intros _ σ3.
  by exists NameError.
Qed.

Lemma fill_charged_jets_raise (jets : list PseudoJet)
    (fj_hadrons_positive fj_hadrons_negative : list PseudoJet) (jetR : float) :
  fj_hadrons_negative ≠ [] →
  (∃ jet, In jet jets
          ∧ is_Some (subjetR_of jetR (corrected_jet_pt_TG3 jet fj_hadrons_negative
                                        jetR).1.1)) →
  ∀ groomed σ,
    ∃ e, fold_each jets groomed (fun groomed jet =>
           let '(jet_pt, jet_pt_uncorrected, holes_in_jet) :=
             corrected_jet_pt_TG3 jet fj_hadrons_negative jetR in
           let negative_pt := (sum_negative_recoils jet fj_hadrons_negative jetR).1 in
           if true then
             fill_charged_jet_histograms self jet fj_hadrons_positive
               fj_hadrons_negative holes_in_jet jet_pt jetR groomed
           else
             fill_full_jet_histograms self jet jet_pt negative_pt jetR;;
             ret groomed) σ = Raise e.
Proof.
  intros Hne (jet & Hin & Hsub).
  induction jets as [|x jets IH]; intros groomed σ; [done|].
  cbn [fold_each]. destruct Hin as [->|Hin].
  - apply bind_raises_l.
    destruct (corrected_jet_pt_TG3 jet _ _) as [[jet_pt u] holes]. simpl in Hsub.
    destruct Hsub as [subjetR Hsub]. by eapply leading_subjet_with_holes.
  - apply bind_raises. intros g σ1. by apply IH.
Qed.

End TG3Charged.

(** X16.  The leading subjets and the holes: the loop over the holes reads
    the name [subjet], which is bound nowhere.  When the event has a hole
    and some charged jet is in a window of the leading subjets
    ([R = 0.4] and [80 < jet_pt < 100], or [R = 0.2] and
    [60 < jet_pt < 80]), [fill_jet_histograms] raises. *)
Theorem leading_subjets_raise_with_holes
    {FJ : FastJet} {FJ3 : FastJetTG3} {PyF : PyFloat} {Fmt : PyFormat}
    (self : TG3) (jets fj_hadrons_positive fj_hadrons_negative : list PseudoJet)
    (jetR : float) (σ : histograms) :
  fj_hadrons_negative ≠ [] →
  (∃ jet, In jet jets
          ∧ is_Some (subjetR_of jetR (corrected_jet_pt_TG3 jet fj_hadrons_negative
                                        jetR).1.1)) →
  ∃ e, fill_jet_histograms self jets fj_hadrons_positive fj_hadrons_negative
         jetR true σ = Raise e.
Proof.
  intros Hne Hjet. unfold fill_jet_histograms. apply bind_raises_l.
  by apply fill_charged_jets_raise.
Qed.

(** A charged jet of 90 GeV/c at R = 0.4, and a hole outside of it. *)
Lemma leading_subjets_raise_with_holes_witness :
  ∃ e, fill_jet_histograms (FJ := Example.fastjet) (FJ3 := Instances.fastjet_TG3)
         (PyF := Instances.pyfloat) (Fmt := Example.format)
         Instances.tg3 [Instances.chjet90] [] [Example.hole_far] 0.4 true ∅
       = Raise e.
Proof.
  apply (leading_subjets_raise_with_holes (FJ := Example.fastjet)
           (FJ3 := Instances.fastjet_TG3) (PyF := Instances.pyfloat)
           (Fmt := Example.format) Instances.tg3 [Instances.chjet90] []
           [Example.hole_far] 0.4 ∅).
  - discriminate.
  - exists Instances.chjet90. split; [left; reflexivity|].
    vm_compute. eexists. reflexivity.
Defined.

(** X17.  The groomed observables of the first jet: [zg] and [theta_g] are
    bound by a jet whose grooming succeeds.  When the first charged jet
    has [60 < jet_pt < 80] and its grooming fails, the two names are not
    bound when they are filled, and [fill_jet_histograms] raises. *)
Theorem ungroomed_first_jet_raises
    {FJ : FastJet} {FJ3 : FastJetTG3} {PyF : PyFloat} {Fmt : PyFormat}
    (self : TG3) (jet : PseudoJet)
    (jets fj_hadrons_positive fj_hadrons_negative : list PseudoJet)
    (jetR : float) (σ : histograms) :
  between 60 (corrected_jet_pt_TG3 jet fj_hadrons_negative jetR).1.1 80 = true →
  soft_drop jet jetR (soft_drop_beta self) (soft_drop_zcut self) = None →
  ∃ e, fill_jet_histograms self (jet :: jets) fj_hadrons_positive fj_hadrons_negative
         jetR true σ = Raise e.
Proof.
  intros Hpt Hsd. unfold fill_jet_histograms. apply bind_raises_l.
  cbn [fold_each]. apply bind_raises_l.
  destruct (corrected_jet_pt_TG3 jet _ _) as [[jet_pt u] holes]. simpl in Hpt.
  by apply ungroomed_first_jet.
Qed.

(** A charged jet of 70 GeV/c that the grooming does not tag. *)
Lemma ungroomed_first_jet_raises_witness :
  ∃ e, fill_jet_histograms (FJ := Example.fastjet) (FJ3 := Instances.fastjet_TG3)
         (PyF := Instances.pyfloat) (Fmt := Example.format)
         Instances.tg3 [Example.chjet70] [] [] 0.4 true ∅
       = Raise e.
Proof.
  apply (ungroomed_first_jet_raises (FJ := Example.fastjet)
           (FJ3 := Instances.fastjet_TG3) (PyF := Instances.pyfloat)
           (Fmt := Example.format) Instances.tg3 Example.chjet70 [] [] [] 0.4 ∅).
  - vm_compute. reflexivity.
  - reflexivity.
Defined.

(** X18.  [fill_hadron_histograms] on the particles of the shower
    ([status = '+']): with the three pseudorapidity cuts readable and the
    three spectra booked, each spectrum receives the pt of the particles
    within its pseudorapidity cut whose species is in its list, in the
    order of the particles (the list of ATLAS has no electron and no
    muon), and no other histogram is touched. *)
Theorem charged_hadron_spectra_receive_the_selected
    {FJ : FastJet} (self : TG3) (cut_CMS cut_ATLAS cut_ALICE : float)
    (fj_particles : list PseudoJet) (σ : histograms)
    (h_CMS h_ATLAS h_ALICE : histogram) :
  num_at_index (charged_particle_eta_cut self) [] 0 = Ok cut_CMS →
  num_at_index (charged_particle_eta_cut self) [] 1 = Ok cut_ATLAS →
  num_at_index (charged_particle_eta_cut self) [] 2 = Ok cut_ALICE →
  σ !! "hChargedPt_CMS" = Some h_CMS →
  σ !! "hChargedPt_ATLAS" = Some h_ATLAS →
  σ !! "hChargedPt_ALICE" = Some h_ALICE →
  ∃ σ',
    fill_hadron_histograms self fj_particles true σ = Ok (tt, σ')
    ∧ σ' !! "hChargedPt_CMS"
      = Some (FilledWith h_CMS (selected_pts cut_CMS charged_pids fj_particles))
    ∧ σ' !! "hChargedPt_ATLAS"
      = Some (FilledWith h_ATLAS
                (selected_pts cut_ATLAS [211; 321; 2212; 3222; 3112; 3312; 3334]%Z
                   fj_particles))
    ∧ σ' !! "hChargedPt_ALICE"
      = Some (FilledWith h_ALICE (selected_pts cut_ALICE charged_pids fj_particles))
    ∧ ∀ k, k ≠ "hChargedPt_CMS" → k ≠ "hChargedPt_ATLAS" → k ≠ "hChargedPt_ALICE" →
           σ' !! k = σ !! k.
Proof.
  intros H0 H1 H2. revert σ h_CMS h_ATLAS h_ALICE.
  unfold fill_hadron_histograms.
  induction fj_particles as [|particle ps IH]; intros σ hc ha hl Hc Ha Hl.
  - exists σ. unfold selected_pts. simpl. rewrite !FilledWith_nil. done.
  - cbn [negb] in *.
    match goal with |- context [for_each _ ?b] => set (body := b) in * end.
    cbn [for_each].
    assert (Hstep : ∃ σ1,
      body particle σ = Ok (tt, σ1)
      ∧ σ1 !! "hChargedPt_CMS"
        = Some (FilledWith hc (selected_pts cut_CMS charged_pids [particle]))
      ∧ σ1 !! "hChargedPt_ATLAS"
        = Some (FilledWith ha
                  (selected_pts cut_ATLAS [211; 321; 2212; 3222; 3112; 3312; 3334]%Z
                     [particle]))
      ∧ σ1 !! "hChargedPt_ALICE"
        = Some (FilledWith hl (selected_pts cut_ALICE charged_pids [particle]))
      ∧ ∀ k, k ≠ "hChargedPt_CMS" → k ≠ "hChargedPt_ATLAS" → k ≠ "hChargedPt_ALICE" →
             σ1 !! k = σ !! k).
    { subst body. cbv beta zeta. unfold selected_pts. cbn [List.filter].
      unfold selected_TG3.
      unfold bind, lift. rewrite H0, H1, H2.
      destruct (abs (eta particle) <? cut_CMS),
        (abs (eta particle) <? cut_ATLAS), (abs (eta particle) <? cut_ALICE),
        (in_Z (Z.abs (user_index particle)) charged_pids),
        (in_Z (Z.abs (user_index particle)) [211; 321; 2212; 3222; 3112; 3312; 3334]%Z);
        cbn [when andb map]; unfold ret, Fill;
        rewrite ?FilledWith_nil;
        repeat (first [ rewrite lookup_insert_ne by done | rewrite lookup_insert_eq
                      | rewrite Hc | rewrite Ha | rewrite Hl ]; cbv beta iota);
        (eexists; split; [reflexivity|]);
        repeat split;
        try (intros k ? ? ?);
        repeat (first [ rewrite lookup_insert_ne by done | rewrite lookup_insert_eq ]);
        done. }
    destruct Hstep as (σ1 & Hrun1 & Hc1 & Ha1 & Hl1 & Hk1).
    destruct (IH σ1 _ _ _ Hc1 Ha1 Hl1) as (σ' & Hrun & Hc' & Ha' & Hl' & Hk').
    exists σ'. unfold bind at 1. rewrite Hrun1. split; [exact Hrun|].
    unfold selected_pts in *. rewrite !FilledWith_app in *. rewrite <- !map_app in *.
    cbn [List.filter app] in *.
    split; [|split; [|split]].
    + rewrite Hc'. by destruct (selected_TG3 cut_CMS _ particle).
    + rewrite Ha'. by destruct (selected_TG3 cut_ATLAS _ particle).
    + rewrite Hl'. by destruct (selected_TG3 cut_ALICE _ particle).
    + intros k ? ? ?. rewrite Hk' by done. by apply Hk1.
Qed.

(** Four particles: the electron is in the spectrum of CMS only (it is
    outside the acceptance of ALICE, and ATLAS has no electron). *)
Lemma charged_hadron_spectra_receive_the_selected_witness :
  ∃ σ',
    fill_hadron_histograms (FJ := Example.fastjet) Instances.tg3
      [Instances.pion50; Instances.electron5; Instances.pion_forward;
       Instances.photon2] true Instances.spectra = Ok (tt, σ')
    ∧ h_fills <$> σ' !! "hChargedPt_CMS" = Some [Scalar 50; Scalar 5]
    ∧ h_fills <$> σ' !! "hChargedPt_ATLAS" = Some [Scalar 50]
    ∧ h_fills <$> σ' !! "hChargedPt_ALICE" = Some [Scalar 50].
Proof.
  destruct (charged_hadron_spectra_receive_the_selected (FJ := Example.fastjet)
              Instances.tg3 1 2.5 0.8
              [Instances.pion50; Instances.electron5; Instances.pion_forward;
               Instances.photon2] Instances.spectra
              (Sumw2 (TH1F_bins "hChargedPt_CMS" [0; 1; 10; 100]))
              (Sumw2 (TH1F_bins "hChargedPt_ATLAS" [0; 1; 10; 100]))
              (Sumw2 (TH1F_bins "hChargedPt_ALICE" [0; 1; 10; 100])))
    as (σ' & Hrun & HCMS & HATLAS & HALICE & _);
    try (vm_compute; reflexivity).
  exists σ'. split; [exact Hrun|].
  rewrite HCMS, HATLAS, HALICE. vm_compute. repeat split.
Defined.

(** ** [bins_from_config] *)

Section PlotUtilsProperties.
Context {Fmt : PyFormat} {Env : PlotEnv}.

Lemma py_in_None (k : string) (items : list (string * yaml)) :
  assoc k items = None → py_in k (YDict items) = Ok false.
Proof. intros Hk. simpl. rewrite Hk. done. Qed.

Lemma py_in_Some (k : string) (items : list (string * yaml)) (v : yaml) :
  assoc k items = Some v → py_in k (YDict items) = Ok true.
Proof. intros Hk. simpl. rewrite Hk. done. Qed.

Lemma getitem_Some (k : string) (items : list (string * yaml)) (v : yaml) :
  assoc k items = Some v → getitem (YDict items) k = Ok v.
Proof. intros Hk. simpl. by rewrite Hk. Qed.

(** On a dictionary, the search for a key raises nothing. *)
Lemma hepdata_key_dict (items : list (string * yaml)) (key suffix : string)
    (out : list string) :
  ∃ lines k, hepdata_key (YDict items) key suffix out = (out ++ lines, Ok k).
Proof.
  unfold hepdata_key, io_bind, io_lift, io_ret, print.
  destruct (assoc (key +:+ suffix) items) as [v|] eqn:Hs.
  - rewrite (py_in_Some _ _ _ Hs). exists [], (Some (key +:+ suffix)).
    by rewrite app_nil_r.
  - rewrite (py_in_None _ _ Hs).
    destruct (assoc key items) as [v|] eqn:Hk.
    + rewrite (py_in_Some _ _ _ Hk). exists [], (Some key). by rewrite app_nil_r.
    + rewrite (py_in_None _ _ Hk). by eexists _, None.
Qed.

Lemma hepdata_key_unbound (items : list (string * yaml)) (key suffix : string)
    (out : list string) :
  assoc (key +:+ suffix) items = None → assoc key items = None →
  hepdata_key (YDict items) key suffix out
  = (out ++ [key +:+ suffix +:+ " not found!"], Ok None).
Proof.
  intros Hs Hk. unfold hepdata_key, io_bind, io_lift, io_ret, print.
  by rewrite (py_in_None _ _ Hs), (py_in_None _ _ Hk).
Qed.

Lemma hepdata_key_with_suffix (items : list (string * yaml)) (key suffix : string)
    (v : yaml) (out : list string) :
  assoc (key +:+ suffix) items = Some v →
  hepdata_key (YDict items) key suffix out = (out, Ok (Some (key +:+ suffix))).
Proof.
  intros Hs. unfold hepdata_key, io_bind, io_lift, io_ret.
  by rewrite (py_in_Some _ _ _ Hs).
Qed.

(** [bins_from_config] on a block with [hepdata] and no [bins]. *)
Lemma bins_from_config_hepdata (items : list (string * yaml)) (file : yaml)
    (sqrts : float) (observable_type observable : string) (centrality : yaml)
    (centrality_index : Z) (suffix : string) (out : list string) :
  assoc "bins" items = None →
  assoc "hepdata" items = Some file →
  bins_from_config (YDict items) sqrts observable_type observable centrality
    centrality_index suffix out
  = bins_from_hepdata (YDict items) sqrts observable_type observable
      centrality_index suffix
      (out ++ ["  Histogram with hepdata binning found for "
                 +:+ observable +:+ " " +:+ str centrality +:+ " " +:+ suffix]).
Proof.
  intros Hbins Hhep. unfold bins_from_config, io_bind, io_lift, print.
  by rewrite (py_in_None _ _ Hbins), (py_in_Some _ _ _ Hhep).
Qed.

End PlotUtilsProperties.

(** X19.  A block of the configuration with [hepdata] and with no [bins],
    that names no directory of the HEPData file (neither
    [hepdata_AA_dir] with the suffix nor [hepdata_AA_dir]): once the
    file is open, [bins_from_config] has printed that the binning was
    found and that the key was not, and raises; [dir_key] is not bound
    when it is read. *)
Theorem bins_from_config_without_directory_key {Fmt : PyFormat} {Env : PlotEnv}
    (items : list (string * yaml)) (file : string) (f : TFile) (sqrts : float)
    (observable_type observable : string) (centrality : yaml)
    (centrality_index : Z) (suffix : string) (out : list string) :
  assoc "bins" items = None →
  assoc "hepdata" items = Some (YStr file) →
  TFile_READ
    (os_path_join
       ("data/STAT/" +:+ py_str sqrts +:+ "/" +:+ observable_type +:+ "/" +:+ observable)
       file) = Ok f →
  assoc ("hepdata_AA_dir" +:+ suffix) items = None →
  assoc "hepdata_AA_dir" items = None →
  ∃ lines,
    bins_from_config (YDict items) sqrts observable_type observable centrality
      centrality_index suffix out
    = (out ++ ["  Histogram with hepdata binning found for "
                 +:+ observable +:+ " " +:+ str centrality +:+ " " +:+ suffix;
               "hepdata_AA_dir" +:+ suffix +:+ " not found!"] ++ lines,
       Raise NameError).
Proof.
  intros Hbins Hhep Hfile Hs Hk.
  rewrite (bins_from_config_hepdata _ _ _ _ _ _ _ _ _ Hbins Hhep).
  unfold bins_from_hepdata. cbv zeta.
  unfold io_bind at 1. unfold io_lift at 1. rewrite (getitem_Some _ _ _ Hhep).
  cbn [rbind as_str].
  unfold io_bind at 1. unfold io_lift at 1. rewrite Hfile.
  unfold io_bind at 1. rewrite (hepdata_key_unbound _ _ _ _ Hs Hk).
  unfold io_bind at 1.
  destruct (hepdata_key_dict items "hepdata_AA_hname" suffix
              ((out ++ ["  Histogram with hepdata binning found for "
                          +:+ observable +:+ " " +:+ str centrality +:+ " " +:+ suffix])
                 ++ ["hepdata_AA_dir" +:+ suffix +:+ " not found!"]))
    as (lines & h_key & ->).
  exists lines. unfold io_bind, io_lift. cbn [at_key].
  by rewrite <- !app_assoc.
Qed.

(** A block with a file and the name of a histogram, and with no
    directory. *)
Lemma bins_from_config_without_directory_key_witness :
  ∃ lines,
    bins_from_config (Fmt := Example.format) (Env := Instances.plot_env)
      (YDict Instances.hepdata_block_no_dir) 5020 "hadron" "pt_ch_cms"
      (YStr "[0, 10]") 0 "_R0.2" []
    = (["  Histogram with hepdata binning found for pt_ch_cms [0, 10] _R0.2";
        "hepdata_AA_dir_R0.2 not found!"] ++ lines,
       Raise NameError).
Proof.
  apply (bins_from_config_without_directory_key (Fmt := Example.format)
           (Env := Instances.plot_env) Instances.hepdata_block_no_dir
           "HEPData-ins1127262-v2-root.root"
           "data/STAT/x/hadron/pt_ch_cms/HEPData-ins1127262-v2-root.root"
           5020 "hadron" "pt_ch_cms" (YStr "[0, 10]") 0 "_R0.2" []);
    vm_compute; reflexivity.
Defined.

(** X20.  A block whose list of directories (under the key with the
    suffix) is shorter than the centrality index asks for: once the file
    is open, [bins_from_config] returns the empty array, and no
    histogram is looked up in the file, whether or not the block names
    one. *)
Theorem bins_from_config_centrality_out_of_range {Fmt : PyFormat} {Env : PlotEnv}
    (items : list (string * yaml)) (file : string) (f : TFile) (dirs : list yaml)
    (sqrts : float) (observable_type observable : string) (centrality : yaml)
    (centrality_index : Z) (suffix : string) (out : list string) :
  assoc "bins" items = None →
  assoc "hepdata" items = Some (YStr file) →
  TFile_READ
    (os_path_join
       ("data/STAT/" +:+ py_str sqrts +:+ "/" +:+ observable_type +:+ "/" +:+ observable)
       file) = Ok f →
  assoc ("hepdata_AA_dir" +:+ suffix) items = Some (YList dirs) →
  (Z.of_nat (length dirs) - 1 < centrality_index)%Z →
  ∃ lines,
    bins_from_config (YDict items) sqrts observable_type observable centrality
      centrality_index suffix out
    = (out ++ ["  Histogram with hepdata binning found for "
                 +:+ observable +:+ " " +:+ str centrality +:+ " " +:+ suffix]
           ++ lines,
       np_array (YList [])).
Proof.
  intros Hbins Hhep Hfile Hdir Hlen.
  rewrite (bins_from_config_hepdata _ _ _ _ _ _ _ _ _ Hbins Hhep).
  unfold bins_from_hepdata. cbv zeta.
  unfold io_bind at 1. unfold io_lift at 1. rewrite (getitem_Some _ _ _ Hhep).
  cbn [rbind as_str].
  unfold io_bind at 1. unfold io_lift at 1. rewrite Hfile.
  unfold io_bind at 1. rewrite (hepdata_key_with_suffix _ _ _ _ _ Hdir).
  unfold io_bind at 1.
  destruct (hepdata_key_dict items "hepdata_AA_hname" suffix
              (out ++ ["  Histogram with hepdata binning found for "
                         +:+ observable +:+ " " +:+ str centrality +:+ " " +:+ suffix]))
    as (lines & h_key & ->).
  exists lines. unfold io_bind at 1. unfold io_lift at 1. cbn [at_key].
  rewrite (getitem_Some _ _ _ Hdir).
  unfold io_bind at 1.
  destruct (Z.ltb_spec (Z.of_nat (length dirs) - 1) centrality_index); [|lia].
  unfold io_ret, io_lift. by rewrite <- !app_assoc.
Qed.

(** Two directories, and the third centrality. *)
Lemma bins_from_config_centrality_out_of_range_witness :
  ∃ lines,
    bins_from_config (Fmt := Example.format) (Env := Instances.plot_env)
      (YDict Instances.hepdata_block) 5020 "hadron" "pt_ch_cms"
      (YStr "[30, 50]") 2 "" []
    = (["  Histogram with hepdata binning found for pt_ch_cms [30, 50] "] ++ lines,
       Ok []).
Proof.
  apply (bins_from_config_centrality_out_of_range (Fmt := Example.format)
           (Env := Instances.plot_env) Instances.hepdata_block
           "HEPData-ins1127262-v2-root.root"
           "data/STAT/x/hadron/pt_ch_cms/HEPData-ins1127262-v2-root.root"
           [YStr "Table 30"; YStr "Table 31"]
           5020 "hadron" "pt_ch_cms" (YStr "[30, 50]") 2 "" []);
    vm_compute; reflexivity.
Defined.

(** ** The errors of [divide_tgraph] *)

(** X21.  The error bars of the graph that [divide_tgraph] returns: each
    divided point has no error in x, and its two errors in y are the
    relative errors of the graph and of the bin combined in quadrature
    (when the y-value and the content are positive; the relative error of
    the graph otherwise), times the quotient. *)
Theorem divide_tgraph_combines_the_errors {Fmt : PyFormat}
    (pow : float → float → result float) (σ σ' : heap) (h g g_new : nat)
    (H : TH1) (G : TGraph) :
  hists σ !! h = Some H → graphs σ !! g = Some G →
  divide_tgraph pow h g σ = Ok (g_new, σ') →
  ∃ G_new,
    graphs σ' !! g_new = Some G_new
    ∧ ∀ i b p, bins H !! i = Some b → points G !! i = Some p →
        ∃ q, points G_new !! i = Some q
             ∧ exl q = 0 ∧ exh q = 0
             ∧ Ok (eyl q, eyh q)
               = divided_errors pow (bin_content b) (bin_error b) (point_y p)
                   (eyl p) (eyh p).
Proof.
  intros Hh Hg Hrun.
  destruct (divide_tgraph_start pow σ h g H G Hh Hg)
    as (Hfresh & Hne & Hh0 & Hg0 & Hn0 & Hstart).
  set (fresh_g := fresh (dom (graphs σ))) in *.
  rewrite Hstart in Hrun.
  destruct (for_each (seq 1 (length (bins H))) (divide_bin pow h g fresh_g) _)
    as [[[] σ1]|e] eqn:Hloop1; [|done].
  assert (Hgood : ∀ i b, bins H !! i = Some b →
            ∃ p errors,
              points G !! i = Some p
              ∧ isclose (bin_center b) (point_x p) = true
              ∧ (point_y p =? 0) = false
              ∧ divided_errors pow (bin_content b) (bin_error b) (point_y p)
                  (eyl p) (eyh p) = Ok errors).
  { intros i b Hb.
    eapply (divide_loop_returned pow h g fresh_g H G (length (bins H)) 0);
      [exact Hh0|exact Hg0|exact Hn0|exact Hne|lia|exact Hloop1| |exact Hb].
    apply lookup_lt_Some in Hb. lia. }
  assert (Hlen : (length (bins H) ≤ length (points G))%nat).
  { destruct (Nat.le_gt_cases (length (bins H)) (length (points G))); [done|].
    destruct (lookup_lt_is_Some_2 (bins H) (length (points G))) as [b Hb]; [done|].
    destruct (Hgood _ b Hb) as (p & _ & Hp & _).
    by rewrite (lookup_ge_None_2 (points G)) in Hp. }
  destruct (divide_loop_value pow h g fresh_g H G (length (bins H)) 0 _ _ Hh0 Hg0 Hn0)
    as (Gn' & Hloop & _ & Hlen' & Hdiv & Hrest); try done.
  { intros i b p _ Hb Hp.
    destruct (Hgood i b Hb) as (p' & errors & Hp' & Hclose & Hy & Herrors).
    assert (p' = p) as -> by congruence. eauto. }
  rewrite Hloop in Hloop1. injection Hloop1 as <-.
  injection Hrun as <- <-. simpl.
  exists Gn'. split; [apply lookup_insert_eq|]. intros i b p Hb Hp.
  destruct (Hdiv i b p) as (q & Hq & _ & _ & Hxl & Hxh & Herr); [|done..|by exists q].
  apply lookup_lt_Some in Hb. lia.
Qed.

(** The histogram of two bins divided by the graph of two points. *)
Lemma divide_tgraph_combines_the_errors_witness :
  ∃ g_new σ' G_new,
    divide_tgraph (Fmt := Example.format) Example.py_pow 0 0 Example.objects
    = Ok (g_new, σ')
    ∧ graphs σ' !! g_new = Some G_new
    ∧ ∃ q, points G_new !! 0%nat = Some q
           ∧ (eyl q, eyh q)
             = (sqrt (0.5 / 2 * (0.5 / 2) + 1 / 6 * (1 / 6)) * (6 / 2),
                sqrt (0.5 / 2 * (0.5 / 2) + 1 / 6 * (1 / 6)) * (6 / 2)).
Proof.
  assert (Hreturns : returns (divide_tgraph (Fmt := Example.format) Example.py_pow
                                0 0 Example.objects) = true)
    by (vm_compute; reflexivity).
  destruct (divide_tgraph _ _ _ _) as [[g_new σ']|e] eqn:Hrun;
    [|discriminate Hreturns].
  destruct (divide_tgraph_combines_the_errors (Fmt := Example.format)
              Example.py_pow Example.objects σ' 0 0 g_new Example.hist2
              Example.graph2 eq_refl eq_refl Hrun) as (G_new & HG & Herrors).
  exists g_new, σ', G_new. split; [reflexivity|]. split; [exact HG|].
  destruct (Herrors 0%nat _ _ eq_refl eq_refl) as (q & Hq & _ & _ & Hy).
  exists q. split; [exact Hq|].
  assert (Hok : Ok (eyl q, eyh q)
                = Ok (sqrt (0.5 / 2 * (0.5 / 2) + 1 / 6 * (1 / 6)) * (6 / 2),
                      sqrt (0.5 / 2 * (0.5 / 2) + 1 / 6 * (1 / 6)) * (6 / 2)))
    by (etrans; [exact Hy|]; vm_compute; reflexivity).
  injection Hok as -> ->. reflexivity.
Defined.

(** X22.  Every bin needs a point with a y-value that is not 0: when the
    graph has no point for some bin (it has fewer points than the
    histogram has bins), or the point of some bin has the y-value 0,
    [divide_tgraph] returns no graph: it raises. *)
Theorem divide_tgraph_needs_a_point_for_every_bin {Fmt : PyFormat}
    (pow : float → float → result float) (σ : heap) (h g : nat) (H : TH1)
    (G : TGraph) :
  hists σ !! h = Some H → graphs σ !! g = Some G →
  (length (points G) < length (bins H))%nat
  ∨ (∃ i b p, bins H !! i = Some b ∧ points G !! i = Some p
              ∧ (point_y p =? 0) = true) →
  ∃ e, divide_tgraph pow h g σ = Raise e.
Proof.
  intros Hh Hg Hbad.
  destruct (divide_tgraph_start pow σ h g H G Hh Hg)
    as (Hfresh & Hne & Hh0 & Hg0 & Hn0 & Hstart).
  set (g_new := fresh (dom (graphs σ))) in *.
  assert (Hbin : ∃ i b, (0 ≤ i < 0 + length (bins H))%nat ∧ bins H !! i = Some b
                        ∧ (isclose (bin_center b) (GetPoint G i).1 = false
                           ∨ ((GetPoint G i).2 =? 0) = true)).
  { destruct Hbad as [Hlen|(i & b & p & Hb & Hp & Hy)].
    - destruct (lookup_lt_is_Some_2 (bins H) (length (points G))) as [b Hb]; [done|].
      exists (length (points G)), b. split; [lia|]. split; [done|]. right.
      unfold GetPoint. by rewrite (lookup_ge_None_2 (points G)).
    - exists i, b. split; [apply lookup_lt_Some in Hb; lia|]. split; [done|]. right.
      unfold GetPoint. by rewrite Hp. }
  destruct (divide_loop_bad pow h g g_new H G (length (bins H)) 0 _ _ Hh0 Hg0 Hn0 Hne
              ltac:(lia) Hbin) as (e & Hloop & Hkind).
  exists e. by rewrite Hstart, Hloop.
Qed.

(** A graph of one point for a histogram of two bins. *)
Lemma divide_tgraph_needs_a_point_for_every_bin_witness :
  ∃ e, divide_tgraph (Fmt := Example.format) Example.py_pow 0 0 Instances.objects1
       = Raise e.
Proof.
  apply (divide_tgraph_needs_a_point_for_every_bin (Fmt := Example.format)
           Example.py_pow Instances.objects1 0 0 Example.hist2 Instances.graph1
           eq_refl eq_refl).
  left. simpl. lia.
Defined.
